(** * wheat_head_counting: annotation conversion scripts

    A shallow embedding of the three scripts of the repository

      - [scripts/reorganize_dataset.py]            (module [Reorganize])
      - [scripts/convert_to_coco.py]               (module [Coco])
      - [data/origin/generate_coco_annotations.py] (module [Generate])

    together with the part of the Python runtime they rely on (module
    [Py]): exceptions, [str] methods, [int()], [float()], [repr] of a
    float, [pathlib.Path.stem] and [sorted].

    Conventions.
    - A Python [str] is a [string]; a character is its code point, so the
      model covers the strings whose code points are below 256.
    - A Python [float] is an IEEE-754 binary64 value, [spec_float] with
      precision 53 and maximal exponent 1024; a Python [int] is a [Z].
    - A call that can raise returns a [result]; [try]/[except] is
      [try_except].
    - A directory is a finite map from file name to content, and an image
      name is a file name inside its directory. A text file is its text,
      with line feeds as line ends; a CSV file is its rows of cells.
    - Where Python versions differ the model follows CPython 3.11 to 3.13
      ([int()] refuses more than 4300 digits; a trailing dot starts no
      suffix in [Path.stem]).
    - Console output ([print]) is not modelled. *)

From Stdlib Require Import ZArith List String Ascii Bool Lia.
From Stdlib Require Import Floats.SpecFloat.
From stdpp Require Import gmap strings list sorting pretty.

#[local] Set Warnings "-clear-no-such-hyp".

Local Open Scope string_scope.
Local Open Scope list_scope.
Local Open Scope Z_scope.

(** ** The Python runtime *)

Module Py.

(** *** Exceptions *)

Inductive exn : Type :=
  | ValueError
  | IndexError
  | OverflowError
  | AttributeError.

Inductive result (A : Type) : Type :=
  | Ok (a : A)
  | Raise (e : exn).

Arguments Ok {A} a.
Arguments Raise {A} e.

#[global] Instance result_bind : MBind result := fun A B k r =>
  match r with
  | Ok a => k a
  | Raise e => Raise e
  end.

(** [try: body except (handled): handler] *)
Definition try_except {A : Type} (body : result A) (handled : exn -> bool)
    (handler : result A) : result A :=
  match body with
  | Ok a => Ok a
  | Raise e => if handled e then handler else Raise e
  end.

(** A list comprehension whose element expression can raise. *)
Fixpoint mapM {A B : Type} (f : A -> result B) (l : list A) : result (list B) :=
  match l with
  | [] => Ok []
  | a :: l' => b ← f a; bs ← mapM f l'; Ok (b :: bs)
  end.

(** *** Characters and [str] methods *)

Definition code (c : ascii) : N := N_of_ascii c.

(** [str.isspace] on one character. *)
Definition isspace (c : ascii) : bool :=
  let n := code c in
  ((9 <=? n) && (n <=? 13) || (28 <=? n) && (n <=? 32)
   || (n =? 133) || (n =? 160))%N.

Definition isdigit (c : ascii) : bool :=
  let n := code c in ((48 <=? n) && (n <=? 57))%N.

Definition digit_value (c : ascii) : Z := Z.of_N (code c) - 48.

(** [str.lower] on one character (ASCII letters and the Latin-1 capitals). *)
Definition lower_char (c : ascii) : ascii :=
  let n := code c in
  if ((65 <=? n) && (n <=? 90) || (192 <=? n) && (n <=? 222) && negb (n =? 215))%N
  then ascii_of_N (n + 32) else c.

Definition chars (s : string) : list ascii := list_ascii_of_string s.
Definition str (l : list ascii) : string := string_of_list_ascii l.

Definition lower (s : string) : string := str (map lower_char (chars s)).

Fixpoint lstrip_chars (l : list ascii) : list ascii :=
  match l with
  | c :: l' => if isspace c then lstrip_chars l' else l
  | [] => []
  end.

Definition strip_chars (l : list ascii) : list ascii :=
  rev (lstrip_chars (rev (lstrip_chars l))).

(** [s.strip()] *)
Definition strip (s : string) : string := str (strip_chars (chars s)).

(** [s.split(sep)] for a one-character separator: the pieces between the
    separators, empty pieces included. *)
Fixpoint split_on_go (sep : ascii) (cur : list ascii) (l : list ascii) : list string :=
  match l with
  | [] => [str (rev cur)]
  | c :: l' =>
      if Ascii.eqb c sep then str (rev cur) :: split_on_go sep [] l'
      else split_on_go sep (c :: cur) l'
  end.

Definition split_on (sep : ascii) (s : string) : list string :=
  split_on_go sep [] (chars s).

(** [s.split()]: the maximal runs of non-whitespace characters. *)
Fixpoint split_go (cur : list ascii) (l : list ascii) : list string :=
  match l with
  | [] => match cur with [] => [] | _ => [str (rev cur)] end
  | c :: l' =>
      if isspace c
      then match cur with
           | [] => split_go [] l'
           | _ => str (rev cur) :: split_go [] l'
           end
      else split_go (c :: cur) l'
  end.

Definition split (s : string) : list string := split_go [] (chars s).

(** Truth value of a [str]. *)
Definition truthy (s : string) : bool :=
  match s with EmptyString => false | _ => true end.

(** *** Numeric literals *)

(** The underscore rule shared by [int()] and [float()]: an underscore
    may only stand between two digits; the underscores are removed.
    [prev] is the character before, NUL at the start. *)
Fixpoint drop_underscores (prev : ascii) (l : list ascii) : option (list ascii) :=
  match l with
  | [] => if Ascii.eqb prev "_" then None else Some []
  | c :: l' =>
      if Ascii.eqb c "_" then
        if isdigit prev then drop_underscores c l' else None
      else if Ascii.eqb prev "_" && negb (isdigit c) then None
      else option_map (cons c) (drop_underscores c l')
  end.

Definition nul : ascii := "000"%char.

(** Leading sign: [(negative, rest)]. *)
Definition take_sign (l : list ascii) : bool * list ascii :=
  match l with
  | c :: l' =>
      if Ascii.eqb c "-" then (true, l')
      else if Ascii.eqb c "+" then (false, l')
      else (false, l)
  | [] => (false, [])
  end.

(** The longest prefix of digits and what follows it. *)
Fixpoint span_digits (l : list ascii) : list ascii * list ascii :=
  match l with
  | c :: l' =>
      if isdigit c then let '(d, r) := span_digits l' in (c :: d, r) else ([], l)
  | [] => ([], [])
  end.

(** Value of a digit string, most significant digit first. *)
Definition digits_value (d : list ascii) : Z :=
  fold_left (fun acc c => 10 * acc + digit_value c) d 0.

(** Default of [sys.get_int_max_str_digits()]. *)
Definition int_max_str_digits : nat := 4300.

(** [int(s)] for a [str] argument, base 10. *)
Definition int_of_str (s : string) : result Z :=
  let '(neg, body) := take_sign (strip_chars (chars s)) in
  match body with
  | [] => Raise ValueError
  | c :: _ =>
      if forallb (fun c => isdigit c || Ascii.eqb c "_") body then
        match drop_underscores nul body with
        | Some d =>
            if (int_max_str_digits <? length d)%nat then Raise ValueError
            else Ok (if neg then - digits_value d else digits_value d)
        | None => Raise ValueError
        end
      else Raise ValueError
  end.

(** *** Floats *)

Definition prec : Z := 53.
Definition emax : Z := 1024.

Definition float : Type := spec_float.

Definition fsub : float -> float -> float := SFsub prec emax.
Definition fmul : float -> float -> float := SFmul prec emax.

(** [float(n)] for an [int] that does not overflow. *)
Definition float_of_Z (n : Z) : float := binary_normalize prec emax n 0 false.

(** The binary64 value nearest to [m * 10^k] (ties to even), [0 <= m]. *)
Definition float_of_decimal (neg : bool) (m k : Z) : float :=
  match m with
  | Z0 => S754_zero neg
  | Zpos p =>
      if 0 <=? k then binary_normalize prec emax (if neg then - (m * 10 ^ k) else m * 10 ^ k) 0 neg
      else
        let '(q, e, l) := SFdiv_core_binary prec emax m 0 (10 ^ (- k)) 0 in
        binary_round_aux prec emax neg q e l
  | Zneg _ => S754_nan
  end.

Definition lower_chars (l : list ascii) : string := lower (str l).

(** Optional exponent part [e[+-]digits] followed by the end of the
    literal; [None] when what is left is not that. *)
Definition exponent_part (l : list ascii) : option Z :=
  match l with
  | [] => Some 0
  | c :: l' =>
      if Ascii.eqb c "e" || Ascii.eqb c "E" then
        let '(neg, l'') := take_sign l' in
        match span_digits l'' with
        | ((_ :: _) as d, []) => Some (if neg then - digits_value d else digits_value d)
        | _ => None
        end
      else None
  end.

(** [float(s)] for a [str] argument. *)
Definition float_of_str (s : string) : result float :=
  match drop_underscores nul (strip_chars (chars s)) with
  | None => Raise ValueError
  | Some l =>
      let '(neg, body) := take_sign l in
      let name := lower_chars body in
      if String.eqb name "inf" || String.eqb name "infinity" then Ok (S754_infinity neg)
      else if String.eqb name "nan" then Ok S754_nan
      else
        let '(ip, r1) := span_digits body in
        let '(fp, r2) :=
          match r1 with
          | "."%char :: r => span_digits r
          | _ => ([], r1)
          end in
        match ip ++ fp with
        | [] => Raise ValueError
        | ds =>
            match exponent_part r2 with
            | Some e => Ok (float_of_decimal neg (digits_value ds) (e - Z.of_nat (length fp)))
            | None => Raise ValueError
            end
        end
  end.

(** [int(f)] for a float: truncation toward zero. *)
Definition int_of_float (f : float) : result Z :=
  match f with
  | S754_zero _ => Ok 0
  | S754_infinity _ => Raise OverflowError
  | S754_nan => Raise ValueError
  | S754_finite s m e =>
      let a := if 0 <=? e then Z.pos m * 2 ^ e else Z.pos m / 2 ^ (- e) in
      Ok (if s then - a else a)
  end.

(** *** [repr] of a float

    The shortest decimal digit string that reads back as the same float
    (the nearest one when several of that length do), laid out as CPython
    does: exponent notation when the decimal point position is below -3 or
    above 16. *)

(** A positive finite float as a fraction [num / den]. *)
Definition fraction (m : positive) (e : Z) : Z * Z :=
  if 0 <=? e then (Z.pos m * 2 ^ e, 1) else (Z.pos m, 2 ^ (- e)).

(** [floor (log10 (num / den))], searched upwards or downwards. *)
Fixpoint log10_up (fuel : nat) (num den : Z) (j : Z) : Z :=
  match fuel with
  | O => j
  | S fuel' => if den * 10 <=? num then log10_up fuel' num (den * 10) (j + 1) else j
  end.

Fixpoint log10_down (fuel : nat) (num den : Z) (j : Z) : Z :=
  match fuel with
  | O => j
  | S fuel' => if num <? den then log10_down fuel' (num * 10) den (j - 1) else j
  end.

Definition log10_floor (num den : Z) : Z :=
  if den <=? num then log10_up 400 num den 0 else log10_down 400 num den 0.

(** The [n]-digit decimal [d * 10^k] that reads back as the float
    [m * 2^e], if there is one. *)
Definition digits_at (m : positive) (e : Z) (n : Z) : option (Z * Z) :=
  let '(num, den) := fraction m e in
  let k := log10_floor num den - (n - 1) in
  let '(num', den') := if 0 <=? k then (num, den * 10 ^ k) else (num * 10 ^ (- k), den) in
  let lo := num' / den' in
  let r := num' mod den' in
  let back d := match float_of_decimal false d k with
                | S754_finite false m' e' => Pos.eqb m m' && (e =? e')
                | _ => false
                end in
  let prefer_lo := (2 * r <? den') || ((2 * r =? den') && Z.even lo) in
  match back lo, back (lo + 1) with
  | true, true => Some (if prefer_lo then lo else lo + 1, k)
  | true, false => Some (lo, k)
  | false, true => Some (lo + 1, k)
  | false, false => None
  end.

Fixpoint shortest_digits (fuel : nat) (m : positive) (e : Z) (n : Z) : Z * Z :=
  match fuel with
  | O => (0, 0)
  | S fuel' =>
      match digits_at m e n with
      | Some dk => dk
      | None => shortest_digits fuel' m e (n + 1)
      end
  end.

(** Drop the trailing zeros of [d * 10^k]. *)
Fixpoint trim_zeros (fuel : nat) (d k : Z) : Z * Z :=
  match fuel with
  | O => (d, k)
  | S fuel' => if (d mod 10 =? 0) && negb (d =? 0) then trim_zeros fuel' (d / 10) (k + 1) else (d, k)
  end.

Definition str_of_Z (n : Z) : string := pretty n.
Definition str_of_nat (n : nat) : string := pretty n.

Definition zeros (n : Z) : string := str (repeat "0"%char (Z.to_nat n)).

Definition substring_from (i : nat) (s : string) : string :=
  String.substring i (String.length s - i) s.

Definition repr_finite (m : positive) (e : Z) : string :=
  let '(d, k) := shortest_digits 17 m e 1 in
  let '(d, k) := trim_zeros 20 d k in
  let ds := str_of_Z d in
  let n := Z.of_nat (String.length ds) in
  let decpt := n + k in
  if (decpt <=? -4) || (16 <? decpt) then
    let ex := decpt - 1 in
    let mant := if n =? 1 then ds
                else String.substring 0 1 ds +:+ "." +:+ substring_from 1 ds in
    let ed := str_of_Z (Z.abs ex) in
    mant +:+ "e" +:+ (if ex <? 0 then "-" else "+")
         +:+ (if Z.abs ex <? 10 then "0" else "") +:+ ed
  else if decpt <=? 0 then "0." +:+ zeros (- decpt) +:+ ds
  else if n <=? decpt then ds +:+ zeros (decpt - n) +:+ ".0"
  else String.substring 0 (Z.to_nat decpt) ds +:+ "." +:+ substring_from (Z.to_nat decpt) ds.

(** [repr(f)], also what [csv.writer] writes for a float. *)
Definition repr (f : float) : string :=
  match f with
  | S754_zero s => if s then "-0.0" else "0.0"
  | S754_infinity s => if s then "-inf" else "inf"
  | S754_nan => "nan"
  | S754_finite s m e => (if s then "-" else "") +:+ repr_finite m e
  end.

(** *** [pathlib] *)

(** [Path(p).name]: the last component that is neither empty nor ["."]. *)
Definition path_name (p : string) : string :=
  List.last (List.filter (fun c => negb (String.eqb c "" || String.eqb c "."))
                         (split_on "/" p)) "".

(** Index of the last ["."] of [l] counted from position [i], if any. *)
Fixpoint rfind_dot (i : nat) (l : list ascii) : option nat :=
  match l with
  | [] => None
  | c :: l' =>
      match rfind_dot (S i) l' with
      | Some j => Some j
      | None => if Ascii.eqb c "." then Some i else None
      end
  end.

(** [Path(p).stem]: the name without its last suffix; a leading or a
    trailing dot starts no suffix. *)
Definition stem (p : string) : string :=
  let name := path_name p in
  match rfind_dot 0 (chars name) with
  | Some i =>
      if (0 <? i)%nat && (i <? String.length name - 1)%nat
      then String.substring 0 i name else name
  | None => name
  end.

(** [name.endswith(suffix)] *)
Definition endswith (suffix name : string) : bool :=
  let n := String.length name in
  let k := String.length suffix in
  (k <=? n)%nat && String.eqb (substring_from (n - k) name) suffix.

(** *** Sets and [sorted] *)

(** [sorted(s)] for a set of strings: ascending code-point order. *)
Definition sorted (s : gset string) : list string :=
  merge_sort String.le (elements s).

(** *** Dictionaries

    A [dict] keeps its keys in insertion order; assigning to a key that is
    present keeps its place and replaces its value. *)
Definition dict (V : Type) : Type := list (string * V).

Fixpoint dict_set {V : Type} (k : string) (v : V) (d : dict V) : dict V :=
  match d with
  | [] => [(k, v)]
  | (k', v') :: d' =>
      if String.eqb k k' then (k, v) :: d' else (k', v') :: dict_set k v d'
  end.

Fixpoint dict_get {V : Type} (k : string) (d : dict V) : option V :=
  match d with
  | [] => None
  | (k', v') :: d' => if String.eqb k k' then Some v' else dict_get k d'
  end.

Definition dict_keys {V : Type} (d : dict V) : list string := map fst d.

(** [{**d1, **d2}] onto an accumulator. *)
Definition dict_update {V : Type} (d1 d2 : dict V) : dict V :=
  fold_left (fun d kv => dict_set (fst kv) (snd kv) d) d2 d1.

(** *** [str.splitlines] *)

Definition islinebreak (c : ascii) : bool :=
  let n := code c in
  ((10 <=? n) && (n <=? 13) || (28 <=? n) && (n <=? 30) || (n =? 133))%N.

Fixpoint splitlines_go (cur : list ascii) (l : list ascii) : list string :=
  match l with
  | [] => match cur with [] => [] | _ => [str (rev cur)] end
  | c :: l' =>
      if islinebreak c then
        str (rev cur) ::
          match c, l' with
          | "013"%char, "010"%char :: l'' => splitlines_go [] l''
          | _, _ => splitlines_go [] l'
          end
      else splitlines_go (c :: cur) l'
  end.

Definition splitlines (s : string) : list string := splitlines_go [] (chars s).

(** *** Files and the [csv] module *)

Definition nl : string := String "010"%char EmptyString.

(** A CSV file is modelled by its rows of cells: what [csv.writer] is
    handed (numbers as their [str]/[repr]) is what [csv.reader] returns. *)
Definition csv_file : Type := list (list string).

(** One entry of a [csv.DictReader] row: a field name with its cell
    ([None] when the row is too short), or the cells in excess of the
    header, kept under the key [None]. *)
Inductive entry : Type :=
  | Field (key : string) (value : option string)
  | Rest (cells : list string).

Fixpoint zip_fields (fieldnames : list string) (row : list string) : list entry :=
  match fieldnames, row with
  | [], [] => []
  | [], _ :: _ => [Rest row]
  | k :: ks, [] => Field k None :: zip_fields ks []
  | k :: ks, c :: cs => Field k (Some c) :: zip_fields ks cs
  end.

(** The rows a [csv.DictReader] yields after the header: empty rows are
    skipped. *)
Definition dict_rows (fieldnames : list string) (rows : list (list string))
    : list (list entry) :=
  map (zip_fields fieldnames)
      (List.filter (fun r => match r with [] => false | _ => true end) rows).

(** *** More of [str], [os.path] and [format] *)

(** [name.startswith(prefix)] *)
Definition startswith (prefix name : string) : bool := String.prefix prefix name.

(** Index of the last [c] of [l], counted from position [i], if any. *)
Fixpoint rfind (c : ascii) (i : nat) (l : list ascii) : option nat :=
  match l with
  | [] => None
  | a :: l' =>
      match rfind c (S i) l' with
      | Some j => Some j
      | None => if Ascii.eqb a c then Some i else None
      end
  end.

(** [os.path.splitext(p)[0]]: [p] up to its last dot, when that dot comes
    after the last slash and after a character of the file name that is
    not a dot. *)
Definition splitext_root (p : string) : string :=
  let l := chars p in
  match rfind "." 0 l with
  | None => p
  | Some dot =>
      let start := match rfind "/" 0 l with Some sep => S sep | None => O end in
      if (start <=? dot)%nat
         && existsb (fun c => negb (Ascii.eqb c "."))
                    (firstn (dot - start) (skipn start l))
      then String.substring 0 dot p else p
  end.

(** [format(n, "03d")] *)
Definition format_03d (n : Z) : string :=
  let digits := str_of_Z (Z.abs n) in
  if n <? 0 then "-" +:+ zeros (2 - Z.of_nat (String.length digits)) +:+ digits
  else zeros (3 - Z.of_nat (String.length digits)) +:+ digits.

End Py.

Import Py.

(** Exceptions caught by [except (ValueError, IndexError)]. *)
Definition value_or_index_error (e : exn) : bool :=
  match e with
  | ValueError | IndexError => true
  | _ => false
  end.

(** ** [scripts/reorganize_dataset.py] *)

Module Reorganize.

(** The dict appended by [parse_boxes_string]. *)
Record box : Type := Box {
  item : nat;
  x : float;
  y : float;
  width : float;
  height : float;
  label : Z
}.

(** Body of the [try] block for one segment: the boxes list afterwards. *)
Definition parse_box (item_id : nat) (box_str : string) (boxes : list box)
    : result (list box) :=
  coords ← mapM float_of_str (split (strip box_str));
  match coords with
  | [x1; y1; x2; y2] =>
      Ok (boxes ++ [ {| item := item_id; x := x1; y := y1;
                        width := fsub x2 x1; height := fsub y2 y1;
                        label := 1 |} ])
  | _ => Ok boxes
  end.

(** The [for item_id, box_str in enumerate(box_strings)] loop. *)
Fixpoint parse_loop (item_id : nat) (box_strings : list string) (boxes : list box)
    : result (list box) :=
  match box_strings with
  | [] => Ok boxes
  | box_str :: rest =>
      if truthy (strip box_str) then
        boxes' ← try_except (parse_box item_id box_str boxes)
                            value_or_index_error (Ok boxes);
        parse_loop (S item_id) rest boxes'
      else parse_loop (S item_id) rest boxes
  end.

Definition parse_boxes_string (boxes_string : option string) : result (list box) :=
  match boxes_string with
  | None => Ok []
  | Some s =>
      if negb (truthy s) || String.eqb s "" then Ok []
      else parse_loop 0 (split_on ";" s) []
  end.

Definition header : list string := ["#item"; "x"; "y"; "width"; "height"; "label"].

(** The row written for one box. *)
Definition box_row (b : box) : list string :=
  [str_of_nat (item b); repr (x b); repr (y b); repr (width b); repr (height b);
   str_of_Z (label b)].

(** The directories the script works on, each a map from file name to
    content; image names are file names inside [images/]. *)
Record disk : Type := Disk {
  images_dir : gmap string string;
  images_output_dir : gmap string string;
  json_dir : gmap string string;
  csv_dir : gmap string csv_file;
  sets_dir : gmap string string
}.

(** [create_csv_annotation]: the [csv/] directory afterwards. *)
Definition create_csv_annotation (image_name : string) (boxes_data : list box)
    (output_dir : gmap string csv_file) : gmap string csv_file :=
  <[ stem image_name +:+ ".csv" := header :: map box_row boxes_data ]> output_dir.

(** [read_csv_data] on the [(image_name, BoxesString)] cells of the data
    rows of a wide table, in file order; [BoxesString] is [None] in a row
    that ends before that column. An unreadable file or a table without
    these two columns has no such rows. Every row is taken to have its
    [image_name] cell. *)
Definition read_csv_data (rows : list (string * option string)) : dict (option string) :=
  dict_update [] rows.

(** The text written to one [sets/*.txt] file. *)
Definition set_file (images : gset string) : string :=
  String.concat "" (map (fun img_name => stem img_name +:+ nl) (sorted images)).

(** What a run has done so far: the disk, the destinations of the
    [shutil.copy2] calls, and the two counters. *)
Record run : Type := Run {
  fs : disk;
  copied : list string;
  processed : nat;
  skipped : nat
}.

(** One iteration of [for image_name, boxes_string in all_data.items()]. *)
Definition process_image (image_name : string) (boxes_string : option string)
    (r : run) : result run :=
  let d := fs r in
  let image_stem := stem image_name in
  match images_dir d !! image_name with
  | None => Ok {| fs := d; copied := copied r; processed := processed r;
                  skipped := S (skipped r) |}
  | Some image =>
      let '(images', log1) :=
        match images_output_dir d !! image_name with
        | None => (<[image_name := image]> (images_output_dir d),
                   ["images/" +:+ image_name])
        | Some _ => (images_output_dir d, [])
        end in
      let '(json', log2) :=
        match images_dir d !! (image_stem +:+ ".json") with
        | Some json =>
            match json_dir d !! (image_stem +:+ ".json") with
            | None => (<[image_stem +:+ ".json" := json]> (json_dir d),
                       ["json/" +:+ image_stem +:+ ".json"])
            | Some _ => (json_dir d, [])
            end
        | None => (json_dir d, [])
        end in
      boxes_data ← parse_boxes_string boxes_string;
      Ok {| fs := {| images_dir := images_dir d;
                     images_output_dir := images';
                     json_dir := json';
                     csv_dir := create_csv_annotation image_name boxes_data (csv_dir d);
                     sets_dir := sets_dir d |};
            copied := copied r ++ log1 ++ log2;
            processed := S (processed r);
            skipped := skipped r |}
  end.

Fixpoint process_all (all_data : dict (option string)) (r : run) : result run :=
  match all_data with
  | [] => Ok r
  | (image_name, boxes_string) :: rest =>
      r' ← process_image image_name boxes_string r;
      process_all rest r'
  end.

(** [main], given the rows of the three wide tables. *)
Definition main (train val test : list (string * option string)) (d : disk)
    : result run :=
  let train_data := read_csv_data train in
  let val_data := read_csv_data val in
  let test_data := read_csv_data test in
  let train_images : gset string := list_to_set (dict_keys train_data) in
  let val_images : gset string := list_to_set (dict_keys val_data) in
  let test_images : gset string := list_to_set (dict_keys test_data) in
  let all_images := train_images ∪ val_images ∪ test_images in
  let train_val_images := train_images ∪ val_images in
  let sets' :=
    <["train_val.txt" := set_file train_val_images]>
      (<["all.txt" := set_file all_images]>
        (<["test.txt" := set_file test_images]>
          (<["val.txt" := set_file val_images]>
            (<["train.txt" := set_file train_images]> (sets_dir d))))) in
  let all_data := dict_update (dict_update (dict_update [] train_data) val_data) test_data in
  process_all all_data
    {| fs := {| images_dir := images_dir d;
                images_output_dir := images_output_dir d;
                json_dir := json_dir d;
                csv_dir := csv_dir d;
                sets_dir := sets' |};
       copied := []; processed := 0; skipped := 0 |}.

(** [dict(zip(fieldnames, row))] as [csv.DictReader] builds it, on its
    string keys. *)
Fixpoint raw_dict (raw_row : list entry) (row : dict (option string))
    : dict (option string) :=
  match raw_row with
  | [] => row
  | Field k v :: rest => raw_dict rest (dict_set k v row)
  | Rest _ :: rest => raw_dict rest row
  end.

(** The loop of [read_csv_data] over a file ([None]: opening it raises,
    which the [except] clause turns into no row at all): for each row
    with both keys, its [image_name] and [BoxesString]. *)
Definition read_csv_rows (file : option csv_file)
    : list (option string * option string) :=
  match file with
  | None => []
  | Some [] => []
  | Some (fieldnames :: rows) =>
      omap (fun raw_row =>
              let row := raw_dict raw_row [] in
              match dict_get "image_name" row, dict_get "BoxesString" row with
              | Some image_name, Some boxes_string => Some (image_name, boxes_string)
              | _, _ => None
              end)
           (dict_rows fieldnames rows)
  end.

End Reorganize.

(** ** [data/origin/generate_coco_annotations.py] *)

Module Generate.

(** The dict appended by [parse_boxes_string]. *)
Record box : Type := Box {
  bbox : list Z;
  area : Z
}.

Definition parse_box (box_str : string) (boxes : list box) : result (list box) :=
  coords ← mapM int_of_str (split (strip box_str));
  match coords with
  | [x1; y1; x2; y2] =>
      Ok (boxes ++ [ {| bbox := [x1; y1; x2 - x1; y2 - y1];
                        area := (x2 - x1) * (y2 - y1) |} ])
  | _ => Ok boxes
  end.

(** The [for box_str in box_strings] loop. *)
Fixpoint parse_loop (box_strings : list string) (boxes : list box) : result (list box) :=
  match box_strings with
  | [] => Ok boxes
  | box_str :: rest =>
      if truthy (strip box_str) then
        boxes' ← try_except (parse_box box_str boxes)
                            value_or_index_error (Ok boxes);
        parse_loop rest boxes'
      else parse_loop rest boxes
  end.

Definition parse_boxes_string (boxes_string : option string) : result (list box) :=
  match boxes_string with
  | None => Ok []
  | Some s =>
      if negb (truthy s) || String.eqb s "" then Ok []
      else parse_loop (split_on ";" s) []
  end.

Record image : Type := Image {
  image_id_of : Z;            (* "id" *)
  image_width : Z;
  image_height : Z;
  image_file_name : string;
  image_size : nat
}.

Record annotation : Type := Annotation {
  ann_id : Z;                 (* "id" *)
  ann_image_id : Z;           (* "image_id" *)
  ann_category_id : Z;
  ann_area : Z;
  ann_bbox : list Z
}.

Record coco : Type := Coco {
  images : list image;
  annotations : list annotation
}.

(** [create_coco_annotation]; [decode] is PIL's [Image.open(...).size],
    [None] when it raises, and [content] the bytes of the image file. *)
Definition create_coco_annotation (decode : string -> option (Z * Z))
    (content : string) (image_name : string) (boxes_data : list box)
    (image_id annotation_id : Z) : coco :=
  let '(w, h) := match decode content with
                 | Some wh => wh
                 | None => (512, 512)
                 end in
  {| images := [ {| image_id_of := image_id; image_width := w; image_height := h;
                    image_file_name := image_name;
                    image_size := String.length content |} ];
     annotations :=
       imap (fun i box_data =>
               {| ann_id := annotation_id + Z.of_nat i;
                  ann_image_id := image_id;
                  ann_category_id := 1;
                  ann_area := area box_data;
                  ann_bbox := bbox box_data |}) boxes_data |}.

(** [generate_unique_id], given what [random.randint(1000000, 9999999)]
    returns and [int(time.time())]. *)
Definition generate_unique_id (random_part now : Z) : result Z :=
  let timestamp_part := now mod 1000 in
  int_of_str (str_of_Z random_part +:+ format_03d timestamp_part).

Definition read_csv_data (rows : list (string * option string)) : dict (option string) :=
  dict_update [] rows.

(** [glob.glob('images/*.png')] on the listing of [images/], in the
    order of the listing: the names that end in [.png] and do not start
    with a dot. *)
Definition glob_png (listing : list (string * string)) : list (string * string) :=
  List.filter (fun file => endswith ".png" (fst file) && negb (startswith "." (fst file)))
              listing.

(** The JSON files of [images/] and the number of ids generated so far. *)
Record state : Type := State {
  json_files : gmap string coco;
  drawn : nat
}.

(** Body of [for image_file in image_files]; [draws i] is what the
    [i]-th call of [generate_unique_id] gets from [random] and [time]. *)
Definition process_file (decode : string -> option (Z * Z)) (draws : nat -> Z * Z)
    (all_data : dict (option string)) (file : string * string) (st : state)
    : result state :=
  let '(image_name, content) := file in
  match dict_get image_name all_data with
  | Some (Some boxes_string) =>
      boxes_data ← parse_boxes_string (Some boxes_string);
      image_id ← generate_unique_id (fst (draws (drawn st))) (snd (draws (drawn st)));
      annotation_id ← generate_unique_id (fst (draws (S (drawn st))))
                                         (snd (draws (S (drawn st))));
      let coco_data := create_coco_annotation decode content image_name boxes_data
                         image_id annotation_id in
      Ok {| json_files := <[splitext_root image_name +:+ ".json" := coco_data]>
                            (json_files st);
            drawn := S (S (drawn st)) |}
  | _ => Ok st
  end.

Fixpoint process_files (decode : string -> option (Z * Z)) (draws : nat -> Z * Z)
    (all_data : dict (option string)) (files : list (string * string)) (st : state)
    : result state :=
  match files with
  | [] => Ok st
  | file :: rest =>
      st' ← process_file decode draws all_data file st;
      process_files decode draws all_data rest st'
  end.

(** [main], given the rows of the three wide tables and the listing of
    [images/]. *)
Definition main (decode : string -> option (Z * Z)) (draws : nat -> Z * Z)
    (train val test : list (string * option string))
    (listing : list (string * string)) (json : gmap string coco) : result state :=
  let train_data := read_csv_data train in
  let val_data := read_csv_data val in
  let test_data := read_csv_data test in
  let all_data := dict_update (dict_update (dict_update [] train_data) val_data) test_data in
  process_files decode draws all_data (glob_png listing)
    {| json_files := json; drawn := 0 |}.

End Generate.

(** ** [scripts/convert_to_coco.py] *)

Module Coco.

(** The dict appended by [_parse_csv_boxes]. *)
Record box : Type := Box {
  bbox : list float;
  area : float;
  category_id : Z
}.

Record image : Type := Image {
  image_id_of : Z;            (* "id" *)
  file_name : string;
  width : Z;
  height : Z
}.

Record annotation : Type := Annotation {
  ann_id : Z;                 (* "id" *)
  image_id : Z;
  ann_category_id : Z;
  ann_bbox : list float;
  ann_area : float;
  iscrowd : Z
}.

Record category : Type := Category {
  cat_id : Z;
  name : string;
  supercategory : string
}.

(** [_read_split_list]; [None] is a file that does not exist. *)
Definition _read_split_list (split_file : option string) : list string :=
  match split_file with
  | None => []
  | Some text =>
      List.filter truthy (map strip (splitlines text))
  end.

(** [{k.lower(): v for k, v in raw_row.items()}]: the key [None] of an
    overlong row has no [lower]. *)
Fixpoint lower_row (raw_row : list entry) (row : dict (option string))
    : result (dict (option string)) :=
  match raw_row with
  | [] => Ok row
  | Field k v :: rest => lower_row rest (dict_set (lower k) v row)
  | Rest _ :: _ => Raise AttributeError
  end.

Definition value_error (e : exn) : bool :=
  match e with ValueError => true | _ => false end.

(** The local function [get] of [_parse_csv_boxes]. *)
Fixpoint get (row : dict (option string)) (keys : list string) : result (option float) :=
  match keys with
  | [] => Ok None
  | key :: keys' =>
      match dict_get key row with
      | Some (Some v) =>
          if String.eqb v "" then get row keys'
          else try_except (f ← float_of_str v; Ok (Some f)) value_error (get row keys')
      | _ => get row keys'
      end
  end.

Definition two : float := float_of_Z 2.

(** Body of [for raw_row in reader]: the boxes list afterwards. *)
Definition parse_row (raw_row : list entry) (boxes : list box) : result (list box) :=
  row ← lower_row raw_row [];
  x ← get row ["x"; "xc"; "x_center"];
  y ← get row ["y"; "yc"; "y_center"];
  r ← get row ["r"; "radius"];
  w ← get row ["w"; "width"; "dx"];
  h ← get row ["h"; "height"; "dy"];
  label ← get row ["label"; "class"; "category_id"];
  match x, y with
  | Some x, Some y =>
      category_id ← match label with
                    | Some l => int_of_float l
                    | None => Ok 1
                    end;
      match r, w, h with
      | Some r, _, _ =>
          Ok (boxes ++ [ {| bbox := [fsub x r; fsub y r; fmul two r; fmul two r];
                            area := fmul (fmul two r) (fmul two r);
                            category_id := category_id |} ])
      | None, Some w, Some h =>
          Ok (boxes ++ [ {| bbox := [x; y; w; h]; area := fmul w h;
                            category_id := category_id |} ])
      | _, _, _ => Ok boxes
      end
  | _, _ => Ok boxes
  end.

Fixpoint parse_rows (rows : list (list entry)) (boxes : list box) : result (list box) :=
  match rows with
  | [] => Ok boxes
  | raw_row :: rest => boxes' ← parse_row raw_row boxes; parse_rows rest boxes'
  end.

(** [_parse_csv_boxes]; [None] is a file that does not exist. *)
Definition _parse_csv_boxes (csv : option csv_file) : result (list box) :=
  match csv with
  | None => Ok []
  | Some [] => Ok []
  | Some (fieldnames :: rows) => parse_rows (dict_rows fieldnames rows) []
  end.

Section Converter.

(** PIL's [Image.open(path)] size, [None] when opening raises. *)
Variable decode : string -> option (Z * Z).

Definition _image_size (content : string) : Z * Z :=
  match decode content with
  | Some wh => wh
  | None => (1024, 1024)
  end.

Variable category_root_name : string.
Variable images_dir : gmap string string.
Variable annotations_dir : gmap string csv_file.
Variable sets_dir : gmap string string.

(** [{p.stem for p in images_dir.glob("*" + ext)}] *)
Definition glob_stems (ext : string) : gset string :=
  list_to_set (map stem (List.filter (endswith ext) (elements (dom images_dir)))).

(** The image file of a stem: [.png], then [.jpg], then [.bmp]. *)
Definition find_image (stem : string) : option (string * string) :=
  match images_dir !! (stem +:+ ".png") with
  | Some c => Some (stem +:+ ".png", c)
  | None =>
      match images_dir !! (stem +:+ ".jpg") with
      | Some c => Some (stem +:+ ".jpg", c)
      | None =>
          match images_dir !! (stem +:+ ".bmp") with
          | Some c => Some (stem +:+ ".bmp", c)
          | None => None
          end
      end
  end.

(** The lists and counters the loop over the stems updates. *)
Record acc : Type := Acc {
  images : list image;
  anns : list annotation;
  image_id_counter : Z;
  ann_id_counter : Z
}.

(** [for box in _parse_csv_boxes(csv_path)] *)
Fixpoint add_boxes (boxes : list box) (image_id : Z) (anns : list annotation)
    (ann_id_counter : Z) : list annotation * Z :=
  match boxes with
  | [] => (anns, ann_id_counter)
  | b :: rest =>
      add_boxes rest image_id
        (anns ++ [ {| ann_id := ann_id_counter; image_id := image_id;
                      ann_category_id := category_id b; ann_bbox := bbox b;
                      ann_area := area b; iscrowd := 0 |} ])
        (ann_id_counter + 1)
  end.

(** Body of [for stem in sorted(image_stems)]. *)
Definition visit (stem : string) (a : acc) : result acc :=
  match find_image stem with
  | None => Ok a
  | Some (img_name, content) =>
      let '(w, h) := _image_size content in
      let images' :=
        images a ++ [ {| image_id_of := image_id_counter a;
                         file_name := category_root_name +:+ "/images/" +:+ img_name;
                         width := w; height := h |} ] in
      boxes ← _parse_csv_boxes (annotations_dir !! (stem +:+ ".csv"));
      let '(anns', next) := add_boxes boxes (image_id_counter a) (anns a) (ann_id_counter a) in
      Ok {| images := images'; anns := anns';
            image_id_counter := image_id_counter a + 1;
            ann_id_counter := next |}
  end.

Fixpoint visit_all (stems : list string) (a : acc) : result acc :=
  match stems with
  | [] => Ok a
  | stem :: rest => a' ← visit stem a; visit_all rest a'
  end.

(** The stems of a split: its file, or every image when the file is
    missing or lists nothing. *)
Definition image_stems (split : string) : gset string :=
  let listed : gset string :=
    list_to_set (_read_split_list (sets_dir !! (split +:+ ".txt"))) in
  if decide (listed = ∅)
  then glob_stems ".jpg" ∪ glob_stems ".png" ∪ glob_stems ".bmp"
  else listed.

Definition _collect_annotations_for_split (split : string) (category_name : string)
    : result (list image * list annotation * list category) :=
  a ← visit_all (sorted (image_stems split))
        {| images := []; anns := []; image_id_counter := 1; ann_id_counter := 1 |};
  Ok (images a, anns a,
      [ {| cat_id := 1; name := category_name; supercategory := "cereal" |} ]).

End Converter.

(** [_lower_keys] *)
Definition _lower_keys (mapping : dict string) : dict string :=
  fold_left (fun d kv => dict_set (lower (fst kv)) (snd kv) d) mapping [].

(** The document [_build_coco_dict] returns. *)
Record coco_dict : Type := CocoDict {
  info_year : Z;
  info_version : string;
  info_description : string;
  info_url : string;
  doc_images : list image;
  doc_annotations : list annotation;
  doc_categories : list category;
  doc_licenses : list string
}.

Definition _build_coco_dict (images : list image) (anns : list annotation)
    (categories : list category) (description : string) : coco_dict :=
  {| info_year := 2025;
     info_version := "1.0.0";
     info_description := description;
     info_url := "https://zenodo.org/records/5092309/files/gwhd_2021.zip?download=1";
     doc_images := images;
     doc_annotations := anns;
     doc_categories := categories;
     doc_licenses := [] |}.

(** [convert]: the output directory afterwards. [category] is the name of
    the category folder, whose three directories are given. *)
Fixpoint convert (decode : string -> option (Z * Z)) (category : string)
    (images_dir : gmap string string) (annotations_dir : gmap string csv_file)
    (sets_dir : gmap string string) (splits : list string)
    (out_dir : gmap string coco_dict) : result (gmap string coco_dict) :=
  match splits with
  | [] => Ok out_dir
  | split :: rest =>
      collected ← _collect_annotations_for_split decode category images_dir
                    annotations_dir sets_dir split "wheat_head";
      let '(images, anns, categories) := collected in
      let desc := "wheat_head_counting " +:+ category +:+ " " +:+ split +:+ " split" in
      let coco := _build_coco_dict images anns categories desc in
      convert decode category images_dir annotations_dir sets_dir rest
        (<[category +:+ "_instances_" +:+ split +:+ ".json" := coco]> out_dir)
  end.

End Coco.

(** ** Specification-level definitions *)

Module Spec.

(** What one segment of a box string contributes in
    [reorganize_dataset.py]: a record when its tokens are exactly four
    strings that [float()] accepts, nothing otherwise. *)
Definition reorganize_segment (item_id : nat) (seg : string) : option Reorganize.box :=
  match mapM float_of_str (split (strip seg)) with
  | Ok [x1; y1; x2; y2] =>
      Some {| Reorganize.item := item_id; Reorganize.x := x1; Reorganize.y := y1;
              Reorganize.width := fsub x2 x1; Reorganize.height := fsub y2 y1;
              Reorganize.label := 1 |}
  | _ => None
  end.

(** The same for [generate_coco_annotations.py], with [int()]. *)
Definition generate_segment (seg : string) : option Generate.box :=
  match mapM int_of_str (split (strip seg)) with
  | Ok [x1; y1; x2; y2] =>
      Some {| Generate.bbox := [x1; y1; x2 - x1; y2 - y1];
              Generate.area := (x2 - x1) * (y2 - y1) |}
  | _ => None
  end.

(** The records of a whole box string, segment by segment. *)
Definition reorganize_boxes (s : string) : list Reorganize.box :=
  omap id (imap reorganize_segment (split_on ";" s)).

Definition generate_boxes (s : string) : list Generate.box :=
  omap generate_segment (split_on ";" s).

(** Number the elements of a list from [n] on. *)
Fixpoint number {A : Type} (n : Z) (l : list A) : list (Z * A) :=
  match l with
  | [] => []
  | a :: l' => (n, a) :: number (n + 1) l'
  end.

(** The annotation made of a box, with its id and the id of its image. *)
Definition annotation_of (entry : Z * (Z * Coco.box)) : Coco.annotation :=
  let '(id, (image_id, box)) := entry in
  {| Coco.ann_id := id; Coco.image_id := image_id;
     Coco.ann_category_id := Coco.category_id box;
     Coco.ann_bbox := Coco.bbox box;
     Coco.ann_area := Coco.area box; Coco.iscrowd := 0 |}.

(** The image entry made of an image file and its id. *)
Definition image_of (decode : string -> option (Z * Z)) (category_root_name : string)
    (entry : Z * (string * (string * string))) : Coco.image :=
  let '(id, (_, (img_name, content))) := entry in
  {| Coco.image_id_of := id;
     Coco.file_name := category_root_name +:+ "/images/" +:+ img_name;
     Coco.width := fst (Coco._image_size decode content);
     Coco.height := snd (Coco._image_size decode content) |}.

(** The stems whose image file is found, each with that file. *)
Definition found (images_dir : gmap string string) (stems : list string)
    : list (string * (string * string)) :=
  omap (fun stem => pair stem <$> Coco.find_image images_dir stem) stems.

(** The boxes of the images, each with the id of its image, in document
    order. *)
Definition boxes_in_order (first_image_id : Z) (per_image : list (list Coco.box))
    : list (Z * Coco.box) :=
  concat (map (fun entry => map (pair (fst entry)) (snd entry))
              (number first_image_id per_image)).

(** The records of a [BoxesString] cell, which may be absent. *)
Definition cell_boxes (boxes_string : option string) : list Reorganize.box :=
  from_option reorganize_boxes [] boxes_string.

(** The run after one image of the Reorganizer's loop, the parse of its
    box string taken as [cell_boxes]. *)
Definition step (r : Reorganize.run) (entry : string * option string) : Reorganize.run :=
  let '(image_name, boxes_string) := entry in
  let d := Reorganize.fs r in
  let image_stem := stem image_name in
  match Reorganize.images_dir d !! image_name with
  | None =>
      {| Reorganize.fs := d; Reorganize.copied := Reorganize.copied r;
         Reorganize.processed := Reorganize.processed r;
         Reorganize.skipped := S (Reorganize.skipped r) |}
  | Some image =>
      let '(images', log1) :=
        match Reorganize.images_output_dir d !! image_name with
        | None => (<[image_name := image]> (Reorganize.images_output_dir d),
                   ["images/" +:+ image_name])
        | Some _ => (Reorganize.images_output_dir d, [])
        end in
      let '(json', log2) :=
        match Reorganize.images_dir d !! (image_stem +:+ ".json") with
        | Some json =>
            match Reorganize.json_dir d !! (image_stem +:+ ".json") with
            | None => (<[image_stem +:+ ".json" := json]> (Reorganize.json_dir d),
                       ["json/" +:+ image_stem +:+ ".json"])
            | Some _ => (Reorganize.json_dir d, [])
            end
        | None => (Reorganize.json_dir d, [])
        end in
      {| Reorganize.fs :=
           {| Reorganize.images_dir := Reorganize.images_dir d;
              Reorganize.images_output_dir := images';
              Reorganize.json_dir := json';
              Reorganize.csv_dir :=
                Reorganize.create_csv_annotation image_name (cell_boxes boxes_string)
                  (Reorganize.csv_dir d);
              Reorganize.sets_dir := Reorganize.sets_dir d |};
         Reorganize.copied := Reorganize.copied r ++ log1 ++ log2;
         Reorganize.processed := S (Reorganize.processed r);
         Reorganize.skipped := Reorganize.skipped r |}
  end.

(** The image names of a wide table, as a set. *)
Definition names (rows : list (string * option string)) : gset string :=
  list_to_set (map fst rows).

(** The rows of the three tables merged as [main] merges them. *)
Definition all_data (train val test : list (string * option string))
    : dict (option string) :=
  dict_update (dict_update (dict_update [] (Reorganize.read_csv_data train))
                           (Reorganize.read_csv_data val))
              (Reorganize.read_csv_data test).

(** The five split files of a run. *)
Definition split_files (train val test : list (string * option string))
    (sets : gmap string string) : gmap string string :=
  <["train_val.txt" := Reorganize.set_file (names train ∪ names val)]>
    (<["all.txt" := Reorganize.set_file (names train ∪ names val ∪ names test)]>
      (<["test.txt" := Reorganize.set_file (names test)]>
        (<["val.txt" := Reorganize.set_file (names val)]>
          (<["train.txt" := Reorganize.set_file (names train)]> sets)))).

(** The run as [main] has it when its loop over the images begins. *)
Definition start (train val test : list (string * option string))
    (d : Reorganize.disk) : Reorganize.run :=
  {| Reorganize.fs :=
       {| Reorganize.images_dir := Reorganize.images_dir d;
          Reorganize.images_output_dir := Reorganize.images_output_dir d;
          Reorganize.json_dir := Reorganize.json_dir d;
          Reorganize.csv_dir := Reorganize.csv_dir d;
          Reorganize.sets_dir := split_files train val test (Reorganize.sets_dir d) |};
     Reorganize.copied := []; Reorganize.processed := 0;
     Reorganize.skipped := 0 |}.

(** The lines of a split file: the stems of the names, in the order of
    the sorted names. *)
Definition set_lines (images : gset string) : list string :=
  map stem (sorted images).

(** An output tree with nothing in it, beside a source directory. *)
Definition fresh_disk (images_dir : gmap string string) : Reorganize.disk :=
  {| Reorganize.images_dir := images_dir; Reorganize.images_output_dir := ∅;
     Reorganize.json_dir := ∅; Reorganize.csv_dir := ∅; Reorganize.sets_dir := ∅ |}.



Definition write_file {V : Type} (dir : gmap string V) (file : string * V) : gmap string V :=
  <[fst file := snd file]> dir.

(** The wide-table row of the round trip. *)
Definition sample_row : string * option string := ("a.png", Some "0 0 10 10").

(** The three ways of giving the Reorganizer that one row: in the train,
    the val or the test table. *)
Definition sample_tables
    : list (list (string * option string) * list (string * option string)
            * list (string * option string)) :=
  [ ([sample_row], [], []); ([], [sample_row], []); ([], [], [sample_row]) ].

(** [p * 2^n] as a positive. *)
Definition shift (n : nat) (p : positive) : positive := Nat.iter n xO p.

(** The binary64 representation of a positive integer below [2^53]. *)
Definition canonical (s : bool) (v : positive) : float :=
  S754_finite s (shift (Z.to_nat (53 - Z.pos (digits2_pos v))) v)
              (Z.pos (digits2_pos v) - 53).

(** [f] is a float whose value is exactly the integer [z]. *)
Definition float_is_Z (f : float) (z : Z) : Prop :=
  match f with
  | S754_zero _ => z = 0
  | S754_finite s m e =>
      let v := if s then Z.neg m else Z.pos m in
      if 0 <=? e then z = v * 2 ^ e else v = z * 2 ^ (- e)
  | _ => False
  end.

(** The integer of a sign and a magnitude. *)
Definition signed (s : bool) (v : positive) : Z := if s then Z.neg v else Z.pos v.

(** The float [float()] reads from an integer literal of sign [s] and
    magnitude [n]. *)
Definition float_of_int (s : bool) (n : Z) : float := float_of_decimal s n 0.

(** The number in the cell of [row] under [key], when the cell is there,
    is not empty and is accepted by [float()]. *)
Definition cell_value (row : dict (option string)) (key : string) : option float :=
  match dict_get key row with
  | Some (Some v) =>
      if String.eqb v "" then None
      else match float_of_str v with
           | Ok f => Some f
           | Raise _ => None
           end
  | _ => None
  end.

(** The id [generate_unique_id] makes of what it draws: the random
    number, then the last three digits of the time. *)
Definition unique_id (draw : Z * Z) : Z := fst draw * 1000 + snd draw mod 1000.

(** The files of a listing that the tables give a box string, each with
    that string. *)
Definition annotated (all_data : dict (option string)) (files : list (string * string))
    : list (string * string * string) :=
  omap (fun file : string * string =>
          match dict_get (fst file) all_data with
          | Some (Some boxes_string) => Some (file, boxes_string)
          | _ => None
          end) files.

(** The JSON files the generator writes for such files, in order, the
    ids of a file made of the next two draws from [first] on. *)
Fixpoint json_writes (decode : string -> option (Z * Z)) (draws : nat -> Z * Z)
    (first : nat) (files : list (string * string * string))
    : list (string * Generate.coco) :=
  match files with
  | [] => []
  | (image_name, content, boxes_string) :: rest =>
      (splitext_root image_name +:+ ".json",
       Generate.create_coco_annotation decode content image_name
         (generate_boxes boxes_string)
         (unique_id (draws first)) (unique_id (draws (S first))))
      :: json_writes decode draws (S (S first)) rest
  end.

End Spec.

(** ** The runtime on examples *)

Example float_of_str_examples :
  map float_of_str ["10"; "-0"; "1_0"; "bad"; "1e"; "5."; "1e400"; "-inf"]
  = [Ok (float_of_Z 10); Ok (S754_zero true); Ok (float_of_Z 10);
     Raise ValueError; Raise ValueError; Ok (float_of_Z 5);
     Ok (S754_infinity false); Ok (S754_infinity true)].
Proof. vm_compute. reflexivity. Qed.

Example int_of_str_examples :
  map int_of_str ["10"; "-1_0"; "007"; "1.5"; "1e5"; "+"; "1__0"; " 12 "]
  = [Ok 10; Ok (-10); Ok 7; Raise ValueError; Raise ValueError;
     Raise ValueError; Raise ValueError; Ok 12].
Proof. vm_compute. reflexivity. Qed.

Example float_subtraction_rounds :
  (f1 ← float_of_str "0.1"; f3 ← float_of_str "0.3"; Ok (repr (fsub f1 f3)))
  = Ok "-0.19999999999999998".
Proof. vm_compute. reflexivity. Qed.

Example repr_examples :
  map repr [float_of_Z 10; float_of_Z 0; float_of_decimal false 15 (-1);
            float_of_decimal false 1 16; float_of_decimal false 1 (-5);
            float_of_decimal true 5 (-324); S754_nan]
  = ["10.0"; "0.0"; "1.5"; "1e+16"; "1e-05"; "-5e-324"; "nan"].
Proof. vm_compute. reflexivity. Qed.

Example split_examples :
  split_on ";" "1 2 3 4;;bad;" = ["1 2 3 4"; ""; "bad"; ""]
  /\ split "  1 2   3 " = ["1"; "2"; "3"]
  /\ strip "  a b  " = "a b".
Proof. repeat split; reflexivity. Qed.

Example stem_examples :
  map stem ["a.png"; "dir/a.tar.gz"; ".hidden"; "a."; "a-b.png"]
  = ["a"; "a.tar"; ".hidden"; "a."; "a-b"].
Proof. reflexivity. Qed.

Example sorted_example :
  sorted (list_to_set ["b.png"; "a.png"; "a-b.png"; "a.png"])
  = ["a-b.png"; "a.png"; "b.png"].
Proof. vm_compute. reflexivity. Qed.

(** ** Lemmas on the runtime *)

Lemma bind_Ok {A B : Type} (a : A) (k : A -> result B) : (Ok a ≫= k) = k a.
Proof. reflexivity. Qed.

Lemma truthy_false (s : string) : truthy s = false -> s = "".
Proof. destruct s; [reflexivity | discriminate]. Qed.

Lemma float_of_str_raises (s : string) (e : exn) :
  float_of_str s = Raise e -> e = ValueError.
Proof.
  unfold float_of_str.
  repeat (case_match; try congruence).
Qed.

Lemma int_of_str_raises (s : string) (e : exn) :
  int_of_str s = Raise e -> e = ValueError.
Proof.
  unfold int_of_str.
  repeat (case_match; try congruence).
Qed.

Lemma mapM_raises {A B : Type} (f : A -> result B) (l : list A) (e : exn) :
  (forall a e', f a = Raise e' -> e' = ValueError) ->
  mapM f l = Raise e -> e = ValueError.
Proof.
  intros Hf. induction l as [|a l IH]; simpl; [discriminate|].
  destruct (f a) eqn:Ha; simpl.
  - destruct (mapM f l); simpl; [discriminate|].
    intros [= <-]. now apply IH.
  - intros [= <-]. eauto.
Qed.

(** ** The box-string parsers, segment by segment *)

Lemma reorganize_parse_loop_spec (segs : list string) (i : nat)
    (boxes : list Reorganize.box) :
  Reorganize.parse_loop i segs boxes
  = Ok (boxes ++ omap id (imap (fun j => Spec.reorganize_segment (i + j)) segs)).
Proof.
  revert i boxes. induction segs as [|seg segs IH]; intros i boxes; simpl.
  - now rewrite app_nil_r.
  - assert (Hshift : imap ((fun j => Spec.reorganize_segment (i + j)) ∘ S) segs
                     = imap (fun j => Spec.reorganize_segment (S i + j)) segs).
    { apply imap_ext. intros j seg' _. simpl. f_equal. lia. }
    rewrite Hshift, Nat.add_0_r.
    destruct (truthy (strip seg)) eqn:Ht.
    + unfold Reorganize.parse_box, Spec.reorganize_segment.
      destruct (mapM float_of_str (split (strip seg))) as [coords|e] eqn:Hc; simpl.
      * destruct coords as [|x1 [|y1 [|x2 [|y2 [|? ?]]]]]; simpl;
          rewrite IH; try reflexivity.
        now rewrite <- app_assoc.
      * apply mapM_raises in Hc; [|apply float_of_str_raises].
        subst e. simpl. now rewrite IH.
    + apply truthy_false in Ht.
      unfold Spec.reorganize_segment. rewrite Ht. simpl. now rewrite IH.
Qed.

Lemma generate_parse_loop_spec (segs : list string) (boxes : list Generate.box) :
  Generate.parse_loop segs boxes = Ok (boxes ++ omap Spec.generate_segment segs).
Proof.
  revert boxes. induction segs as [|seg segs IH]; intros boxes; simpl.
  - now rewrite app_nil_r.
  - destruct (truthy (strip seg)) eqn:Ht.
    + unfold Generate.parse_box, Spec.generate_segment.
      destruct (mapM int_of_str (split (strip seg))) as [coords|e] eqn:Hc; simpl.
      * destruct coords as [|x1 [|y1 [|x2 [|y2 [|? ?]]]]]; simpl;
          rewrite IH; try reflexivity.
        now rewrite <- app_assoc.
      * apply mapM_raises in Hc; [|apply int_of_str_raises].
        subst e. simpl. now rewrite IH.
    + apply truthy_false in Ht.
      unfold Spec.generate_segment. rewrite Ht. simpl. now rewrite IH.
Qed.

Lemma reorganize_parse_boxes_string_spec (s : string) :
  Reorganize.parse_boxes_string (Some s) = Ok (Spec.reorganize_boxes s).
Proof.
  unfold Reorganize.parse_boxes_string, Spec.reorganize_boxes.
  destruct s as [|c s]; [reflexivity|].
  simpl negb. simpl orb. cbv iota.
  change (String.eqb (String c s) "") with false. cbv iota.
  now rewrite reorganize_parse_loop_spec.
Qed.

Lemma generate_parse_boxes_string_spec (s : string) :
  Generate.parse_boxes_string (Some s) = Ok (Spec.generate_boxes s).
Proof.
  unfold Generate.parse_boxes_string, Spec.generate_boxes.
  destruct s as [|c s]; [reflexivity|].
  simpl negb. simpl orb. cbv iota.
  change (String.eqb (String c s) "") with false. cbv iota.
  now rewrite generate_parse_loop_spec.
Qed.

Lemma reorganize_boxes_middle (segs : list string) (i : nat) (seg : string) :
  segs !! i = Some seg ->
  omap id (imap Spec.reorganize_segment segs)
  = omap id (imap Spec.reorganize_segment (take i segs))
    ++ option_list (Spec.reorganize_segment i seg)
    ++ omap id (imap (fun j => Spec.reorganize_segment (S i + j)) (drop (S i) segs)).
Proof.
  intros Hi.
  assert (Hlen : length (take i segs) = i).
  { apply length_take_le. apply lookup_lt_Some in Hi. lia. }
  rewrite <- (take_drop_middle segs i seg Hi) at 1.
  rewrite imap_app, omap_app, Hlen. f_equal.
  rewrite imap_cons. simpl. rewrite Nat.add_0_r.
  assert (Htail : imap ((fun j => Spec.reorganize_segment (i + j)) ∘ S) (drop (S i) segs)
                  = imap (fun j => Spec.reorganize_segment (S i + j)) (drop (S i) segs)).
  { apply imap_ext. intros j x _. simpl. f_equal. lia. }
  rewrite Htail. now destruct (Spec.reorganize_segment i seg).
Qed.

Lemma generate_boxes_middle (segs : list string) (i : nat) (seg : string) :
  segs !! i = Some seg ->
  omap Spec.generate_segment segs
  = omap Spec.generate_segment (take i segs)
    ++ option_list (Spec.generate_segment seg)
    ++ omap Spec.generate_segment (drop (S i) segs).
Proof.
  intros Hi.
  rewrite <- (take_drop_middle segs i seg Hi) at 1.
  rewrite omap_app. f_equal. simpl.
  now destruct (Spec.generate_segment seg).
Qed.

(** ** Claims on the box-string parsers *)

(** C5. The box-string parser never raises, in either script: [None] and
    the empty string give the empty list; otherwise the result is made
    segment by segment, a segment contributing a record exactly when its
    tokens are four accepted numbers and nothing otherwise, whatever the
    other segments are. ["10 10 50 40;bad;20 20 30 30"] gives two records. *)
Theorem parse_boxes_string_never_fails :
  (forall bs : option string,
     Reorganize.parse_boxes_string bs = Ok (from_option Spec.reorganize_boxes [] bs)
     /\ Generate.parse_boxes_string bs = Ok (from_option Spec.generate_boxes [] bs))
  /\ Spec.reorganize_boxes "" = [] /\ Spec.generate_boxes "" = []
  /\ (forall (i : nat) (seg : string),
        Spec.reorganize_segment i seg = None <->
        ~ exists x1 y1 x2 y2,
            mapM float_of_str (split (strip seg)) = Ok [x1; y1; x2; y2])
  /\ (forall seg : string,
        Spec.generate_segment seg = None <->
        ~ exists x1 y1 x2 y2,
            mapM int_of_str (split (strip seg)) = Ok [x1; y1; x2; y2])
  /\ (exists b1 b2,
        Reorganize.parse_boxes_string (Some "10 10 50 40;bad;20 20 30 30") = Ok [b1; b2])
  /\ (exists b1 b2,
        Generate.parse_boxes_string (Some "10 10 50 40;bad;20 20 30 30") = Ok [b1; b2]).
Proof.
  split; [|split; [reflexivity|split; [reflexivity|split; [|split; [|split]]]]].
  - intros [s|]; simpl from_option.
    + split; [apply reorganize_parse_boxes_string_spec
             |apply generate_parse_boxes_string_spec].
    + split; reflexivity.
  - intros i seg. unfold Spec.reorganize_segment.
    destruct (mapM float_of_str (split (strip seg)))
      as [[|x1 [|y1 [|x2 [|y2 [|? ?]]]]]|e]; split;
      try discriminate; try (intros _ (? & ? & ? & ? & [=])); try reflexivity.
    intros H. exfalso. apply H. eauto.
  - intros seg. unfold Spec.generate_segment.
    destruct (mapM int_of_str (split (strip seg)))
      as [[|x1 [|y1 [|x2 [|y2 [|? ?]]]]]|e]; split;
      try discriminate; try (intros _ (? & ? & ? & ? & [=])); try reflexivity.
    intros H. exfalso. apply H. eauto.
  - eexists _, _. vm_compute. reflexivity.
  - eexists _, _. vm_compute. reflexivity.
Qed.

(** C1, as the code has it. A segment whose tokens are exactly four
    strings accepted by the script's own number constructor ([float()] in
    [reorganize_dataset.py], [int()] in [generate_coco_annotations.py])
    contributes exactly one record, placed between the records of the
    segments before it and of those after it. In [reorganize_dataset.py]
    the record holds [x = x1], [y = y1], [width = x2 - x1],
    [height = y2 - y1] (no area is stored); in
    [generate_coco_annotations.py] it holds [bbox = [x1, y1, x2-x1, y2-y1]]
    and [area = (x2-x1)*(y2-y1)]. No order or sign check is made. *)
Theorem four_token_segment (s seg t1 t2 t3 t4 : string) (i : nat) :
  split_on ";" s !! i = Some seg ->
  split (strip seg) = [t1; t2; t3; t4] ->
  (forall x1 y1 x2 y2 : float,
     float_of_str t1 = Ok x1 -> float_of_str t2 = Ok y1 ->
     float_of_str t3 = Ok x2 -> float_of_str t4 = Ok y2 ->
     Reorganize.parse_boxes_string (Some s)
     = Ok (omap id (imap Spec.reorganize_segment (take i (split_on ";" s)))
           ++ [ {| Reorganize.item := i; Reorganize.x := x1; Reorganize.y := y1;
                   Reorganize.width := fsub x2 x1; Reorganize.height := fsub y2 y1;
                   Reorganize.label := 1 |} ]
           ++ omap id (imap (fun j => Spec.reorganize_segment (S i + j))
                            (drop (S i) (split_on ";" s)))))
  /\ (forall x1 y1 x2 y2 : Z,
        int_of_str t1 = Ok x1 -> int_of_str t2 = Ok y1 ->
        int_of_str t3 = Ok x2 -> int_of_str t4 = Ok y2 ->
        Generate.parse_boxes_string (Some s)
        = Ok (omap Spec.generate_segment (take i (split_on ";" s))
              ++ [ {| Generate.bbox := [x1; y1; x2 - x1; y2 - y1];
                      Generate.area := (x2 - x1) * (y2 - y1) |} ]
              ++ omap Spec.generate_segment (drop (S i) (split_on ";" s)))).
Proof.
  intros Hseg Htok. split; intros x1 y1 x2 y2 H1 H2 H3 H4.
  - rewrite reorganize_parse_boxes_string_spec. unfold Spec.reorganize_boxes.
    rewrite (reorganize_boxes_middle _ i seg Hseg).
    unfold Spec.reorganize_segment at 2.
    rewrite Htok. simpl mapM. rewrite H1, H2, H3, H4. reflexivity.
  - rewrite generate_parse_boxes_string_spec. unfold Spec.generate_boxes.
    rewrite (generate_boxes_middle _ i seg Hseg).
    unfold Spec.generate_segment at 2.
    rewrite Htok. simpl mapM. rewrite H1, H2, H3, H4. reflexivity.
Qed.

Lemma four_token_segment_witness :
  Reorganize.parse_boxes_string (Some "bad;5 6 7 9")
  = Ok [ {| Reorganize.item := 1;
            Reorganize.x := float_of_Z 5; Reorganize.y := float_of_Z 6;
            Reorganize.width := fsub (float_of_Z 7) (float_of_Z 5);
            Reorganize.height := fsub (float_of_Z 9) (float_of_Z 6);
            Reorganize.label := 1 |} ]
  /\ Generate.parse_boxes_string (Some "bad;5 6 7 9")
     = Ok [ {| Generate.bbox := [5; 6; 2; 3]; Generate.area := 6 |} ].
Proof.
  pose proof (four_token_segment "bad;5 6 7 9" "5 6 7 9" "5" "6" "7" "9" 1
                eq_refl eq_refl) as [HR HG].
  split.
  - exact (HR (float_of_Z 5) (float_of_Z 6) (float_of_Z 7) (float_of_Z 9)
              eq_refl eq_refl eq_refl eq_refl).
  - exact (HG 5 6 7 9 eq_refl eq_refl eq_refl eq_refl).
Defined.

(** C1 as stated fails for [generate_coco_annotations.py]: the four
    tokens of ["1.5 2 3 4"] are numbers ([float()] accepts each), yet the
    segment is dropped, because [int()] rejects ["1.5"]. *)
Lemma generate_drops_decimal_segment :
  split (strip "1.5 2 3 4") = ["1.5"; "2"; "3"; "4"]
  /\ (exists x1 y1 x2 y2,
        mapM float_of_str ["1.5"; "2"; "3"; "4"] = Ok [x1; y1; x2; y2])
  /\ int_of_str "1.5" = Raise ValueError
  /\ Generate.parse_boxes_string (Some "1.5 2 3 4") = Ok [].
Proof.
  split; [reflexivity|]. split; [|split; reflexivity].
  eexists _, _, _, _. vm_compute. reflexivity.
Qed.

(** ** Claims on the per-image CSV files *)

(** What the Reorganizer does write: the header row, then one row per
    record with its [item] first and the label [1] last. *)
Lemma create_csv_annotation_rows (image_name : string)
    (boxes_data : list Reorganize.box) (output_dir : gmap string csv_file) :
  Reorganize.create_csv_annotation image_name boxes_data output_dir
    !! (stem image_name +:+ ".csv")
  = Some (["#item"; "x"; "y"; "width"; "height"; "label"]
          :: map Reorganize.box_row boxes_data).
Proof. unfold Reorganize.create_csv_annotation. apply lookup_insert_eq. Qed.

(** Every record of a box string carries the label [1] and, as its
    [item], the position of its segment among all the segments of the
    string, the dropped ones included. *)
Lemma reorganize_items (s : string) (b : Reorganize.box) :
  b ∈ Spec.reorganize_boxes s ->
  Reorganize.label b = 1
  /\ exists seg, split_on ";" s !! Reorganize.item b = Some seg
                 /\ Spec.reorganize_segment (Reorganize.item b) seg = Some b.
Proof.
  unfold Spec.reorganize_boxes. intros Hb.
  apply list_elem_of_omap in Hb as (ob & Hin & Hob). simpl in Hob. subst ob.
  apply elem_of_lookup_imap in Hin as (i & seg & Hsome & Hi).
  symmetry in Hsome.
  assert (Hitem : Reorganize.item b = i /\ Reorganize.label b = 1).
  { unfold Spec.reorganize_segment in Hsome.
    destruct (mapM float_of_str (split (strip seg)))
      as [[|x1 [|y1 [|x2 [|y2 [|? ?]]]]]|e]; try discriminate.
    injection Hsome as <-. now split. }
  destruct Hitem as [-> Hl]. split; [exact Hl|]. exists seg. now split.
Qed.

(** C3, on the input where the code departs from it: the second record
    written for ["10 10 50 40;bad;20 20 30 30"] has item [2], not [1],
    because the dropped segment ["bad"] has used up the index [1]. *)
Theorem item_column_skips_dropped_segments :
  exists boxes,
    Reorganize.parse_boxes_string (Some "10 10 50 40;bad;20 20 30 30") = Ok boxes
    /\ Reorganize.create_csv_annotation "a.png" boxes ∅ !! "a.csv"
       = Some [ ["#item"; "x"; "y"; "width"; "height"; "label"];
                ["0"; "10.0"; "10.0"; "40.0"; "30.0"; "1"];
                ["2"; "20.0"; "20.0"; "10.0"; "10.0"; "1"] ].
Proof.
  eexists. split; [vm_compute; reflexivity|].
  rewrite (create_csv_annotation_rows "a.png"). vm_compute. reflexivity.
Qed.

(** What [_parse_csv_boxes] does with a row once its fields are read and
    the category is converted: the circle takes priority, then the
    rectangle, else the row is skipped. *)
Lemma parse_row_box (raw_row : list entry) (row : dict (option string))
    (boxes : list Coco.box) (x y : float) (r w h label : option float)
    (category_id : Z) :
  Coco.lower_row raw_row [] = Ok row ->
  Coco.get row ["x"; "xc"; "x_center"] = Ok (Some x) ->
  Coco.get row ["y"; "yc"; "y_center"] = Ok (Some y) ->
  Coco.get row ["r"; "radius"] = Ok r ->
  Coco.get row ["w"; "width"; "dx"] = Ok w ->
  Coco.get row ["h"; "height"; "dy"] = Ok h ->
  Coco.get row ["label"; "class"; "category_id"] = Ok label ->
  match label with Some l => int_of_float l | None => Ok 1 end = Ok category_id ->
  Coco.parse_row raw_row boxes
  = Ok match r, w, h with
       | Some r, _, _ =>
           boxes ++ [ {| Coco.bbox := [fsub x r; fsub y r; fmul Coco.two r; fmul Coco.two r];
                         Coco.area := fmul (fmul Coco.two r) (fmul Coco.two r);
                         Coco.category_id := category_id |} ]
       | None, Some w, Some h =>
           boxes ++ [ {| Coco.bbox := [x; y; w; h]; Coco.area := fmul w h;
                         Coco.category_id := category_id |} ]
       | _, _, _ => boxes
       end.
Proof.
  intros Hrow Hx Hy Hr Hw Hh Hl Hc. unfold Coco.parse_row.
  rewrite Hrow, bind_Ok, Hx, bind_Ok, Hy, bind_Ok, Hr, bind_Ok, Hw, bind_Ok,
    Hh, bind_Ok, Hl, bind_Ok, Hc, bind_Ok.
  destruct r as [r|]; [reflexivity|].
  destruct w as [w|]; [|reflexivity].
  destruct h as [h|]; reflexivity.
Qed.

(** C6, on the input where the code departs from it: the circle row
    [{x:5, y:5, r:3}] gives [bbox = [2,2,6,6]] and [area = 36], but the
    same row with the label cell ["nan"] gives no box: [int(label)]
    raises [ValueError], which nothing catches, and the parse of the
    whole file is lost with it. *)
Theorem circle_row_with_nan_label_raises :
  Coco._parse_csv_boxes (Some [ ["x"; "y"; "r"]; ["5"; "5"; "3"] ])
  = Ok [ {| Coco.bbox := map float_of_Z [2; 2; 6; 6];
            Coco.area := float_of_Z 36; Coco.category_id := 1 |} ]
  /\ Coco.get [("x", Some "5"); ("y", Some "5"); ("r", Some "3"); ("label", Some "nan")]
              ["x"; "xc"; "x_center"] = Ok (Some (float_of_Z 5))
  /\ Coco.get [("x", Some "5"); ("y", Some "5"); ("r", Some "3"); ("label", Some "nan")]
              ["r"; "radius"] = Ok (Some (float_of_Z 3))
  /\ Coco._parse_csv_boxes (Some [ ["x"; "y"; "r"; "label"]; ["5"; "5"; "3"; "nan"] ])
     = Raise ValueError.
Proof. repeat split; vm_compute; reflexivity. Qed.

(** ** [sorted] *)

Lemma sorted_StronglySorted (s : gset string) : StronglySorted String.le (sorted s).
Proof. apply StronglySorted_merge_sort; apply _. Qed.

Lemma sorted_Permutation (s : gset string) : sorted s ≡ₚ elements s.
Proof. apply merge_sort_Permutation. Qed.

Lemma sorted_NoDup (s : gset string) : NoDup (sorted s).
Proof. rewrite sorted_Permutation. apply NoDup_elements. Qed.

Lemma elem_of_sorted (s : gset string) (x : string) : x ∈ sorted s <-> x ∈ s.
Proof. rewrite sorted_Permutation. apply elem_of_elements. Qed.

(** ** The split-level converter *)

Lemma number_app {A : Type} (n : Z) (l1 l2 : list A) :
  Spec.number n (l1 ++ l2)
  = Spec.number n l1 ++ Spec.number (n + Z.of_nat (length l1)) l2.
Proof.
  revert n. induction l1 as [|a l1 IH]; intros n; simpl.
  - f_equal. lia.
  - rewrite IH. do 3 f_equal. lia.
Qed.

Lemma number_ids {A : Type} (n : Z) (l : list A) :
  map fst (Spec.number n l) = seqZ n (Z.of_nat (length l)).
Proof.
  revert n. induction l as [|a l IH]; intros n.
  - reflexivity.
  - cbn [Spec.number map length fst]. rewrite IH, (seqZ_cons n) by lia.
    f_equal. f_equal; lia.
Qed.

Lemma number_values {A : Type} (n : Z) (l : list A) :
  map snd (Spec.number n l) = l.
Proof. revert n. induction l; intros n; simpl; [reflexivity | now rewrite IHl]. Qed.

Lemma length_number {A : Type} (n : Z) (l : list A) :
  length (Spec.number n l) = length l.
Proof. revert n. induction l; intros n; simpl; [reflexivity | now rewrite IHl]. Qed.

Section ConverterLemmas.

Variable decode : string -> option (Z * Z).
Variable category_root_name : string.
Variable images_dir : gmap string string.
Variable annotations_dir : gmap string csv_file.
Variable sets_dir : gmap string string.

Local Abbreviation visit_all :=
  (Coco.visit_all decode category_root_name images_dir annotations_dir).
Local Abbreviation parsed stem :=
  (Coco._parse_csv_boxes (annotations_dir !! (stem +:+ ".csv"))).

Lemma add_boxes_spec (boxes : list Coco.box) (image_id : Z)
    (anns : list Coco.annotation) (n : Z) :
  Coco.add_boxes boxes image_id anns n
  = (anns ++ map Spec.annotation_of (Spec.number n (map (pair image_id) boxes)),
     n + Z.of_nat (length boxes)).
Proof.
  revert anns n. induction boxes as [|b boxes IH]; intros anns n.
  - simpl. rewrite app_nil_r. f_equal. lia.
  - cbn [Coco.add_boxes]. rewrite IH. cbn [map Spec.number length].
    rewrite <- app_assoc. f_equal. lia.
Qed.

Lemma boxes_in_order_cons (c : Z) (boxes : list Coco.box)
    (per_image : list (list Coco.box)) :
  Spec.boxes_in_order c (boxes :: per_image)
  = map (pair c) boxes ++ Spec.boxes_in_order (c + 1) per_image.
Proof. reflexivity. Qed.

(** The loop over the stems in closed form. *)
Lemma visit_all_spec (stems : list string) (a a' : Coco.acc) :
  visit_all stems a = Ok a' ->
  exists per_image : list (list Coco.box),
    Forall2 (fun stem boxes => parsed stem = Ok boxes)
            (map fst (Spec.found images_dir stems)) per_image
    /\ Coco.images a'
       = Coco.images a
         ++ map (Spec.image_of decode category_root_name)
                (Spec.number (Coco.image_id_counter a) (Spec.found images_dir stems))
    /\ Coco.anns a'
       = Coco.anns a
         ++ map Spec.annotation_of
                (Spec.number (Coco.ann_id_counter a)
                   (Spec.boxes_in_order (Coco.image_id_counter a) per_image)).
Proof.
  revert a. induction stems as [|stem stems IH]; intros a.
  - simpl. intros [= <-]. exists []. split; [constructor|].
    simpl. now rewrite !app_nil_r.
  - cbn [Coco.visit_all]. unfold Coco.visit at 1, Spec.found.
    cbn [omap list_omap].
    fold (Spec.found images_dir stems).
    destruct (Coco.find_image images_dir stem) as [[img_name content]|] eqn:Hf.
    + cbn [fmap option_fmap option_map].
      destruct (Coco._image_size decode content) as [w h] eqn:Hs.
      destruct (parsed stem) as [boxes|e] eqn:Hp; [|discriminate].
      rewrite bind_Ok, add_boxes_spec, bind_Ok.
      intros Hrest. apply IH in Hrest as (per_image & Hall & Himg & Hann).
      cbn [Coco.images Coco.anns Coco.image_id_counter Coco.ann_id_counter] in *.
      exists (boxes :: per_image). split; [|split].
      * cbn [map fst]. constructor; assumption.
      * rewrite Himg, <- app_assoc. f_equal.
        cbn [Spec.number map Spec.image_of]. rewrite Hs. reflexivity.
      * rewrite Hann, <- app_assoc. f_equal.
        rewrite boxes_in_order_cons, number_app, map_app, !length_map.
        reflexivity.
    + cbn [fmap option_fmap option_map]. rewrite bind_Ok. apply IH.
Qed.

Lemma image_of_id (entry : Z * (string * (string * string))) :
  Coco.image_id_of (Spec.image_of decode category_root_name entry) = fst entry.
Proof. now destruct entry as [id [stem [img_name content]]]. Qed.

Lemma boxes_in_order_image_id (c iid : Z) (b : Coco.box)
    (per_image : list (list Coco.box)) :
  (iid, b) ∈ Spec.boxes_in_order c per_image ->
  c <= iid < c + Z.of_nat (length per_image).
Proof.
  revert c. induction per_image as [|boxes per_image IH]; intros c.
  - intros H. inversion H.
  - rewrite boxes_in_order_cons, elem_of_app. intros [H|H].
    + apply list_elem_of_fmap in H as (b' & [= -> _] & _). simpl. lia.
    + apply IH in H. simpl. lia.
Qed.

(** C8. In a split-level document the stems are visited in sorted order;
    the images are those whose file is found, in that order, with the ids
    1, 2, ...; the annotations are the boxes of these images, image after
    image and row after row, with the ids 1, 2, ... across the document. *)
Theorem split_document_ids (split category_name : string)
    (imgs : list Coco.image) (anns : list Coco.annotation)
    (cats : list Coco.category) :
  Coco._collect_annotations_for_split decode category_root_name images_dir
    annotations_dir sets_dir split category_name = Ok (imgs, anns, cats) ->
  let stems := sorted (Coco.image_stems images_dir sets_dir split) in
  StronglySorted String.le stems
  /\ NoDup stems
  /\ exists per_image : list (list Coco.box),
       Forall2 (fun stem boxes => parsed stem = Ok boxes)
               (map fst (Spec.found images_dir stems)) per_image
       /\ imgs = map (Spec.image_of decode category_root_name)
                     (Spec.number 1 (Spec.found images_dir stems))
       /\ anns = map Spec.annotation_of
                     (Spec.number 1 (Spec.boxes_in_order 1 per_image))
       /\ map Coco.image_id_of imgs = seqZ 1 (Z.of_nat (length imgs))
       /\ map Coco.ann_id anns = seqZ 1 (Z.of_nat (length anns)).
Proof.
  intros H. cbv zeta. unfold Coco._collect_annotations_for_split in H.
  set (stems := sorted (Coco.image_stems images_dir sets_dir split)) in *.
  destruct (visit_all stems _) as [a|e] eqn:Hv; [|discriminate].
  rewrite bind_Ok in H. inversion H; subst; clear H.
  apply visit_all_spec in Hv as (per_image & Hall & Himg & Hann).
  cbn [Coco.images Coco.anns Coco.image_id_counter Coco.ann_id_counter app] in *.
  split; [apply sorted_StronglySorted|]. split; [apply sorted_NoDup|].
  exists per_image. repeat split; try assumption.
  - rewrite Himg, map_map, length_map, length_number.
    rewrite <- number_ids. apply map_ext. apply image_of_id.
  - rewrite Hann, map_map, length_map, length_number.
    rewrite <- number_ids. apply map_ext. now intros [id [iid b]].
Qed.

(** The split-level half of C7. *)
Lemma split_document_references (split category_name : string)
    (imgs : list Coco.image) (anns : list Coco.annotation)
    (cats : list Coco.category) :
  Coco._collect_annotations_for_split decode category_root_name images_dir
    annotations_dir sets_dir split category_name = Ok (imgs, anns, cats) ->
  forall a, a ∈ anns -> exists im, im ∈ imgs /\ Coco.image_id_of im = Coco.image_id a.
Proof.
  unfold Coco._collect_annotations_for_split. intros H.
  destruct (visit_all _ _) as [acc|e] eqn:Hv; [|discriminate].
  rewrite bind_Ok in H. inversion H; subst; clear H.
  apply visit_all_spec in Hv as (per_image & Hall & Himg & Hann).
  cbn [Coco.images Coco.anns Coco.image_id_counter Coco.ann_id_counter app] in *.
  intros a Ha. rewrite Hann in Ha.
  apply list_elem_of_fmap in Ha as ([id [iid b]] & -> & Hin).
  assert (Hb : (iid, b) ∈ Spec.boxes_in_order 1 per_image).
  { apply (list_elem_of_fmap_2 snd) in Hin.
    now rewrite (number_values (A := Z * Coco.box)) in Hin. }
  apply boxes_in_order_image_id in Hb.
  apply Forall2_length in Hall. rewrite length_map in Hall.
  assert (Hid : iid ∈ map Coco.image_id_of (Coco.images acc)).
  { rewrite Himg, map_map.
    rewrite (map_ext _ fst) by apply image_of_id.
    rewrite number_ids. apply elem_of_seqZ. lia. }
  apply list_elem_of_fmap in Hid as (im & -> & Him).
  exists im. split; [exact Him | reflexivity].
Qed.

End ConverterLemmas.

Lemma split_document_ids_witness :
  let images_dir : gmap string string := {[ "a.png" := "PNG" ]} in
  let annotations_dir : gmap string csv_file :=
    {[ "a.csv" := [ ["x"; "y"; "w"; "h"]; ["1"; "2"; "3"; "4"]; ["5"; "6"; "7"; "8"] ] ]} in
  exists imgs anns cats,
    Coco._collect_annotations_for_split (fun _ => None) "wheat_heads" images_dir
      annotations_dir ∅ "train" "wheat_head" = Ok (imgs, anns, cats)
    /\ map Coco.image_id_of imgs = [1]
    /\ map Coco.ann_id anns = [1; 2].
Proof.
  intros images_dir annotations_dir.
  destruct (Coco._collect_annotations_for_split (fun _ => None) "wheat_heads"
              images_dir annotations_dir ∅ "train" "wheat_head")
    as [[[imgs anns] cats]|e] eqn:Hrun; [|vm_compute in Hrun; discriminate].
  exists imgs, anns, cats. split; [reflexivity|].
  pose proof (split_document_ids _ _ _ _ _ _ _ _ _ _ Hrun)
    as (_ & _ & per_image & _ & _ & _ & Hi & Ha).
  vm_compute in Hrun. injection Hrun as <- <- <-.
  split; [exact Hi | exact Ha].
Defined.

(** C7. In every document that either converter produces, the
    [image_id] of each annotation is the [id] of an entry of [images]. *)
Theorem annotations_reference_images :
  (forall (decode : string -> option (Z * Z)) (category_root_name : string)
          (images_dir : gmap string string) (annotations_dir : gmap string csv_file)
          (sets_dir : gmap string string) (split category_name : string)
          (imgs : list Coco.image) (anns : list Coco.annotation)
          (cats : list Coco.category),
      Coco._collect_annotations_for_split decode category_root_name images_dir
        annotations_dir sets_dir split category_name = Ok (imgs, anns, cats) ->
      forall a, a ∈ anns ->
                exists im, im ∈ imgs /\ Coco.image_id_of im = Coco.image_id a)
  /\ (forall (decode : string -> option (Z * Z)) (content image_name : string)
             (boxes_data : list Generate.box) (image_id annotation_id : Z),
        let doc := Generate.create_coco_annotation decode content image_name
                     boxes_data image_id annotation_id in
        forall a, a ∈ Generate.annotations doc ->
                  exists im, im ∈ Generate.images doc
                             /\ Generate.image_id_of im = Generate.ann_image_id a).
Proof.
  split.
  - intros. eapply split_document_references; eassumption.
  - intros decode content image_name boxes_data image_id annotation_id doc a Ha.
    unfold doc, Generate.create_coco_annotation in *.
    destruct (match decode content with Some wh => wh | None => (512, 512) end)
      as [w h].
    cbn [Generate.annotations Generate.images] in *.
    apply elem_of_lookup_imap in Ha as (i & b & -> & _).
    eexists. split; [apply list_elem_of_here | reflexivity].
Qed.

Lemma annotations_reference_images_witness :
  let images_dir : gmap string string := {[ "a.png" := "PNG" ]} in
  let annotations_dir : gmap string csv_file :=
    {[ "a.csv" := [ ["x"; "y"; "r"]; ["5"; "5"; "3"] ] ]} in
  (exists imgs a cats,
     Coco._collect_annotations_for_split (fun _ => None) "wheat_heads" images_dir
       annotations_dir ∅ "train" "wheat_head" = Ok (imgs, [a], cats)
     /\ exists im, im ∈ imgs /\ Coco.image_id_of im = Coco.image_id a)
  /\ (let doc := Generate.create_coco_annotation (fun _ => None) "PNG" "a.png"
                   [ {| Generate.bbox := [0; 0; 10; 10]; Generate.area := 100 |} ]
                   1234567890 2345678901 in
      exists a, Generate.annotations doc = [a]
                /\ exists im, im ∈ Generate.images doc
                              /\ Generate.image_id_of im = Generate.ann_image_id a).
Proof.
  intros images_dir annotations_dir.
  destruct annotations_reference_images as [HC HG]. split.
  - destruct (Coco._collect_annotations_for_split (fun _ => None) "wheat_heads"
                images_dir annotations_dir ∅ "train" "wheat_head")
      as [[[imgs anns] cats]|e] eqn:Hrun; [|vm_compute in Hrun; discriminate].
    pose proof (HC _ _ _ _ _ _ _ _ _ _ Hrun) as Href.
    assert (Hanns : exists a, anns = [a]).
    { vm_compute in Hrun. injection Hrun as _ <- _. eexists. reflexivity. }
    destruct Hanns as [a ->].
    exists imgs, a, cats. split; [reflexivity|].
    apply Href. apply list_elem_of_here.
  - intros doc. eexists. split; [reflexivity|].
    apply (HG (fun _ => None) "PNG" "a.png"
              [ {| Generate.bbox := [0; 0; 10; 10]; Generate.area := 100 |} ]
              1234567890 2345678901).
    apply list_elem_of_here.
Defined.

(** ** The Reorganizer *)

Lemma process_image_spec (image_name : string) (boxes_string : option string)
    (r : Reorganize.run) :
  Reorganize.process_image image_name boxes_string r
  = Ok (Spec.step r (image_name, boxes_string)).
Proof.
  unfold Reorganize.process_image, Spec.step.
  destruct (Reorganize.images_dir (Reorganize.fs r) !! image_name); [|reflexivity].
  destruct (match Reorganize.images_output_dir (Reorganize.fs r) !! image_name with
            | Some _ => _ | None => _ end) as [images' log1].
  destruct (match Reorganize.images_dir (Reorganize.fs r) !! _ with
            | Some _ => _ | None => _ end) as [json' log2].
  assert (Hparse : Reorganize.parse_boxes_string boxes_string
                   = Ok (Spec.cell_boxes boxes_string)).
  { destruct boxes_string as [cell|]; [apply reorganize_parse_boxes_string_spec|reflexivity]. }
  now rewrite Hparse, bind_Ok.
Qed.

Lemma process_all_spec (all_data : dict (option string)) (r : Reorganize.run) :
  Reorganize.process_all all_data r = Ok (fold_left Spec.step all_data r).
Proof.
  revert r. induction all_data as [|[image_name boxes_string] rest IH]; intros r.
  - reflexivity.
  - cbn [Reorganize.process_all fold_left].
    now rewrite process_image_spec, bind_Ok, IH.
Qed.

Lemma dict_keys_set {V : Type} (k : string) (v : V) (d : dict V) :
  list_to_set (dict_keys (dict_set k v d)) =@{gset string} {[ k ]} ∪ list_to_set (dict_keys d).
Proof.
  induction d as [|[k' v'] d IH]; cbn [dict_set].
  - reflexivity.
  - destruct (String.eqb k k') eqn:Hk.
    + apply String.eqb_eq in Hk. subst k'. cbn [dict_keys map fst list_to_set].
      set_solver.
    + unfold dict_keys in *. cbn [map fst list_to_set]. rewrite IH. set_solver.
Qed.

Lemma dict_keys_update {V : Type} (d rows : dict V) :
  list_to_set (dict_keys (dict_update d rows))
  =@{gset string} list_to_set (dict_keys d) ∪ list_to_set (map fst rows).
Proof.
  unfold dict_update. revert d. induction rows as [|[k v] rows IH]; intros d.
  - cbn [fold_left map list_to_set]. set_solver.
  - cbn [fold_left map fst snd list_to_set]. rewrite IH, dict_keys_set. set_solver.
Qed.

Lemma read_csv_data_keys (rows : list (string * option string)) :
  list_to_set (dict_keys (Reorganize.read_csv_data rows)) = Spec.names rows.
Proof.
  unfold Reorganize.read_csv_data, Spec.names. rewrite dict_keys_update.
  cbn [dict_keys map list_to_set]. set_solver.
Qed.

(** [main] never raises; it writes the five split files and then folds
    [step] over the merged rows. *)
Lemma main_spec (train val test : list (string * option string)) (d : Reorganize.disk) :
  Reorganize.main train val test d
  = Ok (fold_left Spec.step (Spec.all_data train val test) (Spec.start train val test d)).
Proof.
  unfold Reorganize.main. rewrite process_all_spec, !read_csv_data_keys.
  reflexivity.
Qed.

Lemma step_keeps (r : Reorganize.run) (entry : string * option string) :
  Reorganize.images_dir (Reorganize.fs (Spec.step r entry))
  = Reorganize.images_dir (Reorganize.fs r)
  /\ Reorganize.sets_dir (Reorganize.fs (Spec.step r entry))
     = Reorganize.sets_dir (Reorganize.fs r).
Proof.
  destruct entry as [n b]. unfold Spec.step.
  destruct (Reorganize.images_dir (Reorganize.fs r) !! n); [|now split].
  destruct (match Reorganize.images_output_dir (Reorganize.fs r) !! n with
            | Some _ => _ | None => _ end) as [images' log1].
  destruct (match Reorganize.images_dir (Reorganize.fs r) !! _ with
            | Some _ => _ | None => _ end) as [json' log2].
  now split.
Qed.

Lemma fold_step_keeps (l : dict (option string)) (r : Reorganize.run) :
  Reorganize.images_dir (Reorganize.fs (fold_left Spec.step l r))
  = Reorganize.images_dir (Reorganize.fs r)
  /\ Reorganize.sets_dir (Reorganize.fs (fold_left Spec.step l r))
     = Reorganize.sets_dir (Reorganize.fs r).
Proof.
  revert r. induction l as [|entry l IH]; intros r; [now split|].
  cbn [fold_left]. destruct (IH (Spec.step r entry)) as [-> ->].
  apply step_keeps.
Qed.

(** The stems written to a split file are those of the names of the set. *)
Lemma set_lines_stems (images : gset string) :
  list_to_set (Spec.set_lines images) =@{gset string} set_map stem images.
Proof.
  unfold Spec.set_lines. apply set_eq. intros x.
  rewrite elem_of_list_to_set, elem_of_map, list_elem_of_fmap.
  split; intros (n & -> & Hn); exists n; (split; [reflexivity|]);
    now apply elem_of_sorted.
Qed.

(** C4, as the code has it. The Reorganizer always writes the five split
    files. Each holds one line per image name of its set, the stem of that
    name, the names taken in sorted order without repetition. As sets of
    stems, [all] is the union of [train], [val] and [test], and
    [train_val] the union of [train] and [val]. (The lines themselves are
    sorted by name, not by stem, and two names with one stem give two
    equal lines.) *)
Theorem split_files_written (train val test : list (string * option string))
    (d : Reorganize.disk) :
  exists r,
    Reorganize.main train val test d = Ok r
    /\ (let sets := Reorganize.sets_dir (Reorganize.fs r) in
        let file images :=
          Some (String.concat "" (map (fun line => line +:+ nl) (Spec.set_lines images))) in
        sets !! "train.txt" = file (Spec.names train)
        /\ sets !! "val.txt" = file (Spec.names val)
        /\ sets !! "test.txt" = file (Spec.names test)
        /\ sets !! "all.txt" = file (Spec.names train ∪ Spec.names val ∪ Spec.names test)
        /\ sets !! "train_val.txt" = file (Spec.names train ∪ Spec.names val))
    /\ (forall images : gset string,
          Spec.set_lines images = map stem (sorted images)
          /\ StronglySorted String.le (sorted images)
          /\ NoDup (sorted images)
          /\ forall n, n ∈ sorted images <-> n ∈ images)
    /\ list_to_set (Spec.set_lines (Spec.names train ∪ Spec.names val ∪ Spec.names test))
       =@{gset string}
       list_to_set (Spec.set_lines (Spec.names train))
       ∪ list_to_set (Spec.set_lines (Spec.names val))
       ∪ list_to_set (Spec.set_lines (Spec.names test))
    /\ list_to_set (Spec.set_lines (Spec.names train ∪ Spec.names val))
       =@{gset string}
       list_to_set (Spec.set_lines (Spec.names train))
       ∪ list_to_set (Spec.set_lines (Spec.names val)).
Proof.
  eexists. split; [apply main_spec|]. split; [|split; [|split]].
  - cbv zeta. destruct (fold_step_keeps (Spec.all_data train val test)
                          (Spec.start train val test d)) as [_ ->].
    unfold Spec.start. cbn [Reorganize.fs Reorganize.sets_dir].
    unfold Spec.split_files.
    assert (Hfile : forall images,
               Some (Reorganize.set_file images)
               = Some (String.concat "" (map (fun line => line +:+ nl)
                                             (Spec.set_lines images)))).
    { intros images. unfold Reorganize.set_file, Spec.set_lines.
      now rewrite map_map. }
    rewrite <- !Hfile.
    repeat split;
      repeat (rewrite lookup_insert_ne by discriminate);
      apply lookup_insert_eq.
  - intros images. split; [reflexivity|].
    split; [apply sorted_StronglySorted|].
    split; [apply sorted_NoDup | apply elem_of_sorted].
  - rewrite !set_lines_stems. apply set_eq. intros x.
    rewrite !elem_of_union, !elem_of_map. setoid_rewrite elem_of_union.
    setoid_rewrite elem_of_union. naive_solver.
  - rewrite !set_lines_stems. apply set_eq. intros x.
    rewrite !elem_of_union, !elem_of_map. setoid_rewrite elem_of_union.
    naive_solver.
Qed.

(** C4 as stated fails. With the names [a-b.png] and [a.png] in the train
    table, [train.txt] holds the line [a-b] before the line [a], which is
    not the sorted order of the stems; with [a.jpg] and [a.png] it holds
    the line [a] twice. *)
Lemma split_file_lines_unsorted :
  (exists r,
     Reorganize.main [("a-b.png", None); ("a.png", None)] [] [] (Spec.fresh_disk ∅) = Ok r
     /\ Reorganize.sets_dir (Reorganize.fs r) !! "train.txt"
        = Some ("a-b" +:+ nl +:+ "a" +:+ nl)
     /\ splitlines ("a-b" +:+ nl +:+ "a" +:+ nl) = ["a-b"; "a"]
     /\ ~ Sorted String.le ["a-b"; "a"])
  /\ (exists r,
        Reorganize.main [("a.jpg", None); ("a.png", None)] [] [] (Spec.fresh_disk ∅) = Ok r
        /\ Reorganize.sets_dir (Reorganize.fs r) !! "train.txt"
           = Some ("a" +:+ nl +:+ "a" +:+ nl)
        /\ splitlines ("a" +:+ nl +:+ "a" +:+ nl) = ["a"; "a"]
        /\ ~ NoDup ["a"; "a"]).
Proof.
  split.
  - eexists. split; [vm_compute; reflexivity|].
    split; [vm_compute; reflexivity|]. split; [reflexivity|].
    intros H. inversion H as [|? ? _ Hhd]. inversion Hhd as [|? ? Hle].
    vm_compute in Hle. exact Hle.
  - eexists. split; [vm_compute; reflexivity|].
    split; [vm_compute; reflexivity|]. split; [reflexivity|].
    intros H. apply NoDup_cons in H as [Hnot _]. apply Hnot. apply list_elem_of_here.
Qed.

(** *** Running the Reorganizer twice *)

(** Writing a list of files twice in a row leaves what writing it once
    leaves. *)
Lemma lookup_write_files {V : Type} (files : list (string * V)) (dir : gmap string V)
    (k : string) :
  fold_left Spec.write_file files dir !! k
  = match fold_left Spec.write_file files ∅ !! k with
    | Some v => Some v
    | None => dir !! k
    end.
Proof.
  revert dir. induction files as [|[k' v'] files IH]; intros dir.
  - cbn [fold_left]. now rewrite lookup_empty.
  - cbn [fold_left]. rewrite IH, (IH (Spec.write_file ∅ (k', v'))).
    destruct (fold_left Spec.write_file files ∅ !! k); [reflexivity|].
    unfold Spec.write_file. cbn [fst snd].
    destruct (decide (k' = k)) as [->|Hne].
    + now rewrite !lookup_insert_eq.
    + now rewrite !lookup_insert_ne, lookup_empty by exact Hne.
Qed.















(** ** Round trip: Reorganizer, then converter *)

Lemma reorganize_sample (images_dir : gmap string string) (content : string)
    (train val test : list (string * option string)) :
  images_dir !! "a.png" = Some content ->
  (train, val, test) ∈ Spec.sample_tables ->
  exists r,
    Reorganize.main train val test (Spec.fresh_disk images_dir) = Ok r
    /\ Reorganize.images_output_dir (Reorganize.fs r) = {[ "a.png" := content ]}
    /\ Reorganize.csv_dir (Reorganize.fs r)
       = {[ "a.csv" := [ ["#item"; "x"; "y"; "width"; "height"; "label"];
                         ["0"; "0.0"; "0.0"; "10.0"; "10.0"; "1"] ] ]}
    /\ Reorganize.sets_dir (Reorganize.fs r) = Spec.split_files train val test ∅.
Proof.
  intros Hsrc Htables. eexists. split; [apply main_spec|].
  assert (Hdata : Spec.all_data train val test = [Spec.sample_row]).
  { unfold Spec.sample_tables in Htables.
    repeat (apply elem_of_cons in Htables as [[= -> -> ->]|Htables]; [reflexivity|]).
    inversion Htables. }
  rewrite Hdata. cbn [fold_left]. unfold Spec.step, Spec.sample_row.
  unfold Spec.start, Spec.fresh_disk.
  cbn [Reorganize.fs Reorganize.images_dir Reorganize.images_output_dir
       Reorganize.json_dir Reorganize.csv_dir Reorganize.sets_dir].
  rewrite Hsrc, lookup_empty.
  destruct (images_dir !! (stem "a.png" +:+ ".json"));
    cbn [Reorganize.fs Reorganize.images_output_dir Reorganize.csv_dir
         Reorganize.sets_dir];
    (split; [reflexivity|]); (split; [|reflexivity]);
    unfold Reorganize.create_csv_annotation; f_equal.
Qed.

Lemma convert_sample (decode : string -> option (Z * Z))
    (category_root_name content split category_name : string)
    (train val test : list (string * option string)) :
  (train, val, test) ∈ Spec.sample_tables ->
  split ∈ ["train"; "val"; "test"] ->
  Coco._collect_annotations_for_split decode category_root_name
    {[ "a.png" := content ]}
    {[ "a.csv" := [ ["#item"; "x"; "y"; "width"; "height"; "label"];
                    ["0"; "0.0"; "0.0"; "10.0"; "10.0"; "1"] ] ]}
    (Spec.split_files train val test ∅) split category_name
  = Ok ([ {| Coco.image_id_of := 1;
             Coco.file_name := category_root_name +:+ "/images/" +:+ "a.png";
             Coco.width := fst (Coco._image_size decode content);
             Coco.height := snd (Coco._image_size decode content) |} ],
        [ {| Coco.ann_id := 1; Coco.image_id := 1; Coco.ann_category_id := 1;
             Coco.ann_bbox := map float_of_Z [0; 0; 10; 10];
             Coco.ann_area := float_of_Z 100; Coco.iscrowd := 0 |} ],
        [ {| Coco.cat_id := 1; Coco.name := category_name;
             Coco.supercategory := "cereal" |} ]).
Proof.
  intros Htables Hsplit. unfold Spec.sample_tables in Htables.
  repeat (apply elem_of_cons in Htables as [[= -> -> ->]|Htables]);
    [| | |inversion Htables];
    (repeat (apply elem_of_cons in Hsplit as [->|Hsplit]); [| | |inversion Hsplit]);
    vm_compute; destruct (decode content) as [[w h]|]; reflexivity.
Qed.

(** C2. From the single wide-table row [image_name = a.png],
    [BoxesString = "0 0 10 10"], in whichever of the three tables, with
    [a.png] in the source directory and an empty output tree, the
    Reorganizer followed by the converter gives, for each of the splits
    [train], [val] and [test], a document with one image and one
    annotation, of bbox [[0, 0, 10, 10]]. *)
Theorem round_trip (decode : string -> option (Z * Z))
    (images_dir : gmap string string) (content : string)
    (train val test : list (string * option string)) (split : string) :
  images_dir !! "a.png" = Some content ->
  (train, val, test) ∈ Spec.sample_tables ->
  split ∈ ["train"; "val"; "test"] ->
  exists r image ann cats,
    Reorganize.main train val test (Spec.fresh_disk images_dir) = Ok r
    /\ Coco._collect_annotations_for_split decode "wheat_heads"
         (Reorganize.images_output_dir (Reorganize.fs r))
         (Reorganize.csv_dir (Reorganize.fs r))
         (Reorganize.sets_dir (Reorganize.fs r)) split "wheat_head"
       = Ok ([image], [ann], cats)
    /\ Coco.file_name image = "wheat_heads/images/a.png"
    /\ Coco.image_id ann = Coco.image_id_of image
    /\ Coco.ann_bbox ann = map float_of_Z [0; 0; 10; 10].
Proof.
  intros Hsrc Htables Hsplit.
  destruct (reorganize_sample images_dir content train val test Hsrc Htables)
    as (r & Hmain & Hout & Hcsv & Hsets).
  exists r. eexists _, _, _. split; [exact Hmain|].
  rewrite Hout, Hcsv, Hsets.
  split; [apply convert_sample; assumption|].
  repeat split.
Qed.

Lemma round_trip_witness :
  exists r image ann cats,
    Reorganize.main [Spec.sample_row] [] [] (Spec.fresh_disk {[ "a.png" := "PNG" ]}) = Ok r
    /\ Coco._collect_annotations_for_split (fun _ => Some (640, 480)) "wheat_heads"
         (Reorganize.images_output_dir (Reorganize.fs r))
         (Reorganize.csv_dir (Reorganize.fs r))
         (Reorganize.sets_dir (Reorganize.fs r)) "train" "wheat_head"
       = Ok ([image], [ann], cats)
    /\ Coco.file_name image = "wheat_heads/images/a.png"
    /\ Coco.image_id ann = Coco.image_id_of image
    /\ Coco.ann_bbox ann = map float_of_Z [0; 0; 10; 10].
Proof.
  apply (round_trip (fun _ => Some (640, 480)) {[ "a.png" := "PNG" ]} "PNG"
           [Spec.sample_row] [] [] "train").
  - apply lookup_singleton_eq.
  - apply list_elem_of_here.
  - apply list_elem_of_here.
Defined.



(** ** Integers as binary64 floats *)

Lemma shift_S (n : nat) (p : positive) : Spec.shift (S n) p = xO (Spec.shift n p).
Proof. reflexivity. Qed.

Lemma shift_value (n : nat) (p : positive) :
  Z.pos (Spec.shift n p) = Z.pos p * 2 ^ Z.of_nat n.
Proof.
  induction n as [|n IH].
  - simpl. lia.
  - rewrite shift_S, Nat2Z.inj_succ, Z.pow_succ_r by lia.
    change (Z.pos (Spec.shift n p)~0) with (2 * Z.pos (Spec.shift n p)). lia.
Qed.

Lemma shift_digits (n : nat) (p : positive) :
  Z.pos (digits2_pos (Spec.shift n p)) = Z.pos (digits2_pos p) + Z.of_nat n.
Proof.
  induction n as [|n IH].
  - simpl. lia.
  - rewrite shift_S. cbn [digits2_pos]. lia.
Qed.

Lemma pos_iter_shift (p : positive) (d : positive) :
  Pos.iter xO p d = Spec.shift (Pos.to_nat d) p.
Proof. unfold Spec.shift. now rewrite Pos2Nat.inj_iter. Qed.

Lemma iter_pos_nat {A : Type} (f : A -> A) (n : positive) (x : A) :
  SpecFloat.iter_pos f n x = Nat.iter (Pos.to_nat n) f x.
Proof.
  revert x. induction n as [n IH|n IH|]; intros x; cbn [SpecFloat.iter_pos].
  - rewrite !IH, Pos2Nat.inj_xI.
    replace (S (2 * Pos.to_nat n)) with (Pos.to_nat n + (Pos.to_nat n + 1))%nat by lia.
    now rewrite !Nat.iter_add.
  - rewrite !IH, Pos2Nat.inj_xO.
    replace (2 * Pos.to_nat n)%nat with (Pos.to_nat n + Pos.to_nat n)%nat by lia.
    now rewrite Nat.iter_add.
  - reflexivity.
Qed.

Lemma shr_shift (n : nat) (p : positive) :
  Nat.iter n shr_1 {| shr_m := Z.pos (Spec.shift n p); shr_r := false; shr_s := false |}
  = {| shr_m := Z.pos p; shr_r := false; shr_s := false |}.
Proof.
  induction n as [|n IH]; [reflexivity|].
  rewrite Nat.iter_succ_r, shift_S. cbn [shr_1 orb]. exact IH.
Qed.

Lemma digits_bounds (p : positive) :
  2 ^ (Z.pos (digits2_pos p) - 1) <= Z.pos p < 2 ^ Z.pos (digits2_pos p).
Proof.
  induction p as [p IH|p IH|]; cbn [digits2_pos].
  - rewrite Pos2Z.inj_succ, Pos2Z.inj_xI.
    replace (Z.succ (Z.pos (digits2_pos p)) - 1) with (Z.succ (Z.pos (digits2_pos p) - 1)) by lia.
    rewrite !Z.pow_succ_r by lia. lia.
  - rewrite Pos2Z.inj_succ. change (Z.pos p~0) with (2 * Z.pos p).
    replace (Z.succ (Z.pos (digits2_pos p)) - 1) with (Z.succ (Z.pos (digits2_pos p) - 1)) by lia.
    rewrite !Z.pow_succ_r by lia. lia.
  - simpl. lia.
Qed.

Lemma digits_le_53 (p : positive) : Z.pos p < 2 ^ 53 -> Z.pos (digits2_pos p) <= 53.
Proof.
  intros Hp. destruct (Z_le_gt_dec (Z.pos (digits2_pos p)) 53) as [H|H]; [exact H|].
  exfalso. destruct (digits_bounds p) as [Hlo _].
  assert (2 ^ 53 <= 2 ^ (Z.pos (digits2_pos p) - 1)) by (apply Z.pow_le_mono_r; lia).
  lia.
Qed.

(** Rounding an exact multiple [v * 2^k] of a small integer [v], given
    with the exponent [-k], yields the representation of [v]. *)
Lemma binary_round_shifted (s : bool) (v : positive) (k : nat) :
  Z.pos v < 2 ^ 53 ->
  binary_round prec emax s (Spec.shift k v) (- Z.of_nat k) = Spec.canonical s v.
Proof.
  intros Hv. pose proof (digits_le_53 v Hv) as Hg.
  pose proof (Pos2Z.is_pos (digits2_pos v)) as Hg0.
  unfold binary_round, Spec.canonical.
  rewrite shift_digits.
  replace (Z.pos (digits2_pos v) + Z.of_nat k + - Z.of_nat k) with (Z.pos (digits2_pos v)) by lia.
  set (g := Z.pos (digits2_pos v)) in *.
  assert (Hfexp : forall x, 1 <= x -> fexp prec emax x = x - 53).
  { intros x Hx. unfold fexp, emin, prec, emax. lia. }
  rewrite Hfexp by lia.
  unfold shl_align.
  assert (Haux : forall j : nat, (Z.to_nat (53 - g) <= j)%nat ->
             binary_round_aux prec emax s (Z.pos (Spec.shift j v)) (g - 53 - Z.of_nat (j - Z.to_nat (53 - g))) loc_Exact
             = S754_finite s (Spec.shift (Z.to_nat (53 - g)) v) (g - 53)).
  { intros j Hj. unfold binary_round_aux, shr_fexp.
    cbn [Zdigits2 shr_record_of_loc]. rewrite shift_digits. fold g.
    rewrite Hfexp by lia.
    set (n := (j - Z.to_nat (53 - g))%nat).
    replace (g + Z.of_nat j + (g - 53 - Z.of_nat n) - 53 - (g - 53 - Z.of_nat n))
      with (Z.of_nat n) by lia.
    assert (Hshr : shr {| shr_m := Z.pos (Spec.shift j v); shr_r := false; shr_s := false |}
                       (g - 53 - Z.of_nat n) (Z.of_nat n)
                   = ({| shr_m := Z.pos (Spec.shift (Z.to_nat (53 - g)) v); shr_r := false; shr_s := false |},
                      g - 53)).
    { unfold shr. destruct (Z.of_nat n) as [|pn|pn] eqn:Hn.
      - assert (n = 0)%nat by lia. f_equal; [|lia]. do 2 f_equal. f_equal. lia.
      - rewrite iter_pos_nat.
        assert (Hpn : Pos.to_nat pn = n) by lia. rewrite Hpn.
        replace j with (n + Z.to_nat (53 - g))%nat at 1 by lia.
        unfold Spec.shift at 1. rewrite Nat.iter_add. fold (Spec.shift (Z.to_nat (53 - g)) v).
        fold (Spec.shift n (Spec.shift (Z.to_nat (53 - g)) v)).
        rewrite shr_shift. f_equal. lia.
      - lia. }
    rewrite Hshr. cbn [shr_m loc_of_shr_record round_nearest_even Zdigits2 shr_record_of_loc].
    rewrite shift_digits. fold g. rewrite Hfexp by lia.
    replace (g + Z.of_nat (Z.to_nat (53 - g)) + (g - 53) - 53 - (g - 53)) with 0 by lia.
    cbn [shr shr_m].
    replace (g - 53 <=? emax - prec) with true; [reflexivity|].
    symmetry. apply Z.leb_le. unfold emax, prec. lia. }
  destruct (g - 53 - - Z.of_nat k) as [|d|d] eqn:Hd.
  - specialize (Haux k ltac:(lia)).
    replace (g - 53 - Z.of_nat (k - Z.to_nat (53 - g))) with (- Z.of_nat k) in Haux by lia.
    exact Haux.
  - specialize (Haux k ltac:(lia)).
    replace (g - 53 - Z.of_nat (k - Z.to_nat (53 - g))) with (- Z.of_nat k) in Haux by lia.
    exact Haux.
  - rewrite pos_iter_shift.
    assert (Hsh : Spec.shift (Pos.to_nat d) (Spec.shift k v) = Spec.shift (Z.to_nat (53 - g)) v).
    { unfold Spec.shift. rewrite <- Nat.iter_add. f_equal. lia. }
    rewrite Hsh.
    specialize (Haux (Z.to_nat (53 - g)) ltac:(lia)).
    replace (g - 53 - Z.of_nat (Z.to_nat (53 - g) - Z.to_nat (53 - g))) with (g - 53) in Haux by lia.
    exact Haux.
Qed.

Lemma canonical_value (s : bool) (v : positive) :
  Z.pos v < 2 ^ 53 -> Spec.float_is_Z (Spec.canonical s v) (Spec.signed s v).
Proof.
  intros Hv. pose proof (digits_le_53 v Hv) as Hg.
  unfold Spec.canonical, Spec.float_is_Z. cbv zeta.
  set (g := Z.pos (digits2_pos v)) in *.
  assert (Hm : Z.pos (Spec.shift (Z.to_nat (53 - g)) v) = Z.pos v * 2 ^ (53 - g)).
  { rewrite shift_value. f_equal. f_equal. lia. }
  set (m := Spec.shift (Z.to_nat (53 - g)) v) in *.
  destruct (0 <=? g - 53) eqn:He.
  - apply Z.leb_le in He.
    replace (g - 53) with 0 by lia. replace (53 - g) with 0 in Hm by lia.
    rewrite Z.pow_0_r in *. unfold Spec.signed. destruct s; lia.
  - replace (- (g - 53)) with (53 - g) by lia.
    unfold Spec.signed. destruct s; lia.
Qed.

Lemma float_of_decimal_int (s : bool) (v : positive) :
  Z.pos v < 2 ^ 53 -> float_of_decimal s (Z.pos v) 0 = Spec.canonical s v.
Proof.
  intros Hv. unfold float_of_decimal.
  change (0 <=? 0) with true. cbv iota.
  rewrite Z.pow_0_r, Z.mul_1_r.
  destruct s; cbn [Z.opp binary_normalize];
    apply (binary_round_shifted _ v 0 Hv).
Qed.

Lemma shl_align_canonical (v : positive) (ez : Z) :
  Z.pos v < 2 ^ 53 ->
  ez <= Z.pos (digits2_pos v) - 53 ->
  fst (shl_align (Spec.shift (Z.to_nat (53 - Z.pos (digits2_pos v))) v)
                 (Z.pos (digits2_pos v) - 53) ez)
  = Spec.shift (Z.to_nat (- ez)) v.
Proof.
  intros Hv He. pose proof (digits_le_53 v Hv) as Hg.
  unfold shl_align.
  destruct (ez - (Z.pos (digits2_pos v) - 53)) as [|d|d] eqn:Hd; cbn [fst].
  - f_equal. lia.
  - lia.
  - rewrite pos_iter_shift. unfold Spec.shift. rewrite <- Nat.iter_add. f_equal. lia.
Qed.

Lemma fsub_canonical (sb sa : bool) (vb va : positive) :
  Z.pos vb < 2 ^ 52 -> Z.pos va < 2 ^ 52 ->
  Spec.float_is_Z (fsub (Spec.canonical sb vb) (Spec.canonical sa va)) (Spec.signed sb vb - Spec.signed sa va).
Proof.
  intros Hb Ha.
  assert (Hb' : Z.pos vb < 2 ^ 53) by lia. assert (Ha' : Z.pos va < 2 ^ 53) by lia.
  pose proof (digits_le_53 vb Hb') as Hgb. pose proof (digits_le_53 va Ha') as Hga.
  unfold fsub, Spec.canonical, SFsub.
  set (ez := Z.min _ _).
  rewrite (shl_align_canonical vb ez Hb') by (unfold ez; lia).
  rewrite (shl_align_canonical va ez Ha') by (unfold ez; lia).
  assert (Hez : ez = - Z.of_nat (Z.to_nat (- ez))) by (unfold ez; lia).
  set (k := Z.to_nat (- ez)) in *.
  assert (HD : cond_Zopp sb (Z.pos (Spec.shift k vb)) - cond_Zopp sa (Z.pos (Spec.shift k va))
               = (Spec.signed sb vb - Spec.signed sa va) * 2 ^ Z.of_nat k).
  { rewrite !shift_value. unfold cond_Zopp, Spec.signed. destruct sb, sa; lia. }
  rewrite HD. clear HD.
  assert (Hrange : - 2 ^ 53 < Spec.signed sb vb - Spec.signed sa va < 2 ^ 53).
  { unfold Spec.signed. destruct sb, sa; lia. }
  destruct (Spec.signed sb vb - Spec.signed sa va) as [|v|v] eqn:Hdiff.
  - reflexivity.
  - assert (HP : Z.pos v * 2 ^ Z.of_nat k = Z.pos (Spec.shift k v)) by (now rewrite shift_value).
    rewrite HP. cbn [binary_normalize]. rewrite Hez.
    rewrite (binary_round_shifted false v k) by lia.
    apply (canonical_value false v). lia.
  - assert (HP : Z.neg v * 2 ^ Z.of_nat k = Z.neg (Spec.shift k v)).
    { change (Z.neg (Spec.shift k v)) with (- Z.pos (Spec.shift k v)).
      rewrite shift_value. lia. }
    rewrite HP. cbn [binary_normalize]. rewrite Hez.
    rewrite (binary_round_shifted true v k) by lia.
    apply (canonical_value true v). lia.
Qed.

Lemma float_of_int_value (s : bool) (n : Z) :
  0 <= n < 2 ^ 53 -> Spec.float_is_Z (Spec.float_of_int s n) (if s then - n else n).
Proof.
  intros Hn. unfold Spec.float_of_int. destruct n as [|v|v]; [|..|lia].
  - cbn. destruct s; reflexivity.
  - rewrite float_of_decimal_int by lia.
    replace (if s then - Z.pos v else Z.pos v) with (Spec.signed s v) by (now destruct s).
    apply canonical_value. lia.
Qed.

Lemma fsub_float_of_int (sb sa : bool) (nb na : Z) :
  0 <= nb < 2 ^ 52 -> 0 <= na < 2 ^ 52 ->
  Spec.float_is_Z (fsub (Spec.float_of_int sb nb) (Spec.float_of_int sa na))
             ((if sb then - nb else nb) - (if sa then - na else na)).
Proof.
  intros Hb Ha. unfold Spec.float_of_int.
  destruct nb as [|vb|vb]; [| |lia]; destruct na as [|va|va]; try lia.
  - cbn. destruct sb, sa; reflexivity.
  - rewrite (float_of_decimal_int sa va) by lia.
    cbn [float_of_decimal]. unfold fsub, SFsub, Spec.canonical.
    pose proof (canonical_value (negb sa) va ltac:(lia)) as Hval.
    unfold Spec.canonical in Hval.
    replace ((if sb then - 0 else 0) - (if sa then - Z.pos va else Z.pos va))
      with (Spec.signed (negb sa) va) by (unfold Spec.signed; destruct sb, sa; reflexivity).
    exact Hval.
  - rewrite (float_of_decimal_int sb vb) by lia.
    cbn [float_of_decimal]. unfold fsub, SFsub, Spec.canonical.
    pose proof (canonical_value sb vb ltac:(lia)) as Hval.
    unfold Spec.canonical in Hval.
    replace ((if sb then - Z.pos vb else Z.pos vb) - (if sa then - 0 else 0))
      with (Spec.signed sb vb) by (unfold Spec.signed; destruct sb, sa; reflexivity).
    exact Hval.
  - rewrite (float_of_decimal_int sb vb), (float_of_decimal_int sa va) by lia.
    replace ((if sb then - Z.pos vb else Z.pos vb) - (if sa then - Z.pos va else Z.pos va))
      with (Spec.signed sb vb - Spec.signed sa va) by (unfold Spec.signed; destruct sb, sa; reflexivity).
    apply fsub_canonical; lia.
Qed.


(** ** Integer literals are float literals *)

Lemma chars_str (l : list ascii) : chars (str l) = l.
Proof. apply list_ascii_of_string_of_list_ascii. Qed.

Lemma digit_not_sign (c : ascii) :
  isdigit c = true -> Ascii.eqb c "-" = false /\ Ascii.eqb c "+" = false.
Proof.
  intros Hc. split.
  - destruct (Ascii.eqb_spec c "-") as [->|]; [discriminate Hc | reflexivity].
  - destruct (Ascii.eqb_spec c "+") as [->|]; [discriminate Hc | reflexivity].
Qed.

(** What is left of a string of digits and underscores is a string of
    digits. *)
Lemma drop_underscores_digits (l d : list ascii) (prev : ascii) :
  forallb (fun c => isdigit c || Ascii.eqb c "_") l = true ->
  drop_underscores prev l = Some d ->
  forallb isdigit d = true.
Proof.
  revert prev d. induction l as [|c l IH]; intros prev d Hall Hd.
  - cbn in Hd. destruct (Ascii.eqb prev "_"); [discriminate|].
    now injection Hd as <-.
  - cbn [forallb] in Hall. apply andb_true_iff in Hall as [Hc Hall].
    cbn [drop_underscores] in Hd.
    destruct (Ascii.eqb c "_") eqn:Hu.
    + destruct (isdigit prev); [|discriminate]. eapply IH; eassumption.
    + rewrite orb_false_r in Hc.
      destruct (Ascii.eqb prev "_" && negb (isdigit c)); [discriminate|].
      destruct (drop_underscores c l) as [d'|] eqn:Hd'; [|discriminate].
      injection Hd as <-. cbn [forallb]. rewrite Hc. eapply IH; eassumption.
Qed.

(** The first character of a valid literal is kept. *)
Lemma drop_underscores_head (c : ascii) (l d : list ascii) :
  drop_underscores nul (c :: l) = Some d -> exists d', d = c :: d'.
Proof.
  cbn [drop_underscores]. destruct (Ascii.eqb c "_"); [discriminate|].
  change (Ascii.eqb nul "_") with false. cbn [andb].
  destruct (drop_underscores c l) as [d'|]; [|discriminate].
  intros [= <-]. now exists d'.
Qed.

(** A sign before the literal changes nothing to the rule. *)
Lemma drop_underscores_sign (sg : ascii) (l : list ascii) :
  isdigit sg = false -> Ascii.eqb sg "_" = false ->
  drop_underscores nul (sg :: l) = option_map (cons sg) (drop_underscores nul l).
Proof.
  intros Hd Hu. cbn [drop_underscores]. rewrite Hu.
  change (Ascii.eqb nul "_") with false. cbn [andb].
  f_equal. destruct l as [|c l]; cbn [drop_underscores].
  - now rewrite Hu.
  - rewrite Hd, Hu. change (isdigit nul) with false.
    change (Ascii.eqb nul "_") with false. reflexivity.
Qed.

Lemma span_digits_all (d : list ascii) :
  forallb isdigit d = true -> span_digits d = (d, []).
Proof.
  induction d as [|c d IH]; [reflexivity|].
  cbn [forallb span_digits]. intros [Hc Hd]%andb_true_iff.
  now rewrite Hc, IH.
Qed.

Lemma digit_value_nonneg (c : ascii) : isdigit c = true -> 0 <= digit_value c.
Proof.
  unfold isdigit, digit_value. intros [H _]%andb_true_iff.
  apply N.leb_le in H. lia.
Qed.

Lemma digits_value_nonneg (d : list ascii) :
  forallb isdigit d = true -> 0 <= digits_value d.
Proof.
  unfold digits_value.
  assert (H : forall acc, 0 <= acc -> forallb isdigit d = true ->
                0 <= fold_left (fun a c => 10 * a + digit_value c) d acc).
  { induction d as [|c d IH]; intros acc Hacc Hd; [exact Hacc|].
    cbn [forallb fold_left] in *. apply andb_true_iff in Hd as [Hc Hd].
    apply IH; [|exact Hd]. pose proof (digit_value_nonneg c Hc). lia. }
  apply H. lia.
Qed.

(** A string that starts with a digit is none of [inf], [infinity], [nan]. *)
Lemma digits_not_a_name (c : ascii) (d : list ascii) :
  isdigit c = true ->
  String.eqb (lower_chars (c :: d)) "inf" = false
  /\ String.eqb (lower_chars (c :: d)) "infinity" = false
  /\ String.eqb (lower_chars (c :: d)) "nan" = false.
Proof.
  intros Hc. unfold lower_chars, lower. rewrite chars_str.
  cbn [map str string_of_list_ascii].
  assert (Hl : lower_char c = c).
  { unfold lower_char. unfold isdigit in Hc.
    apply andb_true_iff in Hc as [H1 H2]. apply N.leb_le in H1, H2.
    replace ((65 <=? code c)%N) with false by (symmetry; apply N.leb_gt; lia).
    replace ((192 <=? code c)%N) with false by (symmetry; apply N.leb_gt; lia).
    reflexivity. }
  rewrite Hl. cbn [String.eqb].
  assert (Hi : Ascii.eqb c "i" = false)
    by (destruct (Ascii.eqb_spec c "i") as [->|]; [discriminate Hc | reflexivity]).
  assert (Hn : Ascii.eqb c "n" = false)
    by (destruct (Ascii.eqb_spec c "n") as [->|]; [discriminate Hc | reflexivity]).
  now rewrite Hi, Hn.
Qed.

(** [float()] on a sign followed by digits. *)
Lemma float_of_str_digits (s : string) (l : list ascii) (neg : bool)
    (c : ascii) (d : list ascii) :
  drop_underscores nul (strip_chars (chars s)) = Some l ->
  take_sign l = (neg, c :: d) ->
  forallb isdigit (c :: d) = true ->
  float_of_str s = Ok (Spec.float_of_int neg (digits_value (c :: d))).
Proof.
  intros Hl Hsign Hd. unfold float_of_str. rewrite Hl, Hsign.
  assert (Hc : isdigit c = true) by (cbn [forallb] in Hd; now apply andb_true_iff in Hd).
  destruct (digits_not_a_name c d Hc) as (-> & -> & ->). cbn [orb].
  rewrite (span_digits_all _ Hd). cbn [span_digits app exponent_part length].
  rewrite app_nil_r. reflexivity.
Qed.

Lemma float_of_str_int (s : string) (z : Z) :
  int_of_str s = Ok z ->
  exists (neg : bool) (n : Z),
    0 <= n /\ z = (if neg then - n else n)
    /\ float_of_str s = Ok (Spec.float_of_int neg n).
Proof.
  unfold int_of_str.
  destruct (take_sign (strip_chars (chars s))) as [neg body] eqn:Hsign.
  destruct body as [|c body]; [discriminate|].
  destruct (forallb _ (c :: body)) eqn:Hall; [|discriminate].
  destruct (drop_underscores nul (c :: body)) as [d|] eqn:Hd; [|discriminate].
  destruct (_ <? _)%nat; [discriminate|]. intros [= <-].
  pose proof (drop_underscores_digits _ _ _ Hall Hd) as Hdigits.
  destruct (drop_underscores_head _ _ _ Hd) as [d' ->].
  assert (Hc : isdigit c = true)
    by (cbn [forallb] in Hdigits; now apply andb_true_iff in Hdigits).
  destruct (digit_not_sign c Hc) as [Hminus Hplus].
  exists neg, (digits_value (c :: d')).
  split; [now apply digits_value_nonneg|]. split; [reflexivity|].
  unfold take_sign in Hsign.
  destruct (strip_chars (chars s)) as [|a l] eqn:Hstrip; [discriminate|].
  destruct (Ascii.eqb a "-") eqn:Ha.
  - injection Hsign as <- ->. apply Ascii.eqb_eq in Ha. subst a.
    apply (float_of_str_digits s ("-"%char :: c :: d') true c d'); [| |exact Hdigits].
    + rewrite Hstrip, drop_underscores_sign, Hd by reflexivity. reflexivity.
    + reflexivity.
  - destruct (Ascii.eqb a "+") eqn:Hb.
    + injection Hsign as <- ->. apply Ascii.eqb_eq in Hb. subst a.
      apply (float_of_str_digits s ("+"%char :: c :: d') false c d'); [| |exact Hdigits].
      * rewrite Hstrip, drop_underscores_sign, Hd by reflexivity. reflexivity.
      * reflexivity.
    + injection Hsign as <- -> ->.
      apply (float_of_str_digits s (c :: d') false c d'); [| |exact Hdigits].
      * now rewrite Hstrip.
      * unfold take_sign. now rewrite Hminus, Hplus.
Qed.

(** ** The two box-string parsers compared *)

Lemma mapM_cons_Ok {A B : Type} (f : A -> result B) (a : A) (l : list A)
    (bs : list B) :
  mapM f (a :: l) = Ok bs ->
  exists b bs', bs = b :: bs' /\ f a = Ok b /\ mapM f l = Ok bs'.
Proof.
  cbn [mapM]. destruct (f a) as [b|e]; [|discriminate].
  rewrite bind_Ok. destruct (mapM f l) as [bs'|e]; [|discriminate].
  rewrite bind_Ok. intros [= <-]. now exists b, bs'.
Qed.

Lemma mapM_four {A B : Type} (f : A -> result B) (l : list A) (b1 b2 b3 b4 : B) :
  mapM f l = Ok [b1; b2; b3; b4] ->
  exists a1 a2 a3 a4,
    l = [a1; a2; a3; a4]
    /\ f a1 = Ok b1 /\ f a2 = Ok b2 /\ f a3 = Ok b3 /\ f a4 = Ok b4.
Proof.
  intros H.
  destruct l as [|a1 l]; [discriminate|].
  apply mapM_cons_Ok in H as (? & ? & [= <- <-] & H1 & H).
  destruct l as [|a2 l]; [discriminate|].
  apply mapM_cons_Ok in H as (? & ? & [= <- <-] & H2 & H).
  destruct l as [|a3 l]; [discriminate|].
  apply mapM_cons_Ok in H as (? & ? & [= <- <-] & H3 & H).
  destruct l as [|a4 l]; [discriminate|].
  apply mapM_cons_Ok in H as (? & ? & [= <- <-] & H4 & H).
  destruct l as [|a5 l].
  - now exists a1, a2, a3, a4.
  - apply mapM_cons_Ok in H as (? & ? & [=] & _).
Qed.

(** C10, as the code has it. Both parsers go through a box string
    segment by segment. Every segment that [generate_coco_annotations.py]
    accepts, [reorganize_dataset.py] accepts too, and when the four
    integers are below [2^52] in magnitude its [x], [y], [width] and
    [height] have exactly the values of the four [bbox] entries. (The
    converse fails, and the Reorganizer's record stores no area.) *)
Theorem generate_segment_accepted_by_reorganize (s seg : string) (i : nat)
    (b : Generate.box) :
  Spec.generate_segment seg = Some b ->
  Generate.parse_boxes_string (Some s)
  = Ok (omap Spec.generate_segment (split_on ";" s))
  /\ Reorganize.parse_boxes_string (Some s)
     = Ok (omap id (imap Spec.reorganize_segment (split_on ";" s)))
  /\ exists (x1 y1 x2 y2 : Z) (rb : Reorganize.box),
       b = {| Generate.bbox := [x1; y1; x2 - x1; y2 - y1];
              Generate.area := (x2 - x1) * (y2 - y1) |}
       /\ Spec.reorganize_segment i seg = Some rb
       /\ Reorganize.item rb = i
       /\ (Z.abs x1 < 2 ^ 52 -> Z.abs x2 < 2 ^ 52 ->
           Spec.float_is_Z (Reorganize.x rb) x1
           /\ Spec.float_is_Z (Reorganize.width rb) (x2 - x1))
       /\ (Z.abs y1 < 2 ^ 52 -> Z.abs y2 < 2 ^ 52 ->
           Spec.float_is_Z (Reorganize.y rb) y1
           /\ Spec.float_is_Z (Reorganize.height rb) (y2 - y1)).
Proof.
  intros Hgen.
  split; [apply generate_parse_boxes_string_spec|].
  split; [apply reorganize_parse_boxes_string_spec|].
  unfold Spec.generate_segment in Hgen.
  destruct (mapM int_of_str (split (strip seg)))
    as [[|x1 [|y1 [|x2 [|y2 [|? ?]]]]]|e] eqn:Hints; try discriminate.
  injection Hgen as <-.
  apply mapM_four in Hints as (t1 & t2 & t3 & t4 & Htok & H1 & H2 & H3 & H4).
  apply float_of_str_int in H1 as (s1 & n1 & Hn1 & -> & F1).
  apply float_of_str_int in H2 as (s2 & n2 & Hn2 & -> & F2).
  apply float_of_str_int in H3 as (s3 & n3 & Hn3 & -> & F3).
  apply float_of_str_int in H4 as (s4 & n4 & Hn4 & -> & F4).
  eexists _, _, _, _, _. split; [reflexivity|].
  unfold Spec.reorganize_segment. rewrite Htok. cbn [mapM].
  rewrite F1, bind_Ok, F2, bind_Ok, F3, bind_Ok, F4, !bind_Ok.
  split; [reflexivity|]. split; [reflexivity|].
  cbn [Reorganize.x Reorganize.y Reorganize.width Reorganize.height].
  split; intros Ha Hb.
  - split; [apply float_of_int_value | apply fsub_float_of_int];
      destruct s1, s3; lia.
  - split; [apply float_of_int_value | apply fsub_float_of_int];
      destruct s2, s4; lia.
Qed.

Lemma generate_segment_accepted_by_reorganize_witness :
  exists rb,
    Spec.generate_segment "5 6 7 9"
    = Some {| Generate.bbox := [5; 6; 2; 3]; Generate.area := 6 |}
    /\ Spec.reorganize_segment 0 "5 6 7 9" = Some rb
    /\ Spec.float_is_Z (Reorganize.x rb) 5
    /\ Spec.float_is_Z (Reorganize.y rb) 6
    /\ Spec.float_is_Z (Reorganize.width rb) 2
    /\ Spec.float_is_Z (Reorganize.height rb) 3.
Proof.
  destruct (generate_segment_accepted_by_reorganize "5 6 7 9" "5 6 7 9" 0
              {| Generate.bbox := [5; 6; 2; 3]; Generate.area := 6 |} eq_refl)
    as (_ & _ & x1 & y1 & x2 & y2 & rb & Hb & Hrb & _ & Hx & Hy).
  injection Hb as H1 H2 Hw Hh _.
  assert (x1 = 5) as -> by lia. assert (y1 = 6) as -> by lia.
  assert (x2 = 7) as -> by lia. assert (y2 = 9) as -> by lia.
  exists rb. split; [reflexivity|]. split; [exact Hrb|].
  destruct Hx as [Hx Hw']; [reflexivity..|].
  destruct Hy as [Hy Hh']; [reflexivity..|].
  repeat split; assumption.
Defined.

(** C10 as stated fails. The segment ["1.5 2 3 4"] is accepted by
    [reorganize_dataset.py] and dropped by [generate_coco_annotations.py];
    and for ["9007199254740993 0 9007199254740993 0"], which both accept,
    the generator's [x] is 9007199254740993 while the Reorganizer's is the
    float 9007199254740992. *)
Lemma parsers_disagree :
  (exists rb, Reorganize.parse_boxes_string (Some "1.5 2 3 4") = Ok [rb])
  /\ Generate.parse_boxes_string (Some "1.5 2 3 4") = Ok []
  /\ exists rb b,
       Reorganize.parse_boxes_string (Some "9007199254740993 0 9007199254740993 0")
       = Ok [rb]
       /\ Generate.parse_boxes_string (Some "9007199254740993 0 9007199254740993 0")
          = Ok [b]
       /\ Generate.bbox b = [9007199254740993; 0; 0; 0]
       /\ Spec.float_is_Z (Reorganize.x rb) 9007199254740992
       /\ ~ Spec.float_is_Z (Reorganize.x rb) 9007199254740993.
Proof.
  split; [eexists; vm_compute; reflexivity|].
  split; [vm_compute; reflexivity|].
  eexists _, _. split; [vm_compute; reflexivity|].
  split; [vm_compute; reflexivity|].
  split; [reflexivity|]. split; [vm_compute; reflexivity|].
  vm_compute. discriminate.
Qed.

(** * Further properties of the scripts *)

(** ** More lemmas on strings *)

Lemma str_chars (s : string) : str (chars s) = s.
Proof. apply string_of_list_ascii_of_string. Qed.

Lemma chars_app (s1 s2 : string) : chars (s1 +:+ s2) = chars s1 ++ chars s2.
Proof.
  unfold chars. induction s1 as [|c s1 IH]; [reflexivity|].
  change (String c s1 +:+ s2) with (String c (s1 +:+ s2)).
  cbn [list_ascii_of_string app]. f_equal. exact IH.
Qed.

Lemma split_on_go_final_sep (sep : ascii) (cur l : list ascii) :
  split_on_go sep cur (l ++ [sep]) = split_on_go sep cur l ++ [""].
Proof.
  revert cur. induction l as [|c l IH]; intros cur; cbn [app split_on_go].
  - now rewrite Ascii.eqb_refl.
  - destruct (Ascii.eqb c sep); cbn [app]; now rewrite IH.
Qed.

Lemma split_on_final_sep (sep : ascii) (s : string) :
  split_on sep (s +:+ String sep "") = split_on sep s ++ [""].
Proof. unfold split_on. rewrite chars_app. apply split_on_go_final_sep. Qed.

(** ** The box-string parsers *)

(** X1. A semicolon at the end of a box string changes the result of
    neither parser. *)
Theorem final_semicolon_ignored (s : string) :
  Reorganize.parse_boxes_string (Some (s +:+ ";"))
  = Reorganize.parse_boxes_string (Some s)
  /\ Generate.parse_boxes_string (Some (s +:+ ";"))
     = Generate.parse_boxes_string (Some s).
Proof.
  rewrite !reorganize_parse_boxes_string_spec, !generate_parse_boxes_string_spec.
  unfold Spec.reorganize_boxes, Spec.generate_boxes.
  rewrite (split_on_final_sep ";" s), imap_app, !omap_app.
  cbn [imap omap list_omap]. split; f_equal.
  - unfold Spec.reorganize_segment. cbn. now rewrite app_nil_r.
  - unfold Spec.generate_segment. cbn. now rewrite app_nil_r.
Qed.

Lemma reorganize_segments_items (segs : list string) (i : nat) :
  let boxes := omap id (imap (fun j => Spec.reorganize_segment (i + j)) segs) in
  StronglySorted lt (map Reorganize.item boxes)
  /\ Forall (fun b => (i <= Reorganize.item b < i + length segs)%nat
                      /\ Reorganize.label b = 1) boxes.
Proof.
  revert i. induction segs as [|seg segs IH]; intros i; cbn zeta.
  - cbn. split; constructor.
  - rewrite imap_cons. cbn [omap list_omap id].
    assert (Hshift : imap ((fun j => Spec.reorganize_segment (i + j)) ∘ S) segs
                     = imap (fun j => Spec.reorganize_segment (S i + j)) segs).
    { apply imap_ext. intros j x _. simpl. f_equal. lia. }
    rewrite Hshift. destruct (IH (S i)) as [Hsorted Hall]. clear IH.
    assert (Hall' : Forall (fun b => (i <= Reorganize.item b < i + length (seg :: segs))%nat
                                     /\ Reorganize.label b = 1)
                      (omap id (imap (fun j => Spec.reorganize_segment (S i + j)) segs))).
    { eapply Forall_impl; [exact Hall|]. cbn [length]. intros b [Hb Hl]. split; [lia|exact Hl]. }
    destruct (Spec.reorganize_segment (i + 0) seg) as [b|] eqn:Hseg; cbn [id].
    + assert (Hb : Reorganize.item b = i /\ Reorganize.label b = 1).
      { unfold Spec.reorganize_segment in Hseg.
        destruct (mapM float_of_str (split (strip seg)))
          as [[|x1 [|y1 [|x2 [|y2 [|? ?]]]]]|e]; try discriminate.
        injection Hseg as <-. cbn. split; [lia|reflexivity]. }
      destruct Hb as [Hi Hl]. split.
      * cbn [map]. constructor; [exact Hsorted|].
        rewrite Forall_fmap. eapply Forall_impl; [exact Hall|].
        intros b' [Hb' _]. cbn. lia.
      * constructor; [|exact Hall']. cbn [length]. split; [lia|exact Hl].
    + split; assumption.
Qed.

(** X2. The records the Reorganizer's parser returns carry strictly
    increasing [item] values, all below the number of segments of the
    string, and the label 1. *)
Theorem items_strictly_increasing (s : string) :
  exists boxes,
    Reorganize.parse_boxes_string (Some s) = Ok boxes
    /\ StronglySorted lt (map Reorganize.item boxes)
    /\ Forall (fun b => (Reorganize.item b < length (split_on ";" s))%nat
                        /\ Reorganize.label b = 1) boxes.
Proof.
  eexists. split; [apply reorganize_parse_boxes_string_spec|].
  destruct (reorganize_segments_items (split_on ";" s) 0) as [Hsorted Hall].
  split; [exact Hsorted|].
  eapply Forall_impl; [exact Hall|]. intros b [[_ Hb] Hl]. split; [lia|exact Hl].
Qed.

(** X3. Every record the generator's parser returns has a [bbox] of four
    integers and an [area] equal to the product of the last two (width
    times height), negative sizes included; there are at most as many
    records as segments. *)
Theorem generate_boxes_area (s : string) :
  exists boxes,
    Generate.parse_boxes_string (Some s) = Ok boxes
    /\ Forall (fun b => exists x y w h,
                  Generate.bbox b = [x; y; w; h] /\ Generate.area b = w * h) boxes
    /\ (length boxes <= length (split_on ";" s))%nat.
Proof.
  eexists. split; [apply generate_parse_boxes_string_spec|].
  unfold Spec.generate_boxes. split.
  - apply Forall_forall. intros b Hb.
    apply list_elem_of_omap in Hb as (seg & _ & Hseg).
    unfold Spec.generate_segment in Hseg.
    destruct (mapM int_of_str (split (strip seg)))
      as [[|x1 [|y1 [|x2 [|y2 [|? ?]]]]]|e]; try discriminate.
    injection Hseg as <-. now exists x1, y1, (x2 - x1), (y2 - y1).
  - induction (split_on ";" s) as [|seg segs IH]; [reflexivity|].
    cbn [omap list_omap length]. destruct (Spec.generate_segment seg); cbn [length]; lia.
Qed.

(** ** The per-image CSV parser of the converter *)

Lemma get_head (row : dict (option string)) (keys : list string) :
  Coco.get row keys = Ok (head (omap (Spec.cell_value row) keys)).
Proof.
  induction keys as [|key keys IH]; [reflexivity|].
  cbn [Coco.get omap list_omap]. unfold Spec.cell_value at 1.
  destruct (dict_get key row) as [[v|]|]; try exact IH.
  destruct (String.eqb v ""); [exact IH|].
  destruct (float_of_str v) as [f|e] eqn:Hf; cbn.
  - reflexivity.
  - apply float_of_str_raises in Hf. subst e. exact IH.
Qed.

(** X4. The field lookup [get] of [_parse_csv_boxes] never raises. It
    returns the number of the first of the given keys whose cell is
    present, non-empty and accepted by [float()], skipping the keys
    before it, and [None] when there is no such key. *)
Theorem get_first_usable_key (row : dict (option string)) (keys : list string) :
  exists o,
    Coco.get row keys = Ok o
    /\ match o with
       | Some f =>
           exists before key after,
             keys = before ++ key :: after
             /\ Spec.cell_value row key = Some f
             /\ Forall (fun k => Spec.cell_value row k = None) before
       | None => Forall (fun k => Spec.cell_value row k = None) keys
       end.
Proof.
  eexists. split; [apply get_head|].
  induction keys as [|key keys IH]; cbn [omap list_omap head].
  - constructor.
  - destruct (Spec.cell_value row key) as [f|] eqn:Hkey; cbn [head].
    + exists [], key, keys. repeat split; [exact Hkey | constructor].
    + destruct (head (omap (Spec.cell_value row) keys)) as [f|].
      * destruct IH as (before & key' & after & -> & Hk & Hb).
        exists (key :: before), key', after. repeat split; [exact Hk|].
        constructor; assumption.
      * constructor; assumption.
Qed.




Lemma dict_get_set_ne {V : Type} (k k' : string) (v : V) (d : dict V) :
  k <> k' -> dict_get k (dict_set k' v d) = dict_get k d.
Proof.
  intros Hne. induction d as [|[k0 v0] d IH]; cbn [dict_set dict_get].
  - destruct (String.eqb_spec k k'); [contradiction | reflexivity].
  - destruct (String.eqb_spec k' k0) as [->|Hk0]; cbn [dict_get].
    + destruct (String.eqb_spec k k0); [contradiction | reflexivity].
    + destruct (String.eqb_spec k k0); [reflexivity | exact IH].
Qed.

Lemma dict_get_set_eq {V : Type} (k : string) (v : V) (d : dict V) :
  dict_get k (dict_set k v d) = Some v.
Proof.
  induction d as [|[k0 v0] d IH]; cbn [dict_set dict_get].
  - now rewrite String.eqb_refl.
  - destruct (String.eqb_spec k k0) as [->|Hk0]; cbn [dict_get].
    + now rewrite String.eqb_refl.
    + destruct (String.eqb_spec k k0); [contradiction | exact IH].
Qed.

Lemma lower_row_fields (fieldnames cells : list string) (acc : dict (option string)) :
  (length cells <= length fieldnames)%nat ->
  exists row,
    Coco.lower_row (zip_fields fieldnames cells) acc = Ok row
    /\ forall k, k ∉ map lower fieldnames -> dict_get k row = dict_get k acc.
Proof.
  revert cells acc. induction fieldnames as [|f fieldnames IH]; intros cells acc Hlen.
  - destruct cells; [|cbn in Hlen; lia]. exists acc. now split.
  - assert (forall cells' v, (length cells' <= length fieldnames)%nat ->
              exists row,
                Coco.lower_row (zip_fields fieldnames cells') (dict_set (lower f) v acc)
                = Ok row
                /\ forall k, k ∉ map lower (f :: fieldnames) ->
                             dict_get k row = dict_get k acc) as Hstep.
    { intros cells' v Hlen'.
      destruct (IH cells' (dict_set (lower f) v acc) Hlen') as (row & Hrow & Hget).
      exists row. split; [exact Hrow|]. intros k Hk. cbn [map] in Hk.
      rewrite Hget by (intros Hin; apply Hk; now right).
      apply dict_get_set_ne. intros ->. apply Hk. now left. }
    destruct cells as [|c cells]; cbn [zip_fields Coco.lower_row].
    + apply Hstep. cbn. lia.
    + apply Hstep. cbn in Hlen. lia.
Qed.

Lemma cell_value_missing (row : dict (option string)) (key : string) :
  dict_get key row = None -> Spec.cell_value row key = None.
Proof. intros H. unfold Spec.cell_value. now rewrite H. Qed.

(** X6. A file none of whose rows has more cells than the header, and
    whose header has no [label], [class] or [category_id] column (in any
    case), is read without an exception by [_parse_csv_boxes], and every
    box it returns has category 1. *)
Theorem parse_csv_boxes_without_labels
    (fieldnames : list string) (rows : list (list string)) :
  Forall (fun cells => (length cells <= length fieldnames)%nat) rows ->
  (forall k, k ∈ ["label"; "class"; "category_id"] -> k ∉ map lower fieldnames) ->
  exists boxes,
    Coco._parse_csv_boxes (Some (fieldnames :: rows)) = Ok boxes
    /\ Forall (fun b => Coco.category_id b = 1) boxes.
Proof.
  intros Hrows Hkeys. cbn [Coco._parse_csv_boxes]. unfold dict_rows.
  assert (Forall (fun cells => (length cells <= length fieldnames)%nat)
            (List.filter (fun r => match r with [] => false | _ => true end) rows))
    as Hrows'.
  { rewrite List.Forall_forall in *. intros cells Hin.
    apply Hrows. now apply List.filter_In in Hin. }
  clear Hrows.
  assert (Forall (fun b => Coco.category_id b = 1) (@nil Coco.box)) as Hacc
    by constructor.
  revert Hacc. generalize (@nil Coco.box) as acc.
  induction Hrows' as [|cells rest Hlen _ IH]; intros acc Hacc.
  - exists acc. now split.
  - cbn [map Coco.parse_rows].
    assert (exists acc', Coco.parse_row (zip_fields fieldnames cells) acc = Ok acc'
                         /\ Forall (fun b => Coco.category_id b = 1) acc')
      as (acc' & Hrow & Hacc').
    { unfold Coco.parse_row.
      destruct (lower_row_fields fieldnames cells [] Hlen) as (row & -> & Hget).
      rewrite bind_Ok, !get_head, !bind_Ok.
      assert (forall k, k ∈ ["label"; "class"; "category_id"] ->
                        Spec.cell_value row k = None) as Hnone.
      { intros k Hk. apply cell_value_missing. now rewrite Hget by auto. }
      generalize (head (omap (Spec.cell_value row) ["x"; "xc"; "x_center"])),
        (head (omap (Spec.cell_value row) ["y"; "yc"; "y_center"])),
        (head (omap (Spec.cell_value row) ["r"; "radius"])),
        (head (omap (Spec.cell_value row) ["w"; "width"; "dx"])),
        (head (omap (Spec.cell_value row) ["h"; "height"; "dy"])).
      intros x y r w h. cbn [omap list_omap].
      rewrite (Hnone "label"), (Hnone "class"), (Hnone "category_id")
        by repeat constructor.
      cbn [head].
      destruct x as [x|]; [|exists acc; now split].
      destruct y as [y|]; [|exists acc; now split].
      rewrite bind_Ok.
      destruct r as [r|].
      { eexists. split; [reflexivity|].
        apply Forall_app. split; [exact Hacc | now repeat constructor]. }
      destruct w as [w|]; [|exists acc; now split].
      destruct h as [h|]; [|exists acc; now split].
      eexists. split; [reflexivity|].
      apply Forall_app. split; [exact Hacc | now repeat constructor]. }
    rewrite Hrow, bind_Ok. apply IH, Hacc'.
Qed.

Lemma parse_csv_boxes_without_labels_witness :
  exists boxes,
    Coco._parse_csv_boxes
      (Some [ ["X"; "Y"; "Width"; "Height"]; ["1"; "2"; "3"; "4"]; ["5"; "6"; "7"] ])
    = Ok boxes
    /\ Forall (fun b => Coco.category_id b = 1) boxes.
Proof.
  apply (parse_csv_boxes_without_labels ["X"; "Y"; "Width"; "Height"]).
  - repeat constructor.
  - intros k Hk. vm_compute. set_solver.
Defined.

Lemma parse_row_shape (raw_row : list entry) (boxes boxes' : list Coco.box) :
  Coco.parse_row raw_row boxes = Ok boxes' ->
  boxes' = boxes
  \/ exists b x y w h,
       boxes' = boxes ++ [b]
       /\ Coco.bbox b = [x; y; w; h] /\ Coco.area b = fmul w h.
Proof.
  unfold Coco.parse_row.
  destruct (Coco.lower_row raw_row []) as [row|e]; [|discriminate].
  rewrite bind_Ok, !get_head, !bind_Ok.
  generalize (head (omap (Spec.cell_value row) ["x"; "xc"; "x_center"])),
    (head (omap (Spec.cell_value row) ["y"; "yc"; "y_center"])),
    (head (omap (Spec.cell_value row) ["r"; "radius"])),
    (head (omap (Spec.cell_value row) ["w"; "width"; "dx"])),
    (head (omap (Spec.cell_value row) ["h"; "height"; "dy"])),
    (head (omap (Spec.cell_value row) ["label"; "class"; "category_id"])).
  intros x y r w h label.
  destruct x as [x|]; [|intros [= <-]; now left].
  destruct y as [y|]; [|intros [= <-]; now left].
  match goal with
  | |- (?c ≫= _) = _ -> _ => destruct c as [category|e]; [|discriminate]
  end.
  rewrite bind_Ok.
  destruct r as [r|].
  { intros [= <-]. right. now eexists _, _, _, _, _. }
  destruct w as [w|]; [|intros [= <-]; now left].
  destruct h as [h|]; [|intros [= <-]; now left].
  intros [= <-]. right. now eexists _, _, _, _, _.
Qed.

(** X7. Every box [_parse_csv_boxes] returns has a bounding box of four
    numbers [x, y, w, h] and the area [w * h] (the float product), also
    for the rows given as a circle. *)
Theorem parse_csv_boxes_area (csv : option csv_file) (boxes : list Coco.box) :
  Coco._parse_csv_boxes csv = Ok boxes ->
  Forall (fun b => exists x y w h,
                     Coco.bbox b = [x; y; w; h] /\ Coco.area b = fmul w h) boxes.
Proof.
  destruct csv as [[|fieldnames rows]|]; cbn [Coco._parse_csv_boxes];
    try (intros [= <-]; constructor).
  assert (Forall (fun b => exists x y w h,
                     Coco.bbox b = [x; y; w; h] /\ Coco.area b = fmul w h)
            (@nil Coco.box)) as Hacc by constructor.
  revert Hacc. generalize (@nil Coco.box) as acc. revert boxes.
  induction (dict_rows fieldnames rows) as [|raw rest IH]; intros boxes acc Hacc.
  - now intros [= <-].
  - cbn [Coco.parse_rows].
    destruct (Coco.parse_row raw acc) as [acc'|e] eqn:Hrow; [|discriminate].
    rewrite bind_Ok. apply IH.
    destruct (parse_row_shape _ _ _ Hrow) as [->|(b & x & y & w & h & -> & Hb & Ha)];
      [exact Hacc|].
    apply Forall_app. split; [exact Hacc|]. repeat constructor. now exists x, y, w, h.
Qed.

Lemma parse_csv_boxes_area_witness :
  Forall (fun b => exists x y w h,
                     Coco.bbox b = [x; y; w; h] /\ Coco.area b = fmul w h)
    [ {| Coco.bbox := [float_of_Z 3; float_of_Z 4; float_of_Z 4; float_of_Z 4];
         Coco.area := float_of_Z 16; Coco.category_id := 1 |} ].
Proof.
  apply (parse_csv_boxes_area (Some [ ["xc"; "yc"; "radius"]; ["5"; "6"; "2"] ])).
  vm_compute. reflexivity.
Defined.

(** ** The converter's output files *)

Lemma str_app_inv_head (p a b : string) : p +:+ a = p +:+ b -> a = b.
Proof.
  intros H. apply (f_equal chars) in H. rewrite !chars_app in H.
  apply app_inv_head in H. rewrite <- (str_chars a), <- (str_chars b). now f_equal.
Qed.

Lemma str_app_inv_tail (a b q : string) : a +:+ q = b +:+ q -> a = b.
Proof.
  intros H. apply (f_equal chars) in H. rewrite !chars_app in H.
  apply app_inv_tail in H. rewrite <- (str_chars a), <- (str_chars b). now f_equal.
Qed.

(** X8. When [convert] returns, the output directory holds, for every
    requested split, the document of that split under the name
    [<category>_instances_<split>.json]: the images, annotations and
    categories [_collect_annotations_for_split] gives for it, under the
    description naming the category and the split. Every other file of
    the directory is as it was. *)
Theorem convert_writes_one_file_per_split (decode : string -> option (Z * Z))
    (category : string) (images_dir : gmap string string)
    (annotations_dir : gmap string csv_file) (sets_dir : gmap string string)
    (splits : list string) (out_dir out_dir' : gmap string Coco.coco_dict) :
  Coco.convert decode category images_dir annotations_dir sets_dir splits out_dir
  = Ok out_dir' ->
  (forall split, split ∈ splits ->
     exists images anns categories,
       Coco._collect_annotations_for_split decode category images_dir annotations_dir
         sets_dir split "wheat_head" = Ok (images, anns, categories)
       /\ out_dir' !! (category +:+ "_instances_" +:+ split +:+ ".json")
          = Some (Coco._build_coco_dict images anns categories
                    ("wheat_head_counting " +:+ category +:+ " " +:+ split +:+ " split")))
  /\ (forall key,
        (forall split, split ∈ splits ->
           key <> category +:+ "_instances_" +:+ split +:+ ".json") ->
        out_dir' !! key = out_dir !! key).
Proof.
  revert out_dir. induction splits as [|split rest IH]; intros out_dir Hrun.
  - cbn in Hrun. injection Hrun as <-. split; [|reflexivity].
    intros split Hin. now apply elem_of_nil in Hin.
  - cbn [Coco.convert] in Hrun.
    destruct (Coco._collect_annotations_for_split decode category images_dir
                annotations_dir sets_dir split "wheat_head")
      as [[[images anns] categories]|e] eqn:Hsplit; [|discriminate].
    rewrite bind_Ok in Hrun. apply IH in Hrun as [Hfiles Hothers]. split.
    + intros split' Hin.
      destruct (decide (split' ∈ rest)) as [Hrest|Hrest]; [now apply Hfiles|].
      apply elem_of_cons in Hin as [->|Hin]; [|contradiction].
      exists images, anns, categories. split; [exact Hsplit|].
      rewrite Hothers.
      * apply lookup_insert_eq.
      * intros split' Hin Heq.
        apply str_app_inv_head, str_app_inv_head, str_app_inv_tail in Heq. now subst.
    + intros key Hkey. rewrite Hothers.
      * apply lookup_insert_ne. intros Heq. apply (Hkey split); [now left | now symmetry].
      * intros split' Hin. apply Hkey. now right.
Qed.

Lemma convert_writes_one_file_per_split_witness :
  (forall split, split ∈ ["val"] ->
     exists images anns categories,
       Coco._collect_annotations_for_split (fun _ => None) "wheat_heads" ∅ ∅ ∅
         split "wheat_head" = Ok (images, anns, categories)
       /\ (<["wheat_heads_instances_val.json" :=
               Coco._build_coco_dict [] []
                 [ {| Coco.cat_id := 1; Coco.name := "wheat_head";
                      Coco.supercategory := "cereal" |} ]
                 "wheat_head_counting wheat_heads val split"]> ∅
           : gmap string Coco.coco_dict)
          !! ("wheat_heads" +:+ "_instances_" +:+ split +:+ ".json")
          = Some (Coco._build_coco_dict images anns categories
                    ("wheat_head_counting " +:+ "wheat_heads" +:+ " " +:+ split +:+ " split")))
  /\ (forall key,
        (forall split, split ∈ ["val"] ->
           key <> "wheat_heads" +:+ "_instances_" +:+ split +:+ ".json") ->
        (<["wheat_heads_instances_val.json" :=
               Coco._build_coco_dict [] []
                 [ {| Coco.cat_id := 1; Coco.name := "wheat_head";
                      Coco.supercategory := "cereal" |} ]
                 "wheat_head_counting wheat_heads val split"]> ∅
           : gmap string Coco.coco_dict) !! key
        = (∅ : gmap string Coco.coco_dict) !! key).
Proof.
  apply (convert_writes_one_file_per_split (fun _ => None) "wheat_heads" ∅ ∅ ∅ ["val"] ∅).
  vm_compute. reflexivity.
Defined.

(** ** Split files, from the Reorganizer to the converter *)

Lemma chars_concat (l : list string) :
  chars (String.concat "" l) = concat (map chars l).
Proof.
  induction l as [|s l IH]; [reflexivity|].
  destruct l as [|s' l].
  - cbn [String.concat map concat]. now rewrite app_nil_r.
  - change (String.concat "" (s :: s' :: l))
      with (s +:+ "" +:+ String.concat "" (s' :: l)).
    rewrite !chars_app, IH. reflexivity.
Qed.

Lemma linebreak_isspace (c : ascii) : islinebreak c = true -> isspace c = true.
Proof.
  unfold islinebreak, isspace. cbv zeta.
  rewrite !orb_true_iff, !andb_true_iff, !N.leb_le, !N.eqb_eq. lia.
Qed.

Lemma splitlines_go_line (cur line rest : list ascii) :
  forallb (fun c => negb (isspace c)) line = true ->
  splitlines_go cur (line ++ "010"%char :: rest)
  = str (rev cur ++ line) :: splitlines_go [] rest.
Proof.
  revert cur. induction line as [|c line IH]; intros cur Hline.
  - cbn [app splitlines_go]. rewrite app_nil_r.
    change (islinebreak "010") with true. cbv iota.
    destruct rest; reflexivity.
  - cbn [forallb] in Hline. apply andb_prop in Hline as [Hc Hline].
    cbn [app splitlines_go].
    destruct (islinebreak c) eqn:Hbreak.
    { apply linebreak_isspace in Hbreak. now rewrite Hbreak in Hc. }
    rewrite IH by exact Hline. cbn [rev]. now rewrite <- app_assoc.
Qed.

Lemma splitlines_lines (lines : list string) :
  Forall (fun s => forallb (fun c => negb (isspace c)) (chars s) = true) lines ->
  splitlines (String.concat "" (map (fun s => s +:+ nl) lines)) = lines.
Proof.
  unfold splitlines. rewrite chars_concat, map_map.
  induction 1 as [|s lines Hs _ IH]; [reflexivity|].
  cbn [map concat]. rewrite chars_app. unfold nl at 1.
  cbn [chars list_ascii_of_string]. rewrite <- app_assoc. cbn [app].
  rewrite splitlines_go_line by exact Hs.
  cbn [rev app]. now rewrite IH, str_chars.
Qed.

Lemma lstrip_chars_id (l : list ascii) :
  forallb (fun c => negb (isspace c)) l = true -> lstrip_chars l = l.
Proof.
  destruct l as [|c l]; [reflexivity|]. cbn [forallb lstrip_chars].
  intros H. apply andb_prop in H as [Hc _].
  now destruct (isspace c).
Qed.

Lemma strip_id (s : string) :
  forallb (fun c => negb (isspace c)) (chars s) = true -> strip s = s.
Proof.
  intros H. unfold strip, strip_chars.
  rewrite (lstrip_chars_id _ H), lstrip_chars_id, rev_involutive; [apply str_chars|].
  apply forallb_forall. intros c Hc. apply in_rev in Hc.
  now apply (proj1 (forallb_forall _ _) H).
Qed.

(** X9. The converter reads back from a split file the Reorganizer wrote
    the stems of the images of the set, in the order written (that of the
    sorted names), when no stem is empty or has a whitespace character. *)
Theorem split_file_read_back (images : gset string) :
  (forall n, n ∈ images ->
     stem n <> "" /\ forallb (fun c => negb (isspace c)) (chars (stem n)) = true) ->
  Coco._read_split_list (Some (Reorganize.set_file images)) = map stem (sorted images).
Proof.
  intros Hstems. unfold Coco._read_split_list, Reorganize.set_file.
  assert (Forall (fun n => stem n <> ""
                           /\ forallb (fun c => negb (isspace c)) (chars (stem n)) = true)
            (sorted images)) as Hall.
  { apply List.Forall_forall. intros n Hn. apply Hstems, elem_of_sorted.
    now apply list_elem_of_In. }
  clear Hstems.
  rewrite <- (map_map stem (fun s => s +:+ nl)).
  rewrite splitlines_lines.
  - induction Hall as [|n names [Hne Hspace] _ IH]; [reflexivity|].
    cbn [map List.filter]. rewrite (strip_id _ Hspace).
    destruct (stem n) eqn:Hn; [contradiction|]. cbn [truthy]. now rewrite IH.
  - apply Forall_map. eapply Forall_impl; [exact Hall|]. now intros n [_ H].
Qed.

Lemma split_file_read_back_witness :
  Coco._read_split_list (Some (Reorganize.set_file {[ "b.png"; "a_1.png" ]}))
  = map stem (sorted {[ "b.png"; "a_1.png" ]}).
Proof.
  apply (split_file_read_back {[ "b.png"; "a_1.png" ]}).
  intros n Hn. apply elem_of_union in Hn as [Hn|Hn];
    apply elem_of_singleton in Hn; subst n; vm_compute; split; congruence.
Defined.

(** ** What a run of the Reorganizer leaves alone *)




(** ** The merged tables *)

Lemma dict_get_None {V : Type} (k : string) (d : dict V) :
  dict_get k d = None <-> k ∉ dict_keys d.
Proof.
  induction d as [|[k' v'] d IH]; cbn [dict_get dict_keys map fst].
  - split; [intros _ H; now apply elem_of_nil in H | reflexivity].
  - destruct (String.eqb_spec k k') as [->|Hne].
    + split; [discriminate | intros H; exfalso; apply H; now left].
    + rewrite IH. unfold dict_keys. rewrite not_elem_of_cons. tauto.
Qed.

Lemma dict_keys_set_list {V : Type} (k : string) (v : V) (d : dict V) :
  dict_keys (dict_set k v d)
  = if decide (k ∈ dict_keys d) then dict_keys d else dict_keys d ++ [k].
Proof.
  induction d as [|[k' v'] d IH]; cbn [dict_set dict_keys map fst].
  - destruct (decide (k ∈ [])) as [H|_]; [now apply elem_of_nil in H | reflexivity].
  - destruct (String.eqb_spec k k') as [->|Hne]; cbn [map fst].
    + destruct (decide (k' ∈ k' :: map fst d)) as [_|H]; [reflexivity|].
      exfalso. apply H. now left.
    + fold (dict_keys (dict_set k v d)). rewrite IH. unfold dict_keys.
      destruct (decide (k ∈ map fst d)) as [Hin|Hin];
        destruct (decide (k ∈ k' :: map fst d)) as [Hin'|Hin']; try reflexivity.
      * exfalso. apply Hin'. now right.
      * apply elem_of_cons in Hin' as [->|Hin']; contradiction.
Qed.

Lemma NoDup_dict_update {V : Type} (d rows : dict V) :
  NoDup (dict_keys d) -> NoDup (dict_keys (dict_update d rows)).
Proof.
  unfold dict_update. revert d. induction rows as [|[k v] rows IH]; intros d Hd;
    [exact Hd|].
  cbn [fold_left fst snd]. apply IH. rewrite dict_keys_set_list.
  destruct (decide (k ∈ dict_keys d)) as [Hin|Hin]; [exact Hd|].
  apply NoDup_app. split; [exact Hd|]. split.
  - intros x Hx Hk. apply list_elem_of_singleton in Hk. now subst.
  - apply NoDup_singleton.
Qed.





Lemma dict_get_app {V : Type} (k : string) (d1 d2 : dict V) :
  dict_get k (d1 ++ d2)
  = match dict_get k d1 with Some v => Some v | None => dict_get k d2 end.
Proof.
  induction d1 as [|[k' v'] d1 IH]; [reflexivity|].
  cbn [app dict_get]. now destruct (String.eqb k k').
Qed.

Lemma dict_get_update {V : Type} (k : string) (d rows : dict V) :
  dict_get k (dict_update d rows)
  = match dict_get k (rev rows) with Some v => Some v | None => dict_get k d end.
Proof.
  unfold dict_update. revert d. induction rows as [|[k' v'] rows IH]; intros d;
    [reflexivity|].
  cbn [fold_left fst snd rev]. rewrite IH, dict_get_app.
  destruct (dict_get k (rev rows)); [reflexivity|].
  cbn [dict_get]. destruct (String.eqb_spec k k') as [->|Hne].
  - apply dict_get_set_eq.
  - now apply dict_get_set_ne.
Qed.


Lemma dict_get_rev {V : Type} (k : string) (d : dict V) :
  NoDup (dict_keys d) -> dict_get k (rev d) = dict_get k d.
Proof.
  induction d as [|[k' v'] d IH]; intros Hdup; [reflexivity|].
  change (dict_keys ((k', v') :: d)) with (k' :: dict_keys d) in Hdup.
  apply NoDup_cons in Hdup as [Hk' Hdup].
  cbn [rev dict_get]. rewrite dict_get_app, IH by exact Hdup. cbn [dict_get].
  destruct (String.eqb_spec k k') as [->|Hne].
  - apply dict_get_None in Hk'. now rewrite Hk'.
  - now destruct (dict_get k d).
Qed.

(** In the merged tables a name has the box string of its last row, the
    rows taken in the order train, val, test. *)
Lemma all_data_get (train val test : list (string * option string)) (n : string) :
  dict_get n (Spec.all_data train val test) = dict_get n (rev (train ++ val ++ test)).
Proof.
  assert (forall rows : list (string * option string),
             dict_get n (rev (Reorganize.read_csv_data rows)) = dict_get n (rev rows))
    as Hread.
  { intros rows. rewrite dict_get_rev by (apply NoDup_dict_update; constructor).
    unfold Reorganize.read_csv_data. rewrite dict_get_update.
    now destruct (dict_get n (rev rows)). }
  unfold Spec.all_data. rewrite !dict_get_update, !Hread, !rev_app_distr, !dict_get_app.
  cbn [dict_get].
  destruct (dict_get n (rev test)); [reflexivity|].
  destruct (dict_get n (rev val)); [reflexivity|].
  now destruct (dict_get n (rev train)).
Qed.

Lemma lookup_write_files_Some {V : Type} (files : list (string * V))
    (dir : gmap string V) (k : string) (v : V) :
  fold_left Spec.write_file files dir !! k = Some v ->
  (k, v) ∈ files \/ dir !! k = Some v.
Proof.
  revert dir. induction files as [|[k' v'] files IH]; intros dir Hlook; [now right|].
  cbn [fold_left] in Hlook. apply IH in Hlook as [Hin|Hlook]; [left; now right|].
  unfold Spec.write_file in Hlook. cbn [fst snd] in Hlook.
  apply lookup_insert_Some in Hlook as [[<- <-]|[_ Hlook]]; [left; now left | now right].
Qed.

Lemma lookup_write_files_in {V : Type} (files : list (string * V))
    (dir : gmap string V) (k : string) (v : V) :
  (k, v) ∈ files -> is_Some (fold_left Spec.write_file files dir !! k).
Proof.
  revert dir. induction files as [|[k' v'] files IH]; intros dir Hin;
    [now apply elem_of_nil in Hin|].
  cbn [fold_left]. rewrite lookup_write_files.
  destruct (fold_left Spec.write_file files ∅ !! k) as [w|] eqn:Hlook; [eauto|].
  apply elem_of_cons in Hin as [[= <- <-]|Hin].
  - unfold Spec.write_file. cbn [fst snd]. rewrite lookup_insert_eq. eauto.
  - destruct (IH ∅ Hin) as [w Hw]. congruence.
Qed.

Lemma lookup_written {V : Type} (files : list (string * V)) (dir : gmap string V)
    (k : string) (v : V) :
  (k, v) ∈ files ->
  (forall w, (k, w) ∈ files -> w = v) ->
  fold_left Spec.write_file files dir !! k = Some v.
Proof.
  intros Hin Hone. rewrite lookup_write_files.
  destruct (lookup_write_files_in files ∅ k v Hin) as [w Hw]. rewrite Hw.
  apply lookup_write_files_Some in Hw as [Hw|Hw]; [|now rewrite lookup_empty in Hw].
  f_equal. now apply Hone.
Qed.



(** ** Reading the wide tables *)

Lemma raw_dict_get_other (fieldnames cells : list string) (acc : dict (option string))
    (k : string) :
  k ∉ fieldnames ->
  dict_get k (Reorganize.raw_dict (zip_fields fieldnames cells) acc) = dict_get k acc.
Proof.
  revert cells acc. induction fieldnames as [|f fieldnames IH]; intros cells acc Hk.
  - now destruct cells.
  - apply not_elem_of_cons in Hk as [Hne Hk].
    destruct cells as [|c cells]; cbn [zip_fields Reorganize.raw_dict];
      rewrite IH by exact Hk; now apply dict_get_set_ne.
Qed.

Lemma raw_dict_get (fieldnames cells : list string) (acc : dict (option string))
    (k : string) (i : nat) :
  NoDup fieldnames -> fieldnames !! i = Some k ->
  dict_get k (Reorganize.raw_dict (zip_fields fieldnames cells) acc) = Some (cells !! i).
Proof.
  revert cells acc i. induction fieldnames as [|f fieldnames IH];
    intros cells acc i Hdup Hi; [discriminate|].
  apply NoDup_cons in Hdup as [Hf Hdup].
  destruct i as [|i].
  - injection Hi as ->.
    destruct cells as [|c cells]; cbn [zip_fields Reorganize.raw_dict];
      rewrite raw_dict_get_other by exact Hf; apply dict_get_set_eq.
  - cbn [lookup list_lookup] in Hi.
    destruct cells as [|c cells]; cbn [zip_fields Reorganize.raw_dict].
    + now rewrite (IH [] _ i Hdup Hi).
    + now rewrite (IH cells _ i Hdup Hi).
Qed.

(** X13. What [read_csv_data] takes from a wide table whose header has
    each column name once: for every row that is not empty, the cells in
    the positions of the [image_name] and [BoxesString] columns, a cell
    being [None] when the row ends before its column. *)
Theorem read_csv_rows_cells (fieldnames : list string) (rows : list (list string))
    (i j : nat) :
  NoDup fieldnames ->
  fieldnames !! i = Some "image_name" ->
  fieldnames !! j = Some "BoxesString" ->
  Reorganize.read_csv_rows (Some (fieldnames :: rows))
  = map (fun cells => (cells !! i, cells !! j))
        (List.filter (fun r => match r with [] => false | _ => true end) rows).
Proof.
  intros Hdup Hi Hj. cbn [Reorganize.read_csv_rows]. unfold dict_rows.
  induction (List.filter _ rows) as [|cells rest IH]; [reflexivity|].
  cbn [map omap list_omap].
  rewrite (raw_dict_get fieldnames cells [] _ i Hdup Hi).
  rewrite (raw_dict_get fieldnames cells [] _ j Hdup Hj).
  now rewrite <- IH.
Qed.

Lemma read_csv_rows_cells_witness :
  Reorganize.read_csv_rows
    (Some [ ["image_name"; "BoxesString"; "domain"];
            ["a.png"; "1 2 3 4"; "d1"]; []; ["b.png"] ])
  = map (fun cells => (cells !! 0%nat, cells !! 1%nat))
        (List.filter (fun r => match r with [] => false | _ => true end)
                     [ ["a.png"; "1 2 3 4"; "d1"]; []; ["b.png"] ]).
Proof.
  apply (read_csv_rows_cells ["image_name"; "BoxesString"; "domain"]).
  - apply (bool_decide_unpack _). vm_compute. reflexivity.
  - reflexivity.
  - reflexivity.
Defined.

(** X14. A wide table whose header lacks a column named exactly
    [image_name] or one named exactly [BoxesString] (the names are
    compared with their case) gives [read_csv_data] no row at all,
    whatever its rows hold. *)
Theorem read_csv_rows_without_columns (fieldnames : list string)
    (rows : list (list string)) :
  "image_name" ∉ fieldnames \/ "BoxesString" ∉ fieldnames ->
  Reorganize.read_csv_rows (Some (fieldnames :: rows)) = [].
Proof.
  intros Hmissing. cbn [Reorganize.read_csv_rows]. unfold dict_rows.
  induction (List.filter _ rows) as [|cells rest IH]; [reflexivity|].
  cbn [map omap list_omap]. rewrite IH.
  destruct Hmissing as [H|H]; rewrite (raw_dict_get_other _ _ _ _ H); cbn [dict_get].
  - reflexivity.
  - now destruct (dict_get "image_name" _).
Qed.

Lemma read_csv_rows_without_columns_witness :
  Reorganize.read_csv_rows
    (Some [ ["Image_name"; "BoxesString"]; ["a.png"; "1 2 3 4"] ]) = [].
Proof.
  apply (read_csv_rows_without_columns ["Image_name"; "BoxesString"]).
  left. intros H. apply elem_of_cons in H as [H|H]; [discriminate|].
  apply elem_of_cons in H as [H|H]; [discriminate|]. now apply elem_of_nil in H.
Defined.

(** ** The ids of the generator *)

Lemma pretty_N_char_digit (m : N) :
  (m < 10)%N ->
  isdigit (pretty_N_char m) = true /\ digit_value (pretty_N_char m) = Z.of_N m.
Proof.
  intros Hm.
  assert (m = 0 \/ m = 1 \/ m = 2 \/ m = 3 \/ m = 4 \/ m = 5 \/ m = 6 \/ m = 7
          \/ m = 8 \/ m = 9)%N as H by lia.
  repeat (destruct H as [->|H]; [now split|]). subst m. now split.
Qed.

Lemma digits_value_snoc (d : list ascii) (c : ascii) :
  digits_value (d ++ [c]) = 10 * digits_value d + digit_value c.
Proof. unfold digits_value. now rewrite fold_left_app. Qed.

(** The digits [pretty] puts before its accumulator. *)
Lemma pretty_N_go_digits (x : N) (s : string) :
  exists d,
    chars (pretty_N_go x s) = d ++ chars s
    /\ forallb isdigit d = true
    /\ digits_value d = Z.of_N x
    /\ (x = 0%N -> d = [])
    /\ ((0 < x)%N -> d <> [] /\ 10 ^ (Z.of_nat (length d) - 1) <= Z.of_N x).
Proof.
  revert s. induction (N.lt_wf_0 x) as [x _ IH]. intros s.
  destruct (N.eq_dec x 0%N) as [->|Hx].
  - exists []. rewrite pretty_N_go_0. repeat split; try reflexivity; lia.
  - assert (0 < x)%N as Hpos by lia.
    rewrite pretty_N_go_step by exact Hpos.
    destruct (IH (x / 10)%N (N.div_lt x 10 Hpos eq_refl)
                (String (pretty_N_char (x mod 10)) s))
      as (d & Hd & Hdigits & Hvalue & Hzero & Hlen).
    destruct (pretty_N_char_digit (x mod 10)%N) as [Hc Hcv];
      [now apply N.mod_lt|].
    exists (d ++ [pretty_N_char (x mod 10)]).
    split; [|split; [|split; [|split]]].
    + rewrite Hd. cbn [chars list_ascii_of_string]. now rewrite <- app_assoc.
    + rewrite forallb_app, Hdigits. cbn [forallb]. now rewrite Hc.
    + rewrite digits_value_snoc, Hvalue, Hcv.
      rewrite (N.div_mod x 10) at 3 by discriminate. lia.
    + intros ->. lia.
    + intros _. split; [now destruct d|].
      rewrite length_app. cbn [length].
      replace (Z.of_nat (length d + 1) - 1) with (Z.of_nat (length d)) by lia.
      destruct (N.eq_dec (x / 10)%N 0%N) as [Hsmall|Hbig].
      * rewrite (Hzero Hsmall). cbn. lia.
      * destruct Hlen as [Hne Hlen]; [now apply N.neq_0_lt_0|].
        assert (0 < length d)%nat by (destruct d; [contradiction | cbn; lia]).
        replace (Z.of_nat (length d)) with (1 + (Z.of_nat (length d) - 1)) by lia.
        rewrite Z.pow_add_r by lia.
        assert (Z.of_N x = 10 * Z.of_N (x / 10) + Z.of_N (x mod 10)) as Hdm
          by (rewrite (N.div_mod x 10) at 1 by discriminate; lia).
        change (10 ^ 1) with 10.
        pose proof (N2Z.is_nonneg (x mod 10)) as Hmod.
        revert Hlen Hdm Hmod. generalize (10 ^ (Z.of_nat (length d) - 1)).
        generalize (Z.of_N (x / 10)), (Z.of_N (x mod 10)), (Z.of_N x).
        intros. lia.
Qed.

(** [str] of a positive integer is its decimal digits. *)
Lemma str_of_Z_digits (n : Z) :
  0 < n ->
  let d := chars (str_of_Z n) in
  d <> [] /\ forallb isdigit d = true /\ digits_value d = n
  /\ 10 ^ (Z.of_nat (length d) - 1) <= n.
Proof.
  intros Hn. destruct n as [|p|p]; try lia.
  unfold str_of_Z, pretty, pretty_Z, pretty, pretty_positive, pretty, pretty_N.
  destruct (decide (N.pos p = 0%N)) as [|_]; [discriminate|].
  destruct (pretty_N_go_digits (N.pos p) "") as (d & Hd & Hdigits & Hvalue & _ & Hlen).
  cbn [chars list_ascii_of_string] in Hd. rewrite app_nil_r in Hd.
  cbv zeta. fold (chars (pretty_N_go (N.pos p) "")). rewrite Hd.
  destruct Hlen as [Hne Hlen]; [lia|].
  repeat split; assumption.
Qed.

Lemma digit_not_space (c : ascii) : isdigit c = true -> isspace c = false.
Proof.
  unfold isdigit, isspace. cbv zeta.
  rewrite andb_true_iff, !N.leb_le. intros [H1 H2].
  rewrite !orb_false_iff, !andb_false_iff, !N.leb_gt, !N.eqb_neq. lia.
Qed.

Lemma drop_underscores_all_digits (prev : ascii) (d : list ascii) :
  Ascii.eqb prev "_" = false -> forallb isdigit d = true ->
  drop_underscores prev d = Some d.
Proof.
  revert prev. induction d as [|c d IH]; intros prev Hprev Hd; cbn [drop_underscores].
  - now rewrite Hprev.
  - cbn [forallb] in Hd. apply andb_prop in Hd as [Hc Hd].
    assert (Ascii.eqb c "_" = false) as Hcu.
    { destruct (Ascii.eqb_spec c "_") as [->|]; [discriminate | reflexivity]. }
    rewrite Hcu, Hprev. cbn [andb]. now rewrite (IH c Hcu Hd).
Qed.

(** [int()] of a string of digits is their value. *)
Lemma int_of_str_digits (s : string) :
  chars s <> [] -> forallb isdigit (chars s) = true ->
  (length (chars s) <= int_max_str_digits)%nat ->
  int_of_str s = Ok (digits_value (chars s)).
Proof.
  intros Hne Hdigits Hlen. unfold int_of_str.
  assert (strip_chars (chars s) = chars s) as ->.
  { unfold strip_chars. rewrite (lstrip_chars_id (chars s)), lstrip_chars_id, rev_involutive;
      [reflexivity| |].
    - apply forallb_forall. intros c Hc. apply in_rev in Hc.
      apply (proj1 (forallb_forall _ _) Hdigits) in Hc. now rewrite digit_not_space.
    - apply forallb_forall. intros c Hc.
      apply (proj1 (forallb_forall _ _) Hdigits) in Hc. now rewrite digit_not_space. }
  destruct (chars s) as [|c d] eqn:Hs; [contradiction|].
  assert (isdigit c = true) as Hc by (cbn [forallb] in Hdigits; now apply andb_prop in Hdigits).
  destruct (digit_not_sign c Hc) as [Hminus Hplus].
  unfold take_sign. rewrite Hminus, Hplus.
  assert (forallb (fun c => isdigit c || Ascii.eqb c "_") (c :: d) = true) as ->.
  { apply forallb_forall. intros a Ha.
    apply (proj1 (forallb_forall _ _) Hdigits) in Ha. now rewrite Ha. }
  rewrite drop_underscores_all_digits by (exact Hdigits || reflexivity).
  destruct (int_max_str_digits <? length (c :: d))%nat eqn:Hlong; [|reflexivity].
  apply Nat.ltb_lt in Hlong. lia.
Qed.

(** The three characters of [format(t, "03d")] for [t] below 1000. *)
Lemma format_03d_digits (t : Z) :
  0 <= t < 1000 ->
  exists a b c,
    chars (format_03d t) = [a; b; c]
    /\ forallb isdigit [a; b; c] = true
    /\ digits_value [a; b; c] = t.
Proof.
  intros Ht.
  assert (forallb (fun n => match chars (format_03d (Z.of_nat n)) with
                            | [a; b; c] =>
                                forallb isdigit [a; b; c]
                                && (digits_value [a; b; c] =? Z.of_nat n)
                            | _ => false
                            end) (seq 0 1000) = true) as Hall
    by (vm_compute; reflexivity).
  assert (In (Z.to_nat t) (seq 0 1000)) as Hin by (apply in_seq; lia).
  apply (proj1 (forallb_forall _ _) Hall) in Hin.
  rewrite Z2Nat.id in Hin by lia.
  destruct (chars (format_03d t)) as [|a [|b [|c [|? ?]]]]; try discriminate.
  apply andb_prop in Hin as [Hd Hv]. apply Z.eqb_eq in Hv.
  now exists a, b, c.
Qed.

Lemma generate_unique_id_ok (random_part now : Z) :
  1000000 <= random_part <= 9999999 ->
  Generate.generate_unique_id random_part now = Ok (Spec.unique_id (random_part, now)).
Proof.
  intros Hr. assert (0 <= now mod 1000 < 1000) as Ht by (apply Z.mod_pos_bound; lia).
  unfold Generate.generate_unique_id, Spec.unique_id. cbv zeta. cbn [fst snd].
  destruct (str_of_Z_digits random_part) as (Hne & Hdigits & Hvalue & Hlen); [lia|].
  destruct (format_03d_digits (now mod 1000) Ht) as (a & b & c & Hf & Hfd & Hfv).
  cbv zeta in Hne, Hdigits, Hvalue, Hlen.
  assert (length (chars (str_of_Z random_part)) <= 7)%nat as Hlen7.
  { destruct (le_lt_dec (length (chars (str_of_Z random_part))) 7) as [H|H]; [exact H|].
    exfalso.
    assert (10 ^ 7 <= 10 ^ (Z.of_nat (length (chars (str_of_Z random_part))) - 1))
      by (apply Z.pow_le_mono_r; lia).
    lia. }
  rewrite int_of_str_digits; rewrite ?chars_app, ?Hf.
  - f_equal. unfold digits_value in *. rewrite fold_left_app, Hvalue.
    cbn [fold_left] in Hfv |- *. lia.
  - intros H. apply app_eq_nil in H as [_ H]. discriminate.
  - rewrite forallb_app. now rewrite Hdigits, Hfd.
  - rewrite length_app. cbn [length]. unfold int_max_str_digits. lia.
Qed.

(** X15. [generate_unique_id] never raises. With [r] the 7-digit number
    drawn and [t] the time in seconds, its result is [r * 1000 + t mod
    1000], a number of 10 digits: the digits of [r] followed by the last
    three digits of [t]. *)
Theorem generate_unique_id_value (random_part now : Z) :
  1000000 <= random_part <= 9999999 ->
  Generate.generate_unique_id random_part now
  = Ok (random_part * 1000 + now mod 1000)
  /\ 1000000000 <= random_part * 1000 + now mod 1000 <= 9999999999.
Proof.
  intros Hr. assert (0 <= now mod 1000 < 1000) as Ht by (apply Z.mod_pos_bound; lia).
  split; [now apply generate_unique_id_ok | lia].
Qed.

Lemma generate_unique_id_value_witness :
  Generate.generate_unique_id 1234567 1700000042 = Ok (1234567 * 1000 + 1700000042 mod 1000)
  /\ 1000000000 <= 1234567 * 1000 + 1700000042 mod 1000 <= 9999999999.
Proof. apply (generate_unique_id_value 1234567 1700000042). lia. Defined.

(** ** The JSON files of the generator *)

Lemma length_chars (s : string) : length (chars s) = String.length s.
Proof. induction s as [|c s IH]; [reflexivity|]. cbn. now rewrite <- IH. Qed.

Lemma substring_prefix (a b : string) : String.substring 0 (String.length a) (a +:+ b) = a.
Proof.
  induction a as [|c a IH].
  - now destruct b.
  - change (String c a +:+ b) with (String c (a +:+ b)).
    cbn [String.length String.substring]. now rewrite IH.
Qed.

Lemma substring_all (s : string) : String.substring 0 (String.length s) s = s.
Proof. induction s as [|c s IH]; cbn; [reflexivity | now rewrite IH]. Qed.

Lemma substring_split (i : nat) (s : string) :
  (i <= String.length s)%nat ->
  s = String.substring 0 i s +:+ String.substring i (String.length s - i) s.
Proof.
  revert s. induction i as [|i IH]; intros s Hi.
  - rewrite Nat.sub_0_r, substring_all. now destruct s.
  - destruct s as [|c s]; [cbn in Hi; lia|]. cbn in Hi |- *.
    change (String c (String.substring 0 i s)
            +:+ String.substring i (String.length s - i) s)
      with (String c (String.substring 0 i s
                      +:+ String.substring i (String.length s - i) s)).
    f_equal. apply IH. lia.
Qed.

Lemma length_substring_0 (i : nat) (s : string) :
  (i <= String.length s)%nat -> String.length (String.substring 0 i s) = i.
Proof.
  revert s. induction i as [|i IH]; intros s Hi.
  - now destruct s.
  - destruct s as [|c s]; [cbn in Hi; lia|]. cbn in Hi |- *. rewrite IH; lia.
Qed.

(** A name that ends in a suffix is some root followed by the suffix. *)
Lemma endswith_app (suffix name : string) :
  endswith suffix name = true -> exists root, name = root +:+ suffix.
Proof.
  unfold endswith, substring_from. cbv zeta. intros H.
  apply andb_prop in H as [Hlen Heq]. apply Nat.leb_le in Hlen.
  apply String.eqb_eq in Heq.
  exists (String.substring 0 (String.length name - String.length suffix) name).
  etransitivity; [apply (substring_split (String.length name - String.length suffix)); lia|].
  now rewrite Heq.
Qed.

Lemma rfind_app (c : ascii) (i : nat) (l1 l2 : list ascii) :
  rfind c i (l1 ++ l2)
  = match rfind c (i + length l1) l2 with
    | Some j => Some j
    | None => rfind c i l1
    end.
Proof.
  revert i. induction l1 as [|a l1 IH]; intros i.
  - cbn [app length rfind]. rewrite Nat.add_0_r. now destruct (rfind c i l2).
  - cbn [app length rfind]. rewrite IH.
    replace (S i + length l1)%nat with (i + S (length l1))%nat by lia.
    now destruct (rfind c (i + S (length l1)) l2).
Qed.

Lemma rfind_absent (c : ascii) (i : nat) (l : list ascii) :
  c ∉ l -> rfind c i l = None.
Proof.
  revert i. induction l as [|a l IH]; intros i Hc; [reflexivity|].
  apply not_elem_of_cons in Hc as [Hne Hc]. cbn [rfind]. rewrite IH by exact Hc.
  destruct (Ascii.eqb_spec a c); [congruence | reflexivity].
Qed.

Lemma rfind_dot_rfind (i : nat) (l : list ascii) : rfind_dot i l = rfind "." i l.
Proof.
  revert i. induction l as [|a l IH]; intros i; [reflexivity|].
  cbn [rfind_dot rfind]. now rewrite IH.
Qed.

Lemma split_on_go_absent (sep : ascii) (cur l : list ascii) :
  sep ∉ l -> split_on_go sep cur l = [str (rev cur ++ l)].
Proof.
  revert cur. induction l as [|a l IH]; intros cur Hsep.
  - cbn [split_on_go]. now rewrite app_nil_r.
  - apply not_elem_of_cons in Hsep as [Hne Hsep]. cbn [split_on_go].
    destruct (Ascii.eqb_spec a sep) as [->|_]; [contradiction|].
    rewrite IH by exact Hsep. cbn [rev]. now rewrite <- app_assoc.
Qed.

(** The JSON file of a PNG image. For a file name without a slash that
    ends in [.png] and does not start with a dot, [os.path.splitext] and
    [Path.stem] agree: both give the name without its [.png]. *)
Lemma png_name_root (name : string) :
  "/"%char ∉ chars name ->
  endswith ".png" name = true ->
  startswith "." name = false ->
  exists root,
    name = root +:+ ".png" /\ splitext_root name = root /\ stem name = root.
Proof.
  intros Hslash Hpng Hdot.
  destruct (endswith_app _ _ Hpng) as [root ->]. exists root.
  split; [reflexivity|].
  destruct root as [|c root]; [discriminate|].
  assert (Ascii.eqb c "." = false) as Hc.
  { unfold startswith in Hdot.
    change (String c root +:+ ".png") with (String c (root +:+ ".png")) in Hdot.
    cbn [String.prefix] in Hdot.
    destruct (ascii_dec "." c) as [Heq|Hne].
    - destruct (root +:+ ".png"); discriminate.
    - destruct (Ascii.eqb_spec c "."); congruence. }
  assert (rfind "." 0 (chars (String c root +:+ ".png"))
          = Some (String.length (String c root))) as Hlast.
  { rewrite chars_app, rfind_app, length_chars. cbn [Nat.add].
    cbn [chars list_ascii_of_string rfind]. reflexivity. }
  split.
  - unfold splitext_root. cbv zeta. rewrite Hlast.
    rewrite (rfind_absent "/" 0 _ Hslash).
    rewrite Nat.sub_0_r, skipn_O.
    assert (existsb (fun a => negb (Ascii.eqb a "."))
              (firstn (String.length (String c root))
                      (chars (String c root +:+ ".png"))) = true) as ->.
    { change (String c root +:+ ".png") with (String c (root +:+ ".png")).
      cbn [String.length chars list_ascii_of_string firstn existsb].
      now rewrite Hc. }
    cbn [Nat.leb andb]. apply substring_prefix.
  - unfold stem, path_name, split_on. cbv zeta.
    rewrite split_on_go_absent by exact Hslash. cbn [rev app].
    rewrite str_chars. cbn [List.filter].
    assert (String.eqb (String c root +:+ ".png") "" = false) as -> by reflexivity.
    assert (String.eqb (String c root +:+ ".png") "." = false) as ->.
    { change (String c root +:+ ".png") with (String c (root +:+ ".png")).
      cbn [String.eqb]. now rewrite Hc. }
    cbn [orb negb List.last].
    rewrite rfind_dot_rfind, Hlast.
    assert ((0 <? String.length (String c root))%nat = true) as -> by reflexivity.
    assert ((String.length (String c root)
             <? String.length (String c root +:+ ".png") - 1)%nat = true) as ->.
    { apply Nat.ltb_lt. rewrite <- !length_chars, chars_app, length_app. cbn. lia. }
    cbn [andb]. apply substring_prefix.
Qed.

(** X16. A PNG image and its JSON file, from the generator to the
    Reorganizer. For an image name that [glob('images/*.png')] gives
    (it ends in [.png], does not start with a dot and has no slash), the
    generator writes [<root>.json], [root] being what [os.path.splitext]
    leaves of the name, and the Reorganizer looks for [<stem>.json],
    [stem] being [Path(name).stem]: the two names are the same, the image
    name without its [.png]. *)
Theorem generator_json_name (listing : list (string * string)) (name content : string) :
  (name, content) ∈ Generate.glob_png listing ->
  "/"%char ∉ chars name ->
  splitext_root name +:+ ".json" = stem name +:+ ".json"
  /\ name = stem name +:+ ".png".
Proof.
  intros Hin Hslash. unfold Generate.glob_png in Hin.
  apply list_elem_of_In, List.filter_In in Hin as [_ Hin]. cbn [fst] in Hin.
  apply andb_prop in Hin as [Hpng Hdot]. apply negb_true_iff in Hdot.
  destruct (png_name_root name Hslash Hpng Hdot) as (root & Hname & -> & ->).
  now split.
Qed.

Lemma generator_json_name_witness :
  splitext_root "img.v2.png" +:+ ".json" = stem "img.v2.png" +:+ ".json"
  /\ "img.v2.png" = stem "img.v2.png" +:+ ".png".
Proof.
  apply (generator_json_name [(".hidden.png", "h"); ("img.v2.png", "i"); ("a.jpg", "j")]
           "img.v2.png" "i").
  - vm_compute. apply list_elem_of_here.
  - vm_compute. intros H. repeat (apply elem_of_cons in H as [H|H]; [discriminate|]).
    now apply elem_of_nil in H.
Defined.

Lemma unique_id_bounds (draws : nat -> Z * Z) (i : nat) :
  (forall i, 1000000 <= fst (draws i) <= 9999999) ->
  Generate.generate_unique_id (fst (draws i)) (snd (draws i)) = Ok (Spec.unique_id (draws i))
  /\ 1000000000 <= Spec.unique_id (draws i) <= 9999999999.
Proof.
  intros Hdraws. specialize (Hdraws i). split.
  - rewrite generate_unique_id_ok by exact Hdraws. now destruct (draws i).
  - unfold Spec.unique_id.
    assert (0 <= snd (draws i) mod 1000 < 1000) by (apply Z.mod_pos_bound; lia). lia.
Qed.

(** The generator's loop never raises: it writes the JSON files of the
    annotated files, in order. *)
Lemma process_files_spec (decode : string -> option (Z * Z)) (draws : nat -> Z * Z)
    (all_data : dict (option string)) (files : list (string * string))
    (st : Generate.state) :
  (forall i, 1000000 <= fst (draws i) <= 9999999) ->
  Generate.process_files decode draws all_data files st
  = Ok {| Generate.json_files :=
            fold_left Spec.write_file
              (Spec.json_writes decode draws (Generate.drawn st)
                 (Spec.annotated all_data files))
              (Generate.json_files st);
          Generate.drawn :=
            Generate.drawn st + 2 * length (Spec.annotated all_data files) |}.
Proof.
  intros Hdraws. revert st.
  induction files as [|[name content] files IH]; intros st.
  - cbn. rewrite Nat.add_0_r. now destruct st.
  - cbn [Generate.process_files]. unfold Generate.process_file, Spec.annotated.
    cbn [omap list_omap fst].
    destruct (dict_get name all_data) as [[s|]|].
    + rewrite generate_parse_boxes_string_spec, bind_Ok.
      rewrite (proj1 (unique_id_bounds draws (Generate.drawn st) Hdraws)), bind_Ok.
      rewrite (proj1 (unique_id_bounds draws (S (Generate.drawn st)) Hdraws)), bind_Ok.
      rewrite bind_Ok, IH. cbn [Generate.json_files Generate.drawn Spec.json_writes fold_left length].
      do 2 f_equal. fold (Spec.annotated all_data files). lia.
    + rewrite bind_Ok. apply IH.
    + rewrite bind_Ok. apply IH.
Qed.

Lemma elem_of_annotated (all_data : dict (option string)) (files : list (string * string))
    (name content s : string) :
  (name, content, s) ∈ Spec.annotated all_data files
  <-> (name, content) ∈ files /\ dict_get name all_data = Some (Some s).
Proof.
  unfold Spec.annotated. rewrite list_elem_of_omap. split.
  - intros ([name' content'] & Hin & Hsome). cbn [fst] in Hsome.
    destruct (dict_get name' all_data) as [[s'|]|] eqn:Hget; try discriminate.
    injection Hsome as -> -> ->. now split.
  - intros [Hin Hget]. exists (name, content). split; [exact Hin|].
    cbn [fst]. now rewrite Hget.
Qed.

Lemma annotated_names (all_data : dict (option string)) (files : list (string * string)) :
  NoDup (map fst files) ->
  NoDup (map (fun file : string * string * string => fst (fst file))
             (Spec.annotated all_data files)).
Proof.
  unfold Spec.annotated.
  induction files as [|[name content] files IH]; intros Hdup; [constructor|].
  change (map fst ((name, content) :: files)) with (name :: map fst files) in Hdup.
  apply NoDup_cons in Hdup as [Hname Hdup].
  cbn [omap list_omap fst].
  destruct (dict_get name all_data) as [[s|]|]; try now apply IH.
  cbn [map fst]. apply NoDup_cons. split; [|now apply IH].
  intros Hin. apply Hname.
  apply list_elem_of_fmap in Hin as ([[name' content'] s'] & Heq & Hin).
  cbn [fst] in Heq. subst name'.
  apply (elem_of_annotated all_data files name content' s') in Hin as [Hin _].
  apply list_elem_of_fmap. now exists (name, content').
Qed.

Lemma glob_png_names (listing : list (string * string)) :
  NoDup (map fst listing) -> NoDup (map fst (Generate.glob_png listing)).
Proof.
  unfold Generate.glob_png.
  induction listing as [|[name content] listing IH]; intros Hdup; [constructor|].
  change (map fst ((name, content) :: listing)) with (name :: map fst listing) in Hdup.
  apply NoDup_cons in Hdup as [Hname Hdup]. cbn [List.filter fst].
  destruct (endswith ".png" name && negb (startswith "." name)); [|now apply IH].
  cbn [map fst]. apply NoDup_cons. split; [|now apply IH].
  intros Hin. apply Hname.
  apply list_elem_of_fmap in Hin as ([name' content'] & Heq & Hin).
  cbn [fst] in Heq. subst name'.
  apply list_elem_of_In, List.filter_In in Hin as [Hin _].
  apply list_elem_of_fmap. exists (name, content'). split; [reflexivity|].
  now apply list_elem_of_In.
Qed.

Lemma json_writes_key (decode : string -> option (Z * Z)) (draws : nat -> Z * Z)
    (first : nat) (files : list (string * string * string))
    (key : string) (doc : Generate.coco) :
  (key, doc) ∈ Spec.json_writes decode draws first files ->
  exists name content s first',
    (name, content, s) ∈ files
    /\ key = splitext_root name +:+ ".json"
    /\ doc = Generate.create_coco_annotation decode content name
               (Spec.generate_boxes s)
               (Spec.unique_id (draws first')) (Spec.unique_id (draws (S first'))).
Proof.
  revert first. induction files as [|[[name content] s] files IH]; intros first Hin.
  - now apply elem_of_nil in Hin.
  - cbn [Spec.json_writes] in Hin. apply elem_of_cons in Hin as [[= -> ->]|Hin].
    + exists name, content, s, first. split; [now left | now split].
    + destruct (IH _ Hin) as (name' & content' & s' & first' & Hin' & Hkey & Hdoc).
      exists name', content', s', first'. split; [now right | now split].
Qed.

Lemma json_writes_in (decode : string -> option (Z * Z)) (draws : nat -> Z * Z)
    (first : nat) (files : list (string * string * string))
    (name content s : string) :
  (name, content, s) ∈ files ->
  exists first',
    (splitext_root name +:+ ".json",
     Generate.create_coco_annotation decode content name (Spec.generate_boxes s)
       (Spec.unique_id (draws first')) (Spec.unique_id (draws (S first'))))
    ∈ Spec.json_writes decode draws first files.
Proof.
  revert first. induction files as [|[[name' content'] s'] files IH]; intros first Hin.
  - now apply elem_of_nil in Hin.
  - cbn [Spec.json_writes]. apply elem_of_cons in Hin as [[= <- <- <-]|Hin].
    + exists first. now left.
    + destruct (IH (S (S first)) Hin) as [first' Hin']. exists first'. now right.
Qed.

Lemma json_writes_functional (decode : string -> option (Z * Z)) (draws : nat -> Z * Z)
    (first : nat) (files : list (string * string * string))
    (key : string) (doc1 doc2 : Generate.coco) :
  NoDup (map (fun file : string * string * string => fst (fst file)) files) ->
  (forall name1 c1 s1 name2 c2 s2,
     (name1, c1, s1) ∈ files -> (name2, c2, s2) ∈ files ->
     splitext_root name1 = splitext_root name2 -> name1 = name2) ->
  (key, doc1) ∈ Spec.json_writes decode draws first files ->
  (key, doc2) ∈ Spec.json_writes decode draws first files ->
  doc1 = doc2.
Proof.
  revert first. induction files as [|[[name content] s] files IH];
    intros first Hdup Hinj H1 H2.
  - now apply elem_of_nil in H1.
  - change (map (fun file : string * string * string => fst (fst file))
                ((name, content, s) :: files))
      with (name :: map (fun file : string * string * string => fst (fst file)) files)
      in Hdup.
    apply NoDup_cons in Hdup as [Hname Hdup].
    assert (forall doc, (key, doc) ∈ Spec.json_writes decode draws (S (S first)) files ->
                        key <> splitext_root name +:+ ".json") as Hother.
    { intros doc Hin Hkey.
      destruct (json_writes_key _ _ _ _ _ _ Hin) as (name' & c' & s' & _ & Hin' & Hkey' & _).
      rewrite Hkey in Hkey'. apply str_app_inv_tail in Hkey'.
      assert (name = name') as <-.
      { apply (Hinj name content s name' c' s'); [now left | now right | exact Hkey']. }
      apply Hname. apply list_elem_of_fmap. now exists (name, c', s'). }
    cbn [Spec.json_writes] in H1, H2.
    apply elem_of_cons in H1 as [[= Hk1 ->]|H1], H2 as [[= Hk2 ->]|H2].
    + reflexivity.
    + now destruct (Hother _ H2).
    + now destruct (Hother _ H1).
    + apply (IH (S (S first))); try assumption.
      intros n1 c1 s1 n2 c2 s2 Hn1 Hn2. apply (Hinj n1 c1 s1 n2 c2 s2); now right.
Qed.

(** X17. A run of the generator, the random numbers drawn being of 7
    digits and the listing of [images/] giving each file name once,
    without a slash. The run does not raise. For every PNG file of the
    listing (not a dot file) whose last row in the tables, taken in the
    order train, val, test, has a box string, it leaves [<root>.json],
    holding one image entry for the file and one annotation for each box
    parsed from that string, under two ids of 10 digits. Every other
    file is as it was: an image without such a row gets no JSON file. *)
Theorem generator_writes_json (decode : string -> option (Z * Z)) (draws : nat -> Z * Z)
    (train val test : list (string * option string))
    (listing : list (string * string)) (json : gmap string Generate.coco) :
  (forall i, 1000000 <= fst (draws i) <= 9999999) ->
  NoDup (map fst listing) ->
  (forall file, file ∈ listing -> "/"%char ∉ chars (fst file)) ->
  exists st,
    Generate.main decode draws train val test listing json = Ok st
    /\ (forall name content s,
          (name, content) ∈ Generate.glob_png listing ->
          dict_get name (rev (train ++ val ++ test)) = Some (Some s) ->
          exists boxes image_id annotation_id,
            Generate.parse_boxes_string (Some s) = Ok boxes
            /\ 1000000000 <= image_id <= 9999999999
            /\ 1000000000 <= annotation_id <= 9999999999
            /\ Generate.json_files st !! (splitext_root name +:+ ".json")
               = Some (Generate.create_coco_annotation decode content name boxes
                         image_id annotation_id))
    /\ (forall key,
          (forall name content s,
             (name, content) ∈ Generate.glob_png listing ->
             dict_get name (rev (train ++ val ++ test)) = Some (Some s) ->
             key <> splitext_root name +:+ ".json") ->
          Generate.json_files st !! key = json !! key).
Proof.
  intros Hdraws Hdup Hslash. unfold Generate.main. cbv zeta.
  change (dict_update
            (dict_update (dict_update [] (Generate.read_csv_data train))
                         (Generate.read_csv_data val))
            (Generate.read_csv_data test))
    with (Spec.all_data train val test).
  rewrite process_files_spec by exact Hdraws.
  cbn [Generate.json_files Generate.drawn].
  set (files := Spec.annotated (Spec.all_data train val test) (Generate.glob_png listing)).
  eexists. split; [reflexivity|]. cbn [Generate.json_files].
  assert (forall name content, (name, content) ∈ Generate.glob_png listing ->
            exists root, name = root +:+ ".png" /\ splitext_root name = root) as Hroot.
  { intros name content Hin. unfold Generate.glob_png in Hin.
    apply list_elem_of_In, List.filter_In in Hin as [Hin Hpng]. cbn [fst] in Hpng.
    apply andb_prop in Hpng as [Hpng Hdot]. apply negb_true_iff in Hdot.
    apply list_elem_of_In in Hin. apply Hslash in Hin. cbn [fst] in Hin.
    destruct (png_name_root name Hin Hpng Hdot) as (root & Hname & Hsplit & _).
    now exists root. }
  split.
  - intros name content s Hin Hget. rewrite <- all_data_get in Hget.
    assert ((name, content, s) ∈ files) as Hfile by now apply elem_of_annotated.
    destruct (json_writes_in decode draws 0 files name content s Hfile) as [first Hwrite].
    exists (Spec.generate_boxes s), (Spec.unique_id (draws first)),
      (Spec.unique_id (draws (S first))).
    split; [apply generate_parse_boxes_string_spec|].
    split; [apply (unique_id_bounds draws first Hdraws)|].
    split; [apply (unique_id_bounds draws (S first) Hdraws)|].
    apply lookup_written; [exact Hwrite|].
    intros doc Hdoc.
    apply (json_writes_functional decode draws 0 files
             (splitext_root name +:+ ".json")); try assumption.
    + apply annotated_names, glob_png_names, Hdup.
    + intros n1 c1 s1 n2 c2 s2 Hn1 Hn2 Heq.
      apply elem_of_annotated in Hn1 as [Hn1 _], Hn2 as [Hn2 _].
      destruct (Hroot _ _ Hn1) as (r1 & -> & Hr1), (Hroot _ _ Hn2) as (r2 & -> & Hr2).
      congruence.
  - intros key Hkey. rewrite lookup_write_files.
    destruct (fold_left Spec.write_file (Spec.json_writes decode draws 0 files) ∅ !! key)
      as [doc|] eqn:Hlook; [|reflexivity].
    apply lookup_write_files_Some in Hlook as [Hlook|Hlook];
      [|now rewrite lookup_empty in Hlook].
    destruct (json_writes_key _ _ _ _ _ _ Hlook) as (name & content & s & _ & Hin & Hk & _).
    apply elem_of_annotated in Hin as [Hin Hget]. rewrite all_data_get in Hget.
    now destruct (Hkey name content s Hin Hget).
Qed.

Lemma generator_writes_json_witness :
  exists st,
    Generate.main (fun _ => None) (fun _ => (1234567, 1700000042))
      [("a.png", Some "1 2 3 4")] [] [] [("a.png", "PNG"); ("b.png", "PNG")] ∅ = Ok st
    /\ is_Some (Generate.json_files st !! "a.json")
    /\ Generate.json_files st !! "b.json" = None.
Proof.
  destruct (generator_writes_json (fun _ => None) (fun _ => (1234567, 1700000042))
              [("a.png", Some "1 2 3 4")] [] [] [("a.png", "PNG"); ("b.png", "PNG")] ∅)
    as (st & Hrun & Hwritten & Hothers).
  - intros _. cbn. lia.
  - apply (bool_decide_unpack _). vm_compute. reflexivity.
  - intros file Hfile.
    apply elem_of_cons in Hfile as [->|Hfile];
      [|apply elem_of_cons in Hfile as [->|Hfile]; [|now apply elem_of_nil in Hfile]];
      vm_compute; intros H;
      repeat (apply elem_of_cons in H as [H|H]; [discriminate|]);
      now apply elem_of_nil in H.
  - exists st. split; [exact Hrun|]. split.
    + destruct (Hwritten "a.png" "PNG" "1 2 3 4")
        as (boxes & image_id & annotation_id & _ & _ & _ & Hlook).
      * vm_compute. apply list_elem_of_here.
      * reflexivity.
      * change (splitext_root "a.png" +:+ ".json") with "a.json" in Hlook. eauto.
    + rewrite Hothers; [apply lookup_empty|].
      intros name content s Hin Hget.
      change (Generate.glob_png [("a.png", "PNG"); ("b.png", "PNG")])
        with [("a.png", "PNG"); ("b.png", "PNG")] in Hin.
      apply elem_of_cons in Hin as [[= -> ->]|Hin];
        [|apply elem_of_cons in Hin as [[= -> ->]|Hin]; [|now apply elem_of_nil in Hin]].
      * discriminate.
      * discriminate.
Defined.

(** ** The Reorganizer's CSV files in the converter *)

Lemma reorganize_labels (cell : option string) (boxes : list Reorganize.box) :
  Reorganize.parse_boxes_string cell = Ok boxes ->
  Forall (fun b => Reorganize.label b = 1) boxes.
Proof.
  destruct cell as [s|]; [|intros [= <-]; constructor].
  rewrite reorganize_parse_boxes_string_spec. intros [= <-].
  destruct (reorganize_segments_items (split_on ";" s) 0) as [_ Hall].
  eapply Forall_impl; [exact Hall|]. now intros b [_ Hb].
Qed.

Lemma parse_reorganizer_row (item x y w h : string) (acc : list Coco.box) :
  exists acc',
    Coco.parse_row (zip_fields Reorganize.header [item; x; y; w; h; "1"]) acc = Ok acc'
    /\ (acc' = acc \/ exists b, acc' = acc ++ [b] /\ Coco.category_id b = 1).
Proof.
  unfold Coco.parse_row.
  change (Coco.lower_row (zip_fields Reorganize.header [item; x; y; w; h; "1"]) [])
    with (Ok [("#item", Some item); ("x", Some x); ("y", Some y); ("width", Some w);
              ("height", Some h); ("label", Some "1")] : result (dict (option string))).
  rewrite bind_Ok, !get_head, !bind_Ok.
  set (row := [("#item", Some item); ("x", Some x); ("y", Some y); ("width", Some w);
               ("height", Some h); ("label", Some "1")]).
  assert (head (omap (Spec.cell_value row) ["label"; "class"; "category_id"])
          = Some (float_of_Z 1)) as -> by (vm_compute; reflexivity).
  assert (head (omap (Spec.cell_value row) ["r"; "radius"]) = None) as ->
    by (vm_compute; reflexivity).
  generalize (head (omap (Spec.cell_value row) ["x"; "xc"; "x_center"])),
    (head (omap (Spec.cell_value row) ["y"; "yc"; "y_center"])),
    (head (omap (Spec.cell_value row) ["w"; "width"; "dx"])),
    (head (omap (Spec.cell_value row) ["h"; "height"; "dy"])).
  intros [fx|] [fy|] fw fh; try (exists acc; split; [reflexivity | now left]).
  change (int_of_float (float_of_Z 1)) with (Ok 1 : result Z). rewrite bind_Ok.
  destruct fw as [fw|]; [|exists acc; split; [reflexivity | now left]].
  destruct fh as [fh|]; [|exists acc; split; [reflexivity | now left]].
  eexists. split; [reflexivity|]. right. eexists. split; reflexivity.
Qed.

(** X18. The converter never raises on a per-image CSV the Reorganizer
    wrote: for the boxes parsed from any box string, the file made of the
    header and their rows is read by [_parse_csv_boxes] without an
    exception, into at most one box for each row, each of category 1. *)
Theorem reorganizer_csv_accepted (cell : option string) (boxes : list Reorganize.box) :
  Reorganize.parse_boxes_string cell = Ok boxes ->
  exists read,
    Coco._parse_csv_boxes (Some (Reorganize.header :: map Reorganize.box_row boxes))
    = Ok read
    /\ Forall (fun b => Coco.category_id b = 1) read
    /\ (length read <= length boxes)%nat.
Proof.
  intros Hparse. apply reorganize_labels in Hparse.
  cbn [Coco._parse_csv_boxes]. unfold dict_rows.
  assert (List.filter (fun r : list string => match r with [] => false | _ => true end)
            (map Reorganize.box_row boxes) = map Reorganize.box_row boxes) as ->.
  { clear. induction boxes as [|b boxes IH]; [reflexivity|].
    cbn [map List.filter Reorganize.box_row]. now rewrite IH. }
  assert (forall acc : list Coco.box,
            Forall (fun b => Coco.category_id b = 1) acc ->
            exists read,
              Coco.parse_rows (map (zip_fields Reorganize.header)
                                   (map Reorganize.box_row boxes)) acc = Ok read
              /\ Forall (fun b => Coco.category_id b = 1) read
              /\ (length read <= length acc + length boxes)%nat) as Hloop.
  { induction Hparse as [|b boxes Hb _ IH]; intros acc Hacc.
    - exists acc. cbn. split; [reflexivity|]. split; [exact Hacc | lia].
    - cbn [map Coco.parse_rows].
      change (Reorganize.box_row b)
        with [str_of_nat (Reorganize.item b); repr (Reorganize.x b);
              repr (Reorganize.y b); repr (Reorganize.width b);
              repr (Reorganize.height b); str_of_Z (Reorganize.label b)].
      rewrite Hb. change (str_of_Z 1) with "1".
      destruct (parse_reorganizer_row (str_of_nat (Reorganize.item b))
                  (repr (Reorganize.x b)) (repr (Reorganize.y b))
                  (repr (Reorganize.width b)) (repr (Reorganize.height b)) acc)
        as (acc' & -> & Hacc').
      rewrite bind_Ok.
      destruct (IH acc') as (read & Hread & Hcat & Hlen).
      + destruct Hacc' as [->|(cb & -> & Hcb)]; [exact Hacc|].
        apply Forall_app. split; [exact Hacc | now repeat constructor].
      + exists read. split; [exact Hread|]. split; [exact Hcat|].
        cbn [length].
        destruct Hacc' as [->|(cb & -> & Hcb)]; [lia|].
        rewrite length_app in Hlen. cbn [length] in Hlen. lia. }
  destruct (Hloop [] (List.Forall_nil _)) as (read & Hread & Hcat & Hlen).
  exists read. split; [exact Hread|]. split; [exact Hcat | exact Hlen].
Qed.

Lemma reorganizer_csv_accepted_witness :
  exists read,
    Coco._parse_csv_boxes
      (Some (Reorganize.header
             :: map Reorganize.box_row (Spec.reorganize_boxes "1 2 3 4;bad;nan 0 inf 5")))
    = Ok read
    /\ Forall (fun b => Coco.category_id b = 1) read
    /\ (length read <= length (Spec.reorganize_boxes "1 2 3 4;bad;nan 0 inf 5"))%nat.
Proof.
  apply (reorganizer_csv_accepted (Some "1 2 3 4;bad;nan 0 inf 5")).
  apply reorganize_parse_boxes_string_spec.
Defined.

(** ** The images of a split document *)

Lemma collect_images (decode : string -> option (Z * Z)) (category_root_name : string)
    (images_dir : gmap string string) (annotations_dir : gmap string csv_file)
    (sets_dir : gmap string string) (split category_name : string)
    (imgs : list Coco.image) (anns : list Coco.annotation) (cats : list Coco.category) :
  Coco._collect_annotations_for_split decode category_root_name images_dir
    annotations_dir sets_dir split category_name = Ok (imgs, anns, cats) ->
  imgs = map (Spec.image_of decode category_root_name)
             (Spec.number 1 (Spec.found images_dir
                               (sorted (Coco.image_stems images_dir sets_dir split)))).
Proof.
  unfold Coco._collect_annotations_for_split.
  destruct (Coco.visit_all _ _ _ _ _ _) as [a|e] eqn:Hvisit; [|discriminate].
  rewrite bind_Ok. intros [= <- _ _].
  apply visit_all_spec in Hvisit as (per_image & _ & Himg & _). exact Himg.
Qed.

Lemma elem_of_found (images_dir : gmap string string) (stems : list string)
    (stem : string) (file : string * string) :
  (stem, file) ∈ Spec.found images_dir stems
  <-> stem ∈ stems /\ Coco.find_image images_dir stem = Some file.
Proof.
  unfold Spec.found. rewrite list_elem_of_omap. split.
  - intros (s & Hs & Hfile).
    destruct (Coco.find_image images_dir s) as [f|] eqn:Hfind; [|discriminate].
    cbn in Hfile. injection Hfile as -> ->. now split.
  - intros [Hs Hfind]. exists stem. split; [exact Hs|]. now rewrite Hfind.
Qed.







(** X20. Without a split file, a split takes every image: when
    [sets/<split>.txt] does not exist, the document of the split has an
    entry for each PNG file of [images/] (a file name without a slash
    that ends in [.png] and does not start with a dot). *)
Theorem split_without_file_takes_png (decode : string -> option (Z * Z))
    (category_root_name : string) (images_dir : gmap string string)
    (annotations_dir : gmap string csv_file) (sets_dir : gmap string string)
    (split category_name : string)
    (imgs : list Coco.image) (anns : list Coco.annotation) (cats : list Coco.category)
    (name content : string) :
  Coco._collect_annotations_for_split decode category_root_name images_dir
    annotations_dir sets_dir split category_name = Ok (imgs, anns, cats) ->
  sets_dir !! (split +:+ ".txt") = None ->
  images_dir !! name = Some content ->
  "/"%char ∉ chars name ->
  endswith ".png" name = true ->
  startswith "." name = false ->
  exists img,
    img ∈ imgs
    /\ Coco.file_name img = category_root_name +:+ "/images/" +:+ name
    /\ (Coco.width img, Coco.height img) = Coco._image_size decode content.
Proof.
  intros Hrun Hsplit Hfile Hslash Hpng Hdot.
  apply collect_images in Hrun. subst imgs.
  destruct (png_name_root name Hslash Hpng Hdot) as (root & Hname & _ & Hstem).
  assert ((stem name, (name, content))
          ∈ Spec.found images_dir (sorted (Coco.image_stems images_dir sets_dir split)))
    as Hfound.
  { apply elem_of_found. split.
    - apply elem_of_sorted. unfold Coco.image_stems. rewrite Hsplit. cbv zeta.
      cbn [Coco._read_split_list list_to_set].
      rewrite decide_True by reflexivity.
      apply elem_of_union_l, elem_of_union_r. unfold Coco.glob_stems.
      apply elem_of_list_to_set, list_elem_of_fmap. exists name. split; [reflexivity|].
      apply list_elem_of_In, List.filter_In. split; [|exact Hpng].
      apply list_elem_of_In, elem_of_elements, elem_of_dom. eauto.
    - unfold Coco.find_image. rewrite Hstem, <- Hname, Hfile. reflexivity. }
  apply list_elem_of_lookup in Hfound as [i Hi].
  exists (Spec.image_of decode category_root_name (1 + Z.of_nat i, (stem name, (name, content)))).
  split.
  - apply list_elem_of_fmap. exists (1 + Z.of_nat i, (stem name, (name, content))).
    split; [reflexivity|]. clear -Hi.
    revert i Hi. generalize 1.
    induction (Spec.found images_dir _) as [|e l IH]; intros n i Hi; [discriminate|].
    destruct i as [|i]; cbn [Spec.number].
    + injection Hi as ->. replace (n + Z.of_nat 0) with n by lia. now left.
    + right. replace (n + Z.of_nat (S i)) with (n + 1 + Z.of_nat i) by lia.
      now apply IH.
  - split; [reflexivity|]. cbn [Spec.image_of Coco.width Coco.height].
    now destruct (Coco._image_size decode content).
Qed.

Lemma split_without_file_takes_png_witness :
  exists img,
    img ∈ [ {| Coco.image_id_of := 1; Coco.file_name := "wheat_heads/images/a.png";
               Coco.width := 1024; Coco.height := 1024 |} ]
    /\ Coco.file_name img = "wheat_heads" +:+ "/images/" +:+ "a.png"
    /\ (Coco.width img, Coco.height img) = Coco._image_size (fun _ => None) "PNG".
Proof.
  apply (split_without_file_takes_png (fun _ => None) "wheat_heads"
           {[ "a.png" := "PNG"; "a.jpg" := "JPG" ]} ∅ ∅ "train" "wheat_head" _ []
           [ {| Coco.cat_id := 1; Coco.name := "wheat_head";
                Coco.supercategory := "cereal" |} ]).
  - vm_compute. reflexivity.
  - reflexivity.
  - vm_compute. reflexivity.
  - vm_compute. intros H. repeat (apply elem_of_cons in H as [H|H]; [discriminate|]).
    now apply elem_of_nil in H.
  - reflexivity.
  - reflexivity.
Defined.


(** ** [_lower_keys] *)

Lemma lower_char_idempotent (c : ascii) : lower_char (lower_char c) = lower_char c.
Proof. destruct c as [[] [] [] [] [] [] [] []]; vm_compute; reflexivity. Qed.

Lemma lower_idempotent (s : string) : lower (lower s) = lower s.
Proof.
  unfold lower. rewrite chars_str, map_map. f_equal.
  apply map_ext. intros c. apply lower_char_idempotent.
Qed.

(** X21. [_lower_keys] maps each key in lower case to the value of the
    last key of the mapping that has this lower-case form, so that of two
    keys that differ by case only the later one is kept; a key that is
    not in lower case is not a key of the result. *)
Theorem lower_keys_get (mapping : dict string) (k : string) :
  dict_get k (Coco._lower_keys mapping)
  = dict_get k (rev (map (fun kv => (lower (fst kv), snd kv)) mapping))
  /\ (lower k <> k -> dict_get k (Coco._lower_keys mapping) = None).
Proof.
  assert (dict_get k (Coco._lower_keys mapping)
          = dict_get k (rev (map (fun kv => (lower (fst kv), snd kv)) mapping))) as Hget.
  { unfold Coco._lower_keys.
    assert (forall d : dict string,
               fold_left (fun d kv => dict_set (lower (fst kv)) (snd kv) d) mapping d
               = dict_update d (map (fun kv => (lower (fst kv), snd kv)) mapping)) as ->.
    { unfold dict_update. induction mapping as [|kv mapping IH]; intros d; [reflexivity|].
      cbn [map fold_left fst snd]. apply IH. }
    rewrite dict_get_update. now destruct (dict_get k _). }
  split; [exact Hget|].
  intros Hk. rewrite Hget. apply dict_get_None. unfold dict_keys.
  intros Hin. apply list_elem_of_fmap in Hin as ([k' v] & -> & Hin).
  apply list_elem_of_In, in_rev, list_elem_of_In, list_elem_of_fmap in Hin
    as ([k'' v'] & [= -> ->] & _).
  cbn [fst] in Hk. now rewrite lower_idempotent in Hk.
Qed.
